(** * CMMC SSP parser: evidence enrichment, text normalisation, validation

    A shallow embedding of the data-handling core of
    [cmmc_parser_evidence_bigdam.py] (class [CMMCParser]):

    - [parse_delimited_content]        (the delimited-text normaliser),
    - [format_evidence_entry]          (the evidence-entry formatter),
    - [load_evidence_enrichment]       (the builder of [evidence_map]),
    - [get_enriched_evidence_strings]  (the lookup with de-duplication),
    - [validate_csv_data]              (the business-rule validator).

    Cells of a pandas row are values of type [value]; a row is a finite map
    from column names to cells; the dictionary [self.evidence_map] is a
    finite map from control identifiers to lists of display strings.
    Logging has no effect on the data and is left out. *)

From stdpp Require Import base decidable option list gmap strings pretty.
From Stdlib Require Import Ascii ZArith Lia.

Local Open Scope Z_scope.
Local Open Scope stdpp_scope.

(** ** Python strings

    A character is a code point below 256 and a Python [str] is a [string].
    Only the string methods the parser calls are modelled. *)
Module Py.

(** [str.isspace] on one character: the code points that [str.strip()]
    removes (TAB, LF, VT, FF, CR, FS, GS, RS, US, SPACE, NEL, NBSP). *)
Definition isspace (c : ascii) : bool :=
  match c with
  | "009" | "010" | "011" | "012" | "013"
  | "028" | "029" | "030" | "031" | " " | "133" | "160" => true
  | _ => false
  end%char.

Fixpoint lstrip (s : string) : string :=
  match s with
  | EmptyString => EmptyString
  | String c s' => if isspace c then lstrip s' else s
  end.

Fixpoint rstrip (s : string) : string :=
  match s with
  | EmptyString => EmptyString
  | String c s' =>
      match rstrip s' with
      | EmptyString => if isspace c then EmptyString else String c EmptyString
      | r => String c r
      end
  end.

(** [s.strip()] *)
Definition strip (s : string) : string := rstrip (lstrip s).

(** [c.upper()] on the letters a-z; every other character is kept.  The
    parser only compares upper-cased text with words written in A-Z and
    [&], and no other character below 256 is upper-cased to one of
    those. *)
Definition upper_char (c : ascii) : ascii :=
  let n := nat_of_ascii c in
  if (97 <=? n)%nat && (n <=? 122)%nat then ascii_of_nat (n - 32) else c.

Fixpoint upper (s : string) : string :=
  match s with
  | EmptyString => EmptyString
  | String c s' => String (upper_char c) (upper s')
  end.

(** [s.startswith(p)] *)
Fixpoint startswith (p s : string) : bool :=
  match p, s with
  | EmptyString, _ => true
  | String a p', String b s' => bool_decide (a = b) && startswith p' s'
  | String _ _, EmptyString => false
  end.

(** [p in s] for strings *)
Fixpoint contains (p s : string) : bool :=
  startswith p s ||
  match s with
  | EmptyString => false
  | String _ s' => contains p s'
  end.

(** [s.replace(a, b)] for one-character [a] and [b] *)
Fixpoint replace (a b : ascii) (s : string) : string :=
  match s with
  | EmptyString => EmptyString
  | String c s' => String (if bool_decide (c = a) then b else c) (replace a b s')
  end.

(** [s.split(sep)] for a one-character separator: always at least one
    piece. *)
Fixpoint split (sep : ascii) (s : string) : list string :=
  match s with
  | EmptyString => [EmptyString]
  | String c s' =>
      if bool_decide (c = sep) then EmptyString :: split sep s'
      else match split sep s' with
           | p :: ps => String c p :: ps
           | [] => [String c EmptyString]
           end
  end.

(** [s.endswith(c)] for a one-character suffix *)
Fixpoint endswith (c : ascii) (s : string) : bool :=
  match s with
  | EmptyString => false
  | String a EmptyString => bool_decide (a = c)
  | String _ s' => endswith c s'
  end.

(** [s[:-1]] *)
Fixpoint drop_last (s : string) : string :=
  match s with
  | EmptyString => EmptyString
  | String _ EmptyString => EmptyString
  | String a s' => String a (drop_last s')
  end.

End Py.

(** ** Cells

    What a cell of a row read by pandas holds: the missing-value marker
    ([NaN]), text, or an integer.  (Floating-point cells other than [NaN]
    are outside the model.) *)
Inductive value : Type :=
  | NaN
  | Str (s : string)
  | Int (z : Z).

Global Instance value_eq_dec : EqDecision value.
Proof. solve_decision. Defined.

(** [pd.isna(v)] *)
Definition isna (v : value) : bool :=
  match v with NaN => true | _ => false end.

(** [str(v)], also the text an f-string puts for [{v}] *)
Definition str (v : value) : string :=
  match v with
  | NaN => "nan"
  | Str s => s
  | Int z => pretty z
  end.

(** [v == ''] *)
Definition is_empty_str (v : value) : bool := bool_decide (v = Str "").

(** Python truthiness, [bool(v)]: [NaN] is a non-zero float. *)
Definition truthy (v : value) : bool :=
  match v with
  | NaN => true
  | Str s => negb (bool_decide (s = ""))
  | Int z => negb (bool_decide (z = 0))
  end.

(** A pandas row ([Series]): column name to cell.  ['c' in row] is
    [is_Some (row !! c)], [row.get(c, d)] is [row_get]. *)
Abbreviation row := (gmap string value).

Definition row_get (r : row) (c : string) (d : value) : value :=
  default d (r !! c).

(** The guard the parser puts before it reads an optional column:
    ['c' in row and not pd.isna(row[c]) and row[c] != ''], followed by
    [str(row[c])]. *)
Definition field (r : row) (c : string) : option string :=
  match r !! c with
  | Some v => if negb (isna v) && negb (is_empty_str v) then Some (str v) else None
  | None => None
  end.

(** ** parse_delimited_content *)

Definition placeholders : list string :=
  [""; "header"; "bullet_1"; "bullet_2"; "bullet1"; "bullet2"].

(** One turn of the loop [for item in content.split(';')], on the list
    [items] built so far. *)
Definition parse_item (items : list string) (piece : string) : list string :=
  let item := Py.strip piece in
  if negb (bool_decide (item = "")) && negb (bool_decide (item ∈ placeholders)) then
    let item := if Py.endswith "." item then Py.strip (Py.drop_last item) else item in
    items ++ [item]
  else items.

Definition parse_delimited_content (content : value) : list string :=
  if isna content || is_empty_str content then []
  else
    let content := str content in
    let content := Py.replace "|" ";" content in
    foldl parse_item [] (Py.split ";" content).

(** ** format_evidence_entry *)

Definition format_evidence_entry (r : row) : string :=
  let entry_parts : list string := [] in
  (* the SharePoint link, in brackets *)
  let entry_parts :=
    match field r "Current_Sharepoint_Link" with
    | Some link => entry_parts ++ ["[" +:+ Py.strip link +:+ "]"]
    | None => entry_parts
    end in
  (* the description, or else the file name *)
  let entry_parts :=
    match field r "Description" with
    | Some description =>
        let description := Py.strip description in
        if negb (Py.contains "IGNORE" (Py.upper description))
        then entry_parts ++ [description]
        else entry_parts
    | None =>
        match field r "File_Name" with
        | Some file_name => entry_parts ++ [Py.strip file_name]
        | None => entry_parts
        end
    end in
  match entry_parts with
  | [a; b] => a +:+ " - " +:+ b
  | a :: _ => a
  | [] => ""
  end.

(** ** load_evidence_enrichment

    The state is the dictionary [self.evidence_map]. *)
Abbreviation evidence_map := (gmap string (list string)).

(** The test of lines 107-108: the row is marked IGNORE. *)
Definition marked_ignore (r : row) : bool :=
  match r !! "Description" with
  | Some d => negb (isna d) && Py.contains "IGNORE" (Py.upper (str d))
  | None => false
  end.

(** Lines 116-126: the identifiers the row is mapped to, the suggested
    mappings first and the provided ones as the fallback. *)
Definition cmmc_mappings (r : row) : list string :=
  match field r "Suggested_CMMC_Mappings" with
  | Some suggested => parse_delimited_content (Str suggested)
  | None =>
      match field r "Provided_CMMC_Mappings" with
      | Some provided => parse_delimited_content (Str provided)
      | None => []
      end
  end.

(** One turn of [for cmmc_id in cmmc_mappings]. *)
Definition add_evidence (evidence_entry : string)
    (m : evidence_map) (cmmc_id : string) : evidence_map :=
  let cmmc_id := Py.strip cmmc_id in
  if negb (bool_decide (cmmc_id = "")) then
    let m := match m !! cmmc_id with
             | Some _ => m
             | None => <[cmmc_id := []]> m
             end in
    <[cmmc_id := default [] (m !! cmmc_id) ++ [evidence_entry]]> m
  else m.

(** One turn of [for index, row in evidence_df.iterrows()]. *)
Definition load_evidence_row (m : evidence_map) (r : row) : evidence_map :=
  if isna (row_get r "Suggested_CMMC_Mappings" (Str ""))
     && isna (row_get r "Provided_CMMC_Mappings" (Str ""))
  then m
  else if marked_ignore r then m
  else
    let evidence_entry := format_evidence_entry r in
    foldl (add_evidence evidence_entry) m (cmmc_mappings r).

(** The whole loop over the rows of the evidence table. *)
Definition load_evidence_enrichment
    (m : evidence_map) (evidence_df : list row) : evidence_map :=
  foldl load_evidence_row m evidence_df.

(** ** get_enriched_evidence_strings *)

(** One turn of the de-duplication loop on [(seen, unique_items)]. *)
Definition dedup_step (st : gset string * list string) (item : string)
    : gset string * list string :=
  let '(seen, unique_items) := st in
  if bool_decide (item ∉ seen) then ({[item]} ∪ seen, unique_items ++ [item])
  else st.

Definition get_enriched_evidence_strings
    (m : evidence_map) (cmmc_id : string) (existing_evidence : value)
    : list string :=
  let evidence_items : list string := [] in
  let evidence_items :=
    if truthy existing_evidence && negb (isna existing_evidence)
       && negb (is_empty_str existing_evidence)
    then evidence_items ++ parse_delimited_content existing_evidence
    else evidence_items in
  let evidence_items :=
    match m !! cmmc_id with
    | Some l => evidence_items ++ l
    | None => evidence_items
    end in
  (foldl dedup_step (∅, []) evidence_items).2.

(** ** validate_csv_data *)

(** [row[c]] raises [KeyError] when the column is missing. *)
Inductive result (A : Type) : Type :=
  | Ok (a : A)
  | KeyError (c : string).
Arguments Ok {A} a.
Arguments KeyError {A} c.

Global Instance result_bind : MBind result := λ A B f x,
  match x with
  | Ok a => f a
  | KeyError c => KeyError c
  end.

Definition getitem (r : row) (c : string) : result value :=
  match r !! c with
  | Some v => Ok v
  | None => KeyError c
  end.

(** [v in [1, 3, 5]] and [v in [3, 5]]: text and [NaN] equal no integer. *)
Definition in_ints (v : value) (l : list Z) : bool :=
  match v with
  | Int z => bool_decide (z ∈ l)
  | _ => false
  end.

(** The validator's state: [(validation_errors, validation_warnings)]. *)
Definition report : Type := list string * list string.

(** One turn of [for index, row in df.iterrows()]. *)
Definition validate_row (st : report) (ir : Z * row) : result report :=
  let '(validation_errors, validation_warnings) := st in
  let '(index, r) := ir in
  id_cell ← getitem r "CMMC_ID" ;
  if isna id_cell || bool_decide (Py.strip (str id_cell) = "") then
    Ok (validation_errors ++ ["Row " +:+ pretty index +:+ ": Missing CMMC_ID"],
        validation_warnings)
  else
    let cmmc_id := str id_cell in
    control ← getitem r "Control" ;
    let validation_warnings :=
      if isna control || is_empty_str control
      then validation_warnings
             ++ ["Control " +:+ cmmc_id +:+ ": Missing Control description"]
      else validation_warnings in
    score ← getitem r "Score" ;
    let validation_errors :=
      if negb (in_ints score [1; 3; 5])
      then validation_errors
             ++ ["Control " +:+ cmmc_id +:+ ": Invalid Score value '"
                 +:+ str score +:+ "' (must be 1, 3, or 5)"]
      else validation_errors in
    (* [and] is lazy: the status column is read only for a score of 3 or 5 *)
    if in_ints score [3; 5] then
      status ← getitem r "AR_CAP_POAM" ;
      if bool_decide (Py.upper (str status) ∈ ["POA&M"; "POAM"]) then
        Ok (validation_errors
              ++ ["Control " +:+ cmmc_id +:+ ": CRITICAL - Score=" +:+ str score
                  +:+ " (non-POAMable) but AR_CAP_POAM='" +:+ str status +:+ "'"],
            validation_warnings)
      else Ok (validation_errors, validation_warnings)
    else Ok (validation_errors, validation_warnings).

(** The loop over the table; a [KeyError] ends it. *)
Fixpoint validate_csv_data (st : report) (df : list (Z * row)) : result report :=
  match df with
  | [] => Ok st
  | ir :: df' => st' ← validate_row st ir ; validate_csv_data st' df'
  end.

(** * Definitions used to state the properties *)

(** ** The normaliser, as a pipeline

    The wording of the specification: unify the delimiters, split, trim,
    drop the empty pieces and the placeholder tokens, then strip one
    trailing period from what is left (and trim again). *)
Module NormalizerSpec.

Definition placeholder_tokens : list string :=
  ["header"; "bullet_1"; "bullet_2"; "bullet1"; "bullet2"].

Definition kept (item : string) : Prop :=
  item ≠ "" ∧ item ∉ placeholder_tokens.

Global Instance kept_dec item : Decision (kept item).
Proof. unfold kept. apply _. Defined.

Definition strip_trailing_period (item : string) : string :=
  if Py.endswith "." item then Py.strip (Py.drop_last item) else item.

Definition normalize (content : value) : list string :=
  match content with
  | NaN => []
  | _ =>
      strip_trailing_period
        <$> filter kept (Py.strip <$> Py.split ";" (Py.replace "|" ";" (str content)))
  end.

End NormalizerSpec.

(** ** The formatter, by cases

    The wording of the specification: a link part, a descriptive part, and
    how the two are combined. *)
Module FormatterSpec.

(** The link, in brackets, when the link cell is present and not empty. *)
Definition link_part (r : row) : option string :=
  (λ link, "[" +:+ Py.strip link +:+ "]") <$> field r "Current_Sharepoint_Link".

(** The description when it is present, not empty and does not contain
    [IGNORE] in any letter case; the file name only when the description
    is absent or empty. *)
Definition descriptive_part (r : row) : option string :=
  match field r "Description" with
  | Some description =>
      if Py.contains "IGNORE" (Py.upper description) then None
      else Some (Py.strip description)
  | None => Py.strip <$> field r "File_Name"
  end.

Definition combine (link descriptive : option string) : string :=
  match link, descriptive with
  | Some l, Some d => l +:+ " - " +:+ d
  | Some l, None => l
  | None, Some d => d
  | None, None => ""
  end.

End FormatterSpec.

(** ** De-duplication, declaratively

    [keep_first l] keeps, of every string of [l], the first occurrence and
    drops the later ones. *)
Fixpoint keep_first (l : list string) : list string :=
  match l with
  | [] => []
  | x :: l' => x :: filter (λ y, y ≠ x) (keep_first l')
  end.

(** The character [a] occurs in [s]. *)
Fixpoint occurs (a : ascii) (s : string) : bool :=
  match s with
  | EmptyString => false
  | String c s' => bool_decide (c = a) || occurs a s'
  end.

(** How many times [id] occurs in [ids]. *)
Definition occurrences (id : string) (ids : list string) : nat :=
  length (filter (λ c, c = id) ids).

(** The columns [validate_csv_data] reads with [row[...]]. *)
Definition has_columns (r : row) : Prop :=
  is_Some (r !! "CMMC_ID") ∧ is_Some (r !! "Control")
  ∧ is_Some (r !! "Score") ∧ is_Some (r !! "AR_CAP_POAM").

(** What [validate_csv_data] reads of a row with [row[...]]: the identifier
    always; the control text and the score when the row has an identifier;
    the status only when the score is 3 or 5 ([and] is lazy). *)
Definition validator_reads (r : row) : Prop :=
  ∃ id_cell,
    r !! "CMMC_ID" = Some id_cell
    ∧ (isna id_cell = false → Py.strip (str id_cell) ≠ "" →
       is_Some (r !! "Control")
       ∧ ∃ score, r !! "Score" = Some score
                  ∧ (in_ints score [3; 5] = true → is_Some (r !! "AR_CAP_POAM"))).

(** The text of the POA&M error of lines 260-262. *)
Definition poam_error (cmmc_id score status : value) : string :=
  "Control " +:+ str cmmc_id +:+ ": CRITICAL - Score=" +:+ str score
  +:+ " (non-POAMable) but AR_CAP_POAM='" +:+ str status +:+ "'".

(** ** Rows of the scenarios *)



(** The row of the specification's IGNORE scenario. *)
Definition ignored_row : row :=
  <["Description" := Str "Old evidence - IGNORE"]>
    (<["Suggested_CMMC_Mappings" := Str "3.1.1"]> ∅).

(** A row with a mapping and nothing to display. *)
Definition bare_row : row := <["Suggested_CMMC_Mappings" := Str "3.1.1"]> ∅.

(** The evidence row of the end-to-end scenario. *)
Definition backup_row : row :=
  <["Current_Sharepoint_Link" := Str "http://s"]>
    (<["Description" := Str "Backup logs"]>
       (<["Suggested_CMMC_Mappings" := Str "3.4.1|3.4.2"]> ∅)).

(** A complete control row: score 3, marked POA&M. *)
Definition poam_row_score3 : row :=
  <["CMMC_ID" := Str "3.1.1"]>
    (<["Control" := Str "Limit system access"]>
       (<["Score" := Int 3]> (<["AR_CAP_POAM" := Str "POA&M"]> ∅))).

(** A complete control row: score 1, marked POA&M. *)
Definition poam_row_score1 : row :=
  <["CMMC_ID" := Str "3.1.2"]>
    (<["Control" := Str "Limit transactions"]>
       (<["Score" := Int 1]> (<["AR_CAP_POAM" := Str "POA&M"]> ∅))).

(** The first row without its [Control] column. *)
Definition row_missing_control : row :=
  <["CMMC_ID" := Str "3.1.1"]>
    (<["Score" := Int 3]> (<["AR_CAP_POAM" := Str "POA&M"]> ∅)).

(** A table without the [Control] column: two rows with the columns
    [CMMC_ID], [Score] and [AR_CAP_POAM], both of a score that cannot be
    marked POA&M and both marked. *)
Definition second_row_missing_control : row :=
  <["CMMC_ID" := Str "3.1.2"]>
    (<["Score" := Int 5]> (<["AR_CAP_POAM" := Str "POAM"]> ∅)).

Definition table_missing_control : list (Z * row) :=
  [(0, row_missing_control); (1, second_row_missing_control)].

(** A row of score 1 of a table without the [AR_CAP_POAM] column. *)
Definition row_score1_no_status : row :=
  <["CMMC_ID" := Str "3.1.2"]>
    (<["Control" := Str "Limit transactions"]> (<["Score" := Int 1]> ∅)).

(** * The functions around the index *)

(** ** Further string and list methods *)
Module PyMore.

(** [sep.join(l)] *)
Fixpoint join (sep : string) (l : list string) : string :=
  match l with
  | [] => ""
  | x :: l' =>
      match l' with
      | [] => x
      | _ :: _ => x +:+ sep +:+ join sep l'
      end
  end.

(** [s.count(c)] for a one-character [c] *)
Fixpoint count (c : ascii) (s : string) : nat :=
  match s with
  | EmptyString => O
  | String a s' => if bool_decide (a = c) then S (count c s') else count c s'
  end.

(** [s.split(sep)] for a separator of one character or more: the
    occurrences of [sep] are found from the left and do not overlap;
    [skip] counts the characters of an occurrence still to be passed. *)
Fixpoint split_str_go (sep : string) (skip : nat) (s : string) : list string :=
  match s with
  | EmptyString => [EmptyString]
  | String c s' =>
      match skip with
      | S k => split_str_go sep k s'
      | O =>
          if Py.startswith sep s
          then EmptyString :: split_str_go sep (String.length sep - 1) s'
          else match split_str_go sep 0 s' with
               | p :: ps => String c p :: ps
               | [] => [String c EmptyString]
               end
      end
  end.

Definition split_str (sep s : string) : list string := split_str_go sep 0 s.

End PyMore.

(** ** CONTROL_FAMILIES and get_control_family *)

Definition CONTROL_FAMILIES : gmap string string :=
  list_to_map
    [ ("3.1", "AC - Access Control");
      ("3.2", "AT - Awareness and Training");
      ("3.3", "AU - Audit and Accountability");
      ("3.4", "CM - Configuration Management");
      ("3.5", "IA - Identification and Authentication");
      ("3.6", "IR - Incident Response");
      ("3.7", "MA - Maintenance");
      ("3.8", "MP - Media Protection");
      ("3.9", "PS - Personnel Security");
      ("3.10", "PE - Physical Protection");
      ("3.11", "RA - Risk Assessment");
      ("3.12", "SA - Security Assessment");
      ("3.13", "SC - System and Communications Protection");
      ("3.14", "SI - System and Information Integrity") ].

(** ['.'.join(text.split('.')[:2])] *)
Definition family_prefix (text : string) : string :=
  PyMore.join "." (take 2 (Py.split "." text)).

Definition get_control_family (cmmc_id : value) : string :=
  let cmmc_id := str cmmc_id in
  default "Unknown" (CONTROL_FAMILIES !! family_prefix cmmc_id).

(** [family.split(' - ')[0]], as the callers of [get_control_family] take
    the key of a family. *)
Definition family_key_of (family : string) : string :=
  default "" (head (PyMore.split_str " - " family)).

(** ** get_control_title *)

Definition get_control_title (control_text : value) : string :=
  if isna control_text || is_empty_str control_text then "Untitled Control"
  else
    let text := str control_text in
    let items := parse_delimited_content (Str text) in
    let text := match items with
                | [] => text
                | _ :: _ => PyMore.join ", " items
                end in
    if Py.endswith "." text then Py.drop_last text else text.

(** ** The implementation status (lines 272-277 and 425-430) *)

Definition implementation_status (ar_cap_poam : value) : string :=
  if bool_decide (Py.upper (str ar_cap_poam) ∈ ["POA&M"; "POAM"])
  then "Plan of Action & Milestones (POA&M)"
  else if bool_decide (Py.upper (str ar_cap_poam) = "AUDIT READY")
  then "Audit Ready"
  else "Implemented".

(** ** The delimiter of a table, from its first line (lines 89-94, 735-742) *)

Definition detect_delimiter (first_line : string) : ascii :=
  if Py.contains "|" first_line
     && (PyMore.count "," first_line <? PyMore.count "|" first_line)%nat
  then "|"%char else ","%char.

(** ** Grouping the controls by family (lines 522-531 and 579-588)

    [families] is a dictionary, read back in insertion order: a list of
    keys with their lists, each key once. *)
Abbreviation families_dict := (list (string * list row)).

(** [if k not in d: d[k] = []] followed by [d[k].append(x)] *)
Fixpoint dict_append (d : families_dict) (k : string) (x : row) : families_dict :=
  match d with
  | [] => [(k, [x])]
  | (k', l) :: d' =>
      if bool_decide (k' = k) then (k', l ++ [x]) :: d'
      else (k', l) :: dict_append d' k x
  end.

(** One turn of [for index, row in df.iterrows()]. *)
Definition group_row (families : families_dict) (ir : Z * row)
    : result families_dict :=
  let '(index, r) := ir in
  id_cell ← getitem r "CMMC_ID" ;
  if isna id_cell then Ok families
  else
    let family := get_control_family id_cell in
    let family_key := family_key_of family in
    Ok (dict_append families family_key r).

Fixpoint group_by_family (families : families_dict) (df : list (Z * row))
    : result families_dict :=
  match df with
  | [] => Ok families
  | ir :: df' => families' ← group_row families ir ; group_by_family families' df'
  end.

(** ** The status counts of the validation report (lines 645-647)

    A table is its list of column names and its rows; [df[c]] raises
    [KeyError] when [c] is no column, also on a table without rows. *)
Record frame : Type := {
  columns : list string;
  rows : list (Z * row);
}.

(** [df[c]], the cells of one column in row order *)
Definition frame_getitem (df : frame) (c : string) : result (list value) :=
  if bool_decide (c ∈ columns df)
  then Ok ((λ ir : Z * row, default NaN (ir.2 !! c)) <$> rows df)
  else KeyError c.

(** [(implemented, audit_ready, poam_count)] as the report prints them *)
Definition status_counts (df : frame) : result (Z * Z * Z) :=
  col ← frame_getitem df "AR_CAP_POAM" ;
  let poam_count :=
    Z.of_nat (length (filter (λ v, Py.upper (str v) ∈ ["POA&M"; "POAM"]) col)) in
  col ← frame_getitem df "AR_CAP_POAM" ;
  let audit_ready :=
    Z.of_nat (length (filter (λ v, Py.upper (str v) = "AUDIT READY") col)) in
  let implemented := Z.of_nat (length (rows df)) - poam_count - audit_ready in
  Ok (implemented, audit_ready, poam_count).

(** The family key of a row, and the rows that have an identifier (the
    ones the grouping loop does not skip). *)
Definition row_family_key (r : row) : string :=
  family_key_of (get_control_family (default NaN (r !! "CMMC_ID"))).

Definition identified_rows (df : list (Z * row)) : list row :=
  filter (λ r, isna (default NaN (r !! "CMMC_ID")) = false) (snd <$> df).

(** Grouping in one expression: the keys in the order of their first
    appearance, each with the rows of that key in table order. *)
Definition grouped (rs : list row) : families_dict :=
  (λ k, (k, filter (λ r, row_family_key r = k) rs))
    <$> keep_first (row_family_key <$> rs).

(** A complete control row of another family. *)
Definition cm_row : row :=
  <["CMMC_ID" := Str "3.4.1"]>
    (<["Control" := Str "Establish baselines."]>
       (<["Score" := Int 5]> (<["AR_CAP_POAM" := Str "Audit Ready"]> ∅))).

(** The statuses the renderer shows for the rows of a table. *)
Definition shown_statuses (df : frame) : list string :=
  (λ ir : Z * row, implementation_status (default NaN (ir.2 !! "AR_CAP_POAM")))
    <$> rows df.

(** ** python-docx

    The document is the sequence of the blocks added to it.  A bullet is a
    paragraph of style [List Bullet] with one run of text (added with
    [add_run], or given to [add_paragraph]).

    python-docx writes the text of a heading, of a paragraph and of a run
    into the document tree through lxml, which raises [ValueError] ("All
    strings must be XML compatible") on NUL and on every control character
    but tab, newline and carriage return.  [add_heading] also raises
    [ValueError] on a level above 9. *)
Inductive block : Type :=
  | Heading (text : string) (level : nat)
  | Paragraph (text : string)
  | Bullet (text : string)
  | BoldLabel (text : string)
  | PageBreak.

Global Instance block_eq_dec : EqDecision block.
Proof. solve_decision. Defined.

Definition block_text (b : block) : string :=
  match b with
  | Heading text _ | Paragraph text | Bullet text | BoldLabel text => text
  | PageBreak => ""
  end.

(** The characters lxml takes in a text. *)
Definition xml_char (c : ascii) : bool :=
  let n := nat_of_ascii c in
  (32 <=? n)%nat || bool_decide (n ∈ [9; 10; 13]%nat).

Fixpoint xml_compatible (s : string) : bool :=
  match s with
  | EmptyString => true
  | String c s' => xml_char c && xml_compatible s'
  end.

(** What ends the generation early. *)
Inductive failure : Type :=
  | RaisedKeyError (c : string)
  | RaisedAttributeError
  | RaisedIndexError
  | RaisedValueError.

(** A call returns, or raises. *)
Inductive outcome (A : Type) : Type :=
  | Returned (a : A)
  | Raised (e : failure).
Arguments Returned {A} a.
Arguments Raised {A} e.

Global Instance outcome_bind : MBind outcome := λ A B f x,
  match x with
  | Returned a => f a
  | Raised e => Raised e
  end.

(** [control[c]] *)
Definition control_item (control : row) (c : string) : outcome value :=
  match getitem control c with
  | Ok v => Returned v
  | KeyError c => Raised (RaisedKeyError c)
  end.

(** Adding a block with a text to the document. *)
Definition add_block (doc : list block) (b : block) : outcome (list block) :=
  if xml_compatible (block_text b) then Returned (doc ++ [b])
  else Raised RaisedValueError.

(** [doc.add_heading(text, level)] *)
Definition add_heading (doc : list block) (text : string) (level : nat)
    : outcome (list block) :=
  if bool_decide (level ≤ 9)%nat then add_block doc (Heading text level)
  else Raised RaisedValueError.

(** [for item in items: (add a bullet)] *)
Fixpoint add_bullets (doc : list block) (items : list string)
    : outcome (list block) :=
  match items with
  | [] => Returned doc
  | item :: items' => doc ← add_block doc (Bullet item) ; add_bullets doc items'
  end.

(** [for item in items: if item: (add a bullet)] *)
Fixpoint add_bullets_nonempty (doc : list block) (items : list string)
    : outcome (list block) :=
  match items with
  | [] => Returned doc
  | item :: items' =>
      if bool_decide (item ≠ "") then
        doc ← add_block doc (Bullet item) ; add_bullets_nonempty doc items'
      else add_bullets_nonempty doc items'
  end.

(** The pattern of lines 452-461, 466-475 and 488-497 on the cell of a
    column: a list of bullets for several items, a paragraph for one, the
    cell itself when the normaliser keeps nothing. *)
Definition add_items_or_paragraph (doc : list block) (cell : value)
    : outcome (list block) :=
  let items := parse_delimited_content cell in
  if bool_decide (1 < length items)%nat then add_bullets_nonempty doc items
  else match items with
       | item :: _ => add_block doc (Paragraph item)
       | [] => add_block doc (Paragraph (str cell))
       end.

(** ['c' in control and not pd.isna(control[c]) and control[c] != ''] *)
Definition cell_present (r : row) (c : string) : option value :=
  match r !! c with
  | Some v => if negb (isna v) && negb (is_empty_str v) then Some v else None
  | None => None
  end.

(** ** generate_docx_for_control *)

Definition generate_docx_for_control
    (m : evidence_map) (doc : list block) (control : row) : outcome (list block) :=
  (* Control heading *)
  control_cell ← control_item control "Control" ;
  let control_title := get_control_title control_cell in
  id_cell ← control_item control "CMMC_ID" ;
  doc ← add_heading doc (str id_cell +:+ " - " +:+ control_title) 1 ;
  (* Practice Statement *)
  doc ← add_heading doc "Practice Statement" 2 ;
  doc ← add_block doc (Paragraph control_title) ;
  (* Implementation Status *)
  doc ← add_heading doc "Implementation Status" 2 ;
  ar_cap_poam ← control_item control "AR_CAP_POAM" ;
  doc ← add_block doc (Paragraph (implementation_status ar_cap_poam)) ;
  (* Policy Summary (if present) *)
  let policy := row_get control "Policy_Statement" (Str "") in
  doc ←
    (if negb (isna policy) && negb (is_empty_str policy) then
       let policy_content := str policy in
       if negb (bool_decide (policy_content ∈ ["header;bullet_1;bullet_2"; ""])) then
         doc ← add_heading doc "Policy Summary" 2 ;
         match parse_delimited_content (Str policy_content) with
         | [] => add_block doc (Paragraph policy_content)
         | policy_items => add_bullets doc policy_items
         end
       else Returned doc
     else Returned doc) ;
  (* Implementation Details *)
  doc ← add_heading doc "Implementation Details" 2 ;
  doc ←
    match cell_present control "Azure_Mechanism" with
    | Some cell =>
        doc ← add_heading doc "Azure Mechanism" 3 ;
        add_items_or_paragraph doc cell
    | None => Returned doc
    end ;
  doc ←
    match cell_present control "Azure_Configuration_Process" with
    | Some cell =>
        doc ← add_heading doc "Azure Configuration Process" 3 ;
        add_items_or_paragraph doc cell
    | None => Returned doc
    end ;
  doc ←
    match cell_present control "Azure_Evidence" with
    | Some cell =>
        doc ← add_heading doc "Azure Evidence" 3 ;
        add_bullets_nonempty doc (parse_delimited_content cell)
    | None => Returned doc
    end ;
  doc ←
    match cell_present control "AVD_Laptop" with
    | Some cell =>
        doc ← add_heading doc "AVD/Laptop Environment" 3 ;
        doc ← add_items_or_paragraph doc cell ;
        match cell_present control "AVD_Laptop_Evidence" with
        | Some evidence =>
            doc ← add_block doc (BoldLabel "Evidence:") ;
            add_bullets_nonempty doc (parse_delimited_content evidence)
        | None => Returned doc
        end
    | None => Returned doc
    end ;
  (* Evidence_Strings (enriched with the evidence table) *)
  id_cell ← control_item control "CMMC_ID" ;
  let cmmc_id := str id_cell in
  let evidence_items :=
    get_enriched_evidence_strings m cmmc_id
      (row_get control "Evidence_Strings" (Str "")) in
  match evidence_items with
  | [] => Returned doc
  | _ :: _ =>
      doc ← add_heading doc "Evidence Strings" 3 ;
      add_bullets_nonempty doc evidence_items
  end.

(** ** generate_docx_files

    The time stamp [now] stands for
    [datetime.now().strftime("%Y-%m-%d %H:%M:%S")]; the files saved are
    kept as pairs of a file name (inside the output directory) and the
    document. *)

(** [CONTROL_FAMILIES.get('.'.join(controls[0]['CMMC_ID'].split('.')[:2]),
    family_key)]: only text has a [split] method. *)
Definition family_title (controls : list row) (family_key : string)
    : failure + string :=
  match controls with
  | [] => inl RaisedIndexError
  | first :: _ =>
      match first !! "CMMC_ID" with
      | None => inl (RaisedKeyError "CMMC_ID")
      | Some (Str s) => inr (default family_key (CONTROL_FAMILIES !! family_prefix s))
      | Some _ => inl RaisedAttributeError
      end
  end.

(** [for i, control in enumerate(controls)]: a page break before every
    control but the first. *)
Fixpoint docx_controls (m : evidence_map) (doc : list block) (i : nat)
    (controls : list row) : outcome (list block) :=
  match controls with
  | [] => Returned doc
  | control :: controls' =>
      let doc := if bool_decide (0 < i)%nat then doc ++ [PageBreak] else doc in
      doc ← generate_docx_for_control m doc control ;
      docx_controls m doc (S i) controls'
  end.

(** One turn of [for family_key, controls in families.items()]: the
    document of one family, with its file name. *)
Definition docx_family (m : evidence_map) (now : string)
    (family_key : string) (controls : list row)
    : failure + (string * list block) :=
  match family_title controls family_key with
  | inl e => inl e
  | inr title =>
      match
        doc ← add_heading [] ("CMMC Level 2 - " +:+ title) 0 ;
        doc ← add_block doc (Paragraph ("Generated: " +:+ now)) ;
        docx_controls m doc 0 controls
      with
      | Raised e => inl e
      | Returned doc => inr (family_key +:+ "_controls.docx", doc)
      end
  end.

(** The loop over the families: the files saved so far, and what stopped
    the loop, if anything did. *)
Fixpoint docx_families (m : evidence_map) (now : string)
    (saved : list (string * list block)) (families : families_dict)
    : list (string * list block) * option failure :=
  match families with
  | [] => (saved, None)
  | (family_key, controls) :: families' =>
      match docx_family m now family_key controls with
      | inl e => (saved, Some e)
      | inr file => docx_families m now (saved ++ [file]) families'
      end
  end.

Definition generate_docx_files (m : evidence_map) (now : string)
    (df : list (Z * row)) : list (string * list block) * option failure :=
  match group_by_family [] df with
  | KeyError c => ([], Some (RaisedKeyError c))
  | Ok families => docx_families m now [] families
  end.

(** ** Documents, as they are described *)

(** The bullets of the non-empty items. *)
Definition bullets_nonempty (items : list string) : list block :=
  Bullet <$> filter (λ item, item ≠ "") items.

(** The blocks [add_items_or_paragraph] adds for a cell. *)
Definition items_or_paragraph (cell : value) : list block :=
  let items := parse_delimited_content cell in
  if bool_decide (1 < length items)%nat then bullets_nonempty items
  else match items with
       | item :: _ => [Paragraph item]
       | [] => [Paragraph (str cell)]
       end.

(** The texts of the level-1 headings of a document (one per control),
    and the number of its page breaks. *)
Definition control_headings (doc : list block) : list string :=
  omap (λ b, match b with Heading text 1 => Some text | _ => None end) doc.

Definition page_breaks (doc : list block) : nat :=
  length (filter (λ b, b = PageBreak) doc).

(** The heading [generate_docx_for_control] gives a control. *)
Definition control_heading (control : row) : string :=
  str (default NaN (control !! "CMMC_ID")) +:+ " - "
  +:+ get_control_title (default NaN (control !! "Control")).

(** The evidence strings of a control: the lookup in the index. *)
Definition control_evidence (m : evidence_map) (control : row) : list string :=
  get_enriched_evidence_strings m
    (str (default NaN (control !! "CMMC_ID")))
    (row_get control "Evidence_Strings" (Str "")).

(** The last section of a control, from the lookup in the index. *)
Definition evidence_section (m : evidence_map) (control : row) : list block :=
  match control_evidence m control with
  | [] => []
  | evidence_items => Heading "Evidence Strings" 3 :: bullets_nonempty evidence_items
  end.

(** A block that is neither a page break nor a heading of level 0 or 1. *)
Definition inner_block (b : block) : Prop :=
  match b with
  | PageBreak => False
  | Heading _ level => (2 ≤ level)%nat
  | _ => True
  end.

(** The document [d] is [doc] followed by the block [h] and by inner
    blocks only. *)
Definition grows_from (doc : list block) (h : block) (d : list block) : Prop :=
  ∃ rest, d = doc ++ h :: rest ∧ Forall inner_block rest.

(** The call returns such a document. *)
Definition returns_from (doc : list block) (h : block)
    (o : outcome (list block)) : Prop :=
  ∃ d, o = Returned d ∧ grows_from doc h d.

(** No cell of the row holds a character that lxml refuses, and no entry
    of the index does. *)
Definition xml_row (r : row) : Prop :=
  ∀ c v, r !! c = Some v → xml_compatible (str v) = true.

Definition xml_index (m : evidence_map) : Prop :=
  ∀ id l, m !! id = Some l → Forall (λ x, xml_compatible x = true) l.

(** A row the document generation can take: the identifier is text or
    missing, and the two other columns it reads unguarded are there. *)
Definition docx_ready (r : row) : Prop :=
  (r !! "CMMC_ID" = Some NaN ∨ ∃ s, r !! "CMMC_ID" = Some (Str s))
  ∧ is_Some (r !! "Control") ∧ is_Some (r !! "AR_CAP_POAM").

(** The families of the table and [Unknown]. *)
Definition family_names : list string :=
  "Unknown" :: (snd <$> map_to_list CONTROL_FAMILIES).

(** How the file of a family relates to the group it is made from: its
    name, its title (the family of every control in it), one level-1
    heading per control, in order, and a page break between controls. *)
Definition file_of_family (group : string * list row) (file : string * list block)
    : Prop :=
  file.1 = group.1 +:+ "_controls.docx"
  ∧ (∀ r, r ∈ group.2 →
       head file.2
       = Some (Heading ("CMMC Level 2 - "
                        +:+ get_control_family (default NaN (r !! "CMMC_ID"))) 0))
  ∧ control_headings file.2 = control_heading <$> group.2
  ∧ page_breaks file.2 = (length group.2 - 1)%nat.

(** A group as the grouping loop makes them, of rows that can be
    rendered. *)
Definition good_group (group : string * list row) : Prop :=
  group.2 ≠ []
  ∧ Forall (λ r, row_family_key r = group.1
                 ∧ (∃ s, r !! "CMMC_ID" = Some (Str s))
                 ∧ is_Some (r !! "Control") ∧ is_Some (r !! "AR_CAP_POAM")
                 ∧ xml_row r) group.2.

(** A control row with a control character in its text. *)
Definition bell_row : row :=
  <["CMMC_ID" := Str "3.1.3"]>
    (<["Control" := Str (String "007"%char "Control the flow")]>
       (<["Score" := Int 5]> (<["AR_CAP_POAM" := Str "Implemented"]> ∅))).

(** ** filter_dataframe

    [controls] and [families] are lists of texts, [control_range] a text;
    an absent argument ([None]) and an empty one are both falsy and are the
    empty list and the empty text here.  [astype(str)] is [str] on every
    cell, so a missing identifier is compared as the text [nan]. *)

(** [pd.concat([a, b])]: the rows of [a], then those of [b]; the columns
    of [a], then the new ones of [b].  (The tables concatenated here have
    the columns of the input table, or none.) *)
Definition concat_frames (a b : frame) : frame :=
  {| columns := columns a ++ filter (λ c, c ∉ columns a) (columns b);
     rows := rows a ++ rows b |}.

(** [df[mask]] for a list of booleans, one per row *)
Definition select_rows (rs : list (Z * row)) (mask : list bool) : list (Z * row) :=
  fst <$> filter (λ p : (Z * row) * bool, p.2 = true) (zip rs mask).

(** The identifier cell of a row of a table that has the column. *)
Definition id_cell_of (ir : Z * row) : value := default NaN (ir.2 !! "CMMC_ID").

(** [df.drop_duplicates(subset=['CMMC_ID'])]: of the rows with the same
    identifier cell, the first stays. *)
Fixpoint drop_duplicates_go (seen : list value) (rs : list (Z * row))
    : list (Z * row) :=
  match rs with
  | [] => []
  | ir :: rs' =>
      if bool_decide (id_cell_of ir ∈ seen) then drop_duplicates_go seen rs'
      else ir :: drop_duplicates_go (id_cell_of ir :: seen) rs'
  end.

Definition drop_duplicates (df : frame) : result frame :=
  if bool_decide ("CMMC_ID" ∈ columns df)
  then Ok {| columns := columns df; rows := drop_duplicates_go [] (rows df) |}
  else KeyError "CMMC_ID".

(** The loop of lines 683-688 on [family_dfs]. *)
Fixpoint family_loop (families : list string) (rs family_dfs : list (Z * row))
    : result (list (Z * row)) :=
  match rs with
  | [] => Ok family_dfs
  | (index, r) :: rs' =>
      id_cell ← getitem r "CMMC_ID" ;
      if isna id_cell then family_loop families rs' family_dfs
      else
        let family := family_key_of (get_control_family id_cell) in
        if bool_decide (family ∈ families)
        then family_loop families rs' (family_dfs ++ [(index, r)])
        else family_loop families rs' family_dfs
  end.

Section filter_dataframe.

(** [int(text)] is taken as given; [None] stands for the [ValueError] it
    raises on a text that is no integer. *)
Variable int : string → option Z.

(** The test of lines 706-710; [None] when it raises ([ValueError] from
    [int], [IndexError] from [end_parts[2]]).  [and] is lazy, so what
    follows a false operand is not evaluated. *)
Definition in_control_range (start_parts end_parts control_parts : list string)
    : option bool :=
  match control_parts, start_parts with
  | [c0; c1; c2], [s0; s1; s2] =>
      if bool_decide (c0 = s0) && bool_decide (c1 = s1) then
        c ← int c2 ;
        s ← int s2 ;
        if bool_decide (s ≤ c) then
          c ← int c2 ;
          e_text ← end_parts !! 2%nat ;
          e ← int e_text ;
          Some (bool_decide (c ≤ e))
        else Some false
      else Some false
  | _, _ => Some false
  end.

(** The loop of lines 700-711 on [range_dfs]; [None] when a turn raises
    (also [KeyError] from [row['CMMC_ID']]): the [except] of line 715 then
    drops the whole selection. *)
Fixpoint range_loop (start_parts end_parts : list string)
    (rs range_dfs : list (Z * row)) : option (list (Z * row)) :=
  match rs with
  | [] => Some range_dfs
  | (index, r) :: rs' =>
      id_cell ← r !! "CMMC_ID" ;
      if isna id_cell then range_loop start_parts end_parts rs' range_dfs
      else
        let control_id := str id_cell in
        let control_parts := Py.split "." control_id in
        b ← in_control_range start_parts end_parts control_parts ;
        if b : bool
        then range_loop start_parts end_parts rs' (range_dfs ++ [(index, r)])
        else range_loop start_parts end_parts rs' range_dfs
  end.

(** Lines 695-711: [start, end = control_range.split('-')] needs exactly
    two pieces. *)
Definition range_rows (df : frame) (control_range : string)
    : option (list (Z * row)) :=
  match Py.split "-" control_range with
  | [start; end_] =>
      range_loop (Py.split "." start) (Py.split "." end_) (rows df) []
  | _ => None
  end.

Definition filter_dataframe (df : frame)
    (controls families : list string) (control_range : string) : result frame :=
  if bool_decide (controls = []) && bool_decide (families = [])
     && bool_decide (control_range = "")
  then Ok df
  else
    let filtered_df := {| columns := []; rows := [] |} in
    filtered_df ←
      (if bool_decide (controls ≠ []) then
         col ← frame_getitem df "CMMC_ID" ;
         let control_filter := (λ v, bool_decide (str v ∈ controls)) <$> col in
         Ok (concat_frames filtered_df
               {| columns := columns df;
                  rows := select_rows (rows df) control_filter |})
       else Ok filtered_df) ;
    filtered_df ←
      (if bool_decide (families ≠ []) then
         family_dfs ← family_loop families (rows df) [] ;
         match family_dfs with
         | [] => Ok filtered_df
         | _ :: _ =>
             Ok (concat_frames filtered_df
                   {| columns := columns df; rows := family_dfs |})
         end
       else Ok filtered_df) ;
    let filtered_df :=
      if bool_decide (control_range ≠ "") then
        match range_rows df control_range with
        | Some (ir :: range_dfs) =>
            concat_frames filtered_df
              {| columns := columns df; rows := ir :: range_dfs |}
        | _ => filtered_df
        end
      else filtered_df in
    if bool_decide (rows filtered_df = [] ∨ columns filtered_df = [])
    then Ok filtered_df
    else drop_duplicates filtered_df.

End filter_dataframe.

(** A reading of integers for running the definitions: decimal digits
    only. *)
Fixpoint decimal_go (acc : Z) (s : string) : option Z :=
  match s with
  | EmptyString => Some acc
  | String c s' =>
      let n := Z.of_nat (nat_of_ascii c) in
      if bool_decide (48 ≤ n ≤ 57) then decimal_go (10 * acc + (n - 48)) s'
      else None
  end.

Definition decimal (s : string) : option Z :=
  match s with
  | EmptyString => None
  | _ => decimal_go 0 s
  end.

(** The table of the three complete control rows. *)
Definition three_controls : frame :=
  {| columns := ["CMMC_ID"; "Control"; "Score"; "AR_CAP_POAM"];
     rows := [(0, poam_row_score3); (1, cm_row); (2, poam_row_score1)] |}.

(** The rows the three criteria select, in the order in which
    [filter_dataframe] collects them: by identifier, by family, by range
    (nothing when the range raises). *)
Definition selected_by_controls (df : frame) (controls : list string)
    : list (Z * row) :=
  filter (λ ir, str (id_cell_of ir) ∈ controls) (rows df).

Definition selected_by_families (df : frame) (families : list string)
    : list (Z * row) :=
  filter (λ ir, isna (id_cell_of ir) = false ∧ row_family_key ir.2 ∈ families)
    (rows df).

Definition selected_by_range (int : string → option Z) (df : frame)
    (control_range : string) : list (Z * row) :=
  if bool_decide (control_range = "") then []
  else default [] (range_rows int df control_range).

Definition filter_candidates (int : string → option Z) (df : frame)
    (controls families : list string) (control_range : string)
    : list (Z * row) :=
  selected_by_controls df controls ++ selected_by_families df families
  ++ selected_by_range int df control_range.

(** What the range test asks of a row: an identifier of three segments,
    the first two those of the start of the range, the third an integer
    between the third segments of the start and of the end. *)
Definition within_range (int : string → option Z)
    (start_parts end_parts : list string) (ir : Z * row) : Prop :=
  isna (id_cell_of ir) = false
  ∧ ∃ a b c s e cv sv ev,
      Py.split "." (str (id_cell_of ir)) = [a; b; c]
      ∧ start_parts = [a; b; s]
      ∧ end_parts !! 2%nat = Some e
      ∧ int c = Some cv ∧ int s = Some sv ∧ int e = Some ev
      ∧ sv ≤ cv ≤ ev.

(** A row on which the range test raises: its third segment is read with
    [int], and is no integer. *)
Definition breaks_range (int : string → option Z)
    (start_parts : list string) (ir : Z * row) : Prop :=
  isna (id_cell_of ir) = false
  ∧ ∃ a b c s,
      Py.split "." (str (id_cell_of ir)) = [a; b; c]
      ∧ start_parts = [a; b; s]
      ∧ int c = None.

(** A control row whose identifier does not end in a number. *)
Definition odd_row : row :=
  <["CMMC_ID" := Str "3.1.x"]>
    (<["Control" := Str "Draft"]>
       (<["Score" := Int 1]> (<["AR_CAP_POAM" := Str "POAM"]> ∅))).

(** A control row whose identifier is a number. *)
Definition numbered_row : row :=
  <["CMMC_ID" := Int 7]>
    (<["Control" := Str "Draft"]>
       (<["Score" := Int 1]> (<["AR_CAP_POAM" := Str "POAM"]> ∅))).

(** A row the validator has no error for: an identifier, a score of 1, 3
    or 5, and no POA&M status on a score of 3 or 5. *)
Definition clean_row (r : row) : Prop :=
  ∃ id_cell score status,
    r !! "CMMC_ID" = Some id_cell ∧ isna id_cell = false
    ∧ Py.strip (str id_cell) ≠ ""
    ∧ r !! "Score" = Some score ∧ r !! "AR_CAP_POAM" = Some status
    ∧ in_ints score [1; 3; 5] = true
    ∧ ¬ (in_ints score [3; 5] = true
         ∧ Py.upper (str status) ∈ ["POA&M"; "POAM"]).

(** ** The evidence summary of the report (lines 637-641)

    [sum(len(v) for v in self.evidence_map.values())] *)
Definition total_evidence (m : evidence_map) : nat :=
  sum_list_with (λ kv : string * list string, length kv.2) (map_to_list m).

(** The number of entries a row of the evidence table adds: one for every
    non-empty identifier it is mapped to, none when it is marked IGNORE. *)
Definition row_links (r : row) : nat :=
  if marked_ignore r then O
  else length (filter (λ c, c ≠ "") (cmmc_mappings r)).

(** The lists of the index are not empty and its keys are trimmed and
    not empty. *)
Definition index_ok (m : evidence_map) : Prop :=
  ∀ id l, m !! id = Some l → l ≠ [] ∧ id ≠ "" ∧ Py.strip id = id.

(** * Properties *)

(** ** Running the definitions *)

Example parse_abc : parse_delimited_content (Str "a|b;c") = ["a"; "b"; "c"].
Proof. reflexivity. Qed.

Example parse_spaces :
  parse_delimited_content (Str " x. ;; header ;y . |z..") = ["x"; "y"; "z."].
Proof. reflexivity. Qed.

Example parse_int : parse_delimited_content (Int 42) = ["42"].
Proof. reflexivity. Qed.

Example format_link_and_description :
  format_evidence_entry
    (<["Current_Sharepoint_Link" := Str "http://x"]>
       (<["Description" := Str "Policy doc"]> ∅))
  = "[http://x] - Policy doc".
Proof. vm_compute. reflexivity. Qed.

Example load_two_controls :
  load_evidence_enrichment ∅
    [ <["Current_Sharepoint_Link" := Str "http://s"]>
        (<["Description" := Str "Backup logs"]>
           (<["Suggested_CMMC_Mappings" := Str "3.4.1|3.4.2"]> ∅)) ]
  !! "3.4.2" = Some ["[http://s] - Backup logs"].
Proof. vm_compute. reflexivity. Qed.

Example validate_score3_poam :
  validate_csv_data ([], [])
    [ (0, <["CMMC_ID" := Str "3.1.1"]> (<["Control" := Str "c"]>
            (<["Score" := Int 3]> (<["AR_CAP_POAM" := Str "poa&m"]> ∅)))) ]
  = Ok (["Control 3.1.1: CRITICAL - Score=3 (non-POAMable) but AR_CAP_POAM='poa&m'"], []).
Proof. vm_compute. reflexivity. Qed.

(** ** The normaliser and its pipeline *)

Section normalizer.
Import NormalizerSpec.

Lemma parse_item_kept items piece :
  parse_item items piece =
    items ++ (strip_trailing_period <$> filter kept [Py.strip piece]).
Proof.
  unfold parse_item, placeholders, kept, placeholder_tokens.
  rewrite filter_cons, filter_nil.
  destruct (decide (Py.strip piece = "")) as [->|Hne].
  { simpl. by rewrite app_nil_r. }
  rewrite (bool_decide_eq_false_2 _ Hne). simpl negb at 1.
  rewrite andb_true_l.
  case_bool_decide as Hin; case_decide as Hk; simpl.
  - exfalso. apply elem_of_cons in Hin as [?|Hin]; [done|]. by destruct Hk.
  - by rewrite app_nil_r.
  - done.
  - exfalso. apply Hk. split; [done|]. intros ?. apply Hin. by right.
Qed.

Lemma foldl_parse_item items pieces :
  foldl parse_item items pieces =
    items ++ (strip_trailing_period <$> filter kept (Py.strip <$> pieces)).
Proof.
  revert items. induction pieces as [|p pieces IH]; intros items; simpl.
  { by rewrite app_nil_r. }
  rewrite IH, parse_item_kept, <- app_assoc. f_equal.
  rewrite <- fmap_app, <- filter_app. done.
Qed.

Lemma parse_delimited_content_normalize content :
  parse_delimited_content content = normalize content.
Proof.
  unfold parse_delimited_content, normalize.
  destruct content as [|s|z]; simpl; [done| |].
  - unfold is_empty_str. case_bool_decide as He.
    + by simplify_eq.
    + by rewrite foldl_parse_item.
  - by rewrite foldl_parse_item.
Qed.

End normalizer.

(** ** Facts about the string methods *)

Section string_facts.

Lemma rstrip_cons_nonspace c s :
  Py.isspace c = false → Py.rstrip (String c s) = String c (Py.rstrip s).
Proof. intros Hc. simpl. rewrite Hc. by destruct (Py.rstrip s). Qed.

Lemma rstrip_idemp s : Py.rstrip (Py.rstrip s) = Py.rstrip s.
Proof.
  induction s as [|c s IH]; [done|]. simpl.
  destruct (Py.rstrip s) as [|c' r] eqn:Hr.
  - destruct (Py.isspace c) eqn:Hc; [done|]. simpl. by rewrite Hc.
  - change (Py.rstrip (String c (String c' r))) with
      (match Py.rstrip (String c' r) with
       | EmptyString => if Py.isspace c then EmptyString else String c EmptyString
       | r' => String c r'
       end).
    by rewrite IH.
Qed.

Lemma lstrip_head s :
  Py.lstrip s = "" ∨ ∃ c t, Py.lstrip s = String c t ∧ Py.isspace c = false.
Proof.
  induction s as [|c s IH]; [by left|]. simpl.
  destruct (Py.isspace c) eqn:Hc; [done|]. right. eauto.
Qed.

Lemma lstrip_nonspace c s :
  Py.isspace c = false → Py.lstrip (String c s) = String c s.
Proof. intros Hc. simpl. by rewrite Hc. Qed.

Lemma strip_idemp s : Py.strip (Py.strip s) = Py.strip s.
Proof.
  unfold Py.strip.
  destruct (lstrip_head s) as [->|(c & t & -> & Hc)]; [done|].
  rewrite (rstrip_cons_nonspace _ _ Hc), (lstrip_nonspace _ _ Hc).
  rewrite <- (rstrip_cons_nonspace _ _ Hc). apply rstrip_idemp.
Qed.

Lemma length_lstrip s : (String.length (Py.lstrip s) ≤ String.length s)%nat.
Proof.
  induction s as [|c s IH]; simpl; [lia|].
  destruct (Py.isspace c); simpl; lia.
Qed.

Lemma length_rstrip s : (String.length (Py.rstrip s) ≤ String.length s)%nat.
Proof.
  induction s as [|c s IH]; simpl; [lia|].
  destruct (Py.rstrip s); [destruct (Py.isspace c)|]; simpl in *; lia.
Qed.

Lemma length_strip s : (String.length (Py.strip s) ≤ String.length s)%nat.
Proof.
  unfold Py.strip. pose proof (length_rstrip (Py.lstrip s)).
  pose proof (length_lstrip s). lia.
Qed.

Lemma length_drop_last s :
  s ≠ "" → S (String.length (Py.drop_last s)) = String.length s.
Proof.
  induction s as [|c s IH]; [done|]. intros _.
  destruct s as [|c' s]; [done|].
  change (Py.drop_last (String c (String c' s)))
    with (String c (Py.drop_last (String c' s))).
  cbn [String.length]. rewrite IH; done.
Qed.

Lemma occurs_lstrip a s : occurs a (Py.lstrip s) = true → occurs a s = true.
Proof.
  induction s as [|c s IH]; simpl; [done|].
  destruct (Py.isspace c); [|done]. intros H%IH. rewrite H. apply orb_true_r.
Qed.

Lemma occurs_rstrip a s : occurs a (Py.rstrip s) = true → occurs a s = true.
Proof.
  induction s as [|c s IH]; simpl; [done|].
  destruct (Py.rstrip s) as [|c' r].
  - destruct (Py.isspace c); simpl; [done|].
    rewrite orb_false_r. by intros ->.
  - simpl occurs at 1. intros [->|H]%orb_true_iff; [done|].
    rewrite IH; [apply orb_true_r|done].
Qed.

Lemma occurs_strip a s : occurs a (Py.strip s) = true → occurs a s = true.
Proof. unfold Py.strip. intros H%occurs_rstrip. by apply occurs_lstrip. Qed.

Lemma occurs_drop_last a s : occurs a (Py.drop_last s) = true → occurs a s = true.
Proof.
  induction s as [|c s IH]; [done|].
  destruct s as [|c' s]; [done|].
  change (Py.drop_last (String c (String c' s)))
    with (String c (Py.drop_last (String c' s))).
  cbn [occurs]. intros [->|H]%orb_true_iff; [done|].
  apply IH in H. cbn [occurs] in H. rewrite H. apply orb_true_r.
Qed.

Lemma split_nonempty sep s : Py.split sep s ≠ [].
Proof.
  destruct s as [|c s]; simpl; [done|].
  case_bool_decide; [done|]. by destruct (Py.split sep s).
Qed.

Lemma split_pieces_no_sep sep s p :
  p ∈ Py.split sep s → occurs sep p = false.
Proof.
  revert p. induction s as [|c s IH]; intros p; simpl.
  { by intros ->%list_elem_of_singleton. }
  case_bool_decide as Hc.
  - intros [->|Hp]%elem_of_cons; [done|]. by apply IH.
  - destruct (Py.split sep s) as [|q qs] eqn:Hs.
    { by destruct (split_nonempty sep s). }
    intros [->|Hp]%elem_of_cons.
    + simpl. rewrite (bool_decide_eq_false_2 _ Hc). simpl.
      apply IH. by left.
    + apply IH. by right.
Qed.

Lemma split_pieces_occurs sep s p a :
  p ∈ Py.split sep s → occurs a p = true → occurs a s = true.
Proof.
  revert p. induction s as [|c s IH]; intros p; simpl.
  { by intros ->%list_elem_of_singleton. }
  case_bool_decide as Hc.
  - intros [->|Hp]%elem_of_cons; [done|]. intros H.
    rewrite (IH p); [apply orb_true_r|done..].
  - destruct (Py.split sep s) as [|q qs] eqn:Hs.
    { by destruct (split_nonempty sep s). }
    intros [->|Hp]%elem_of_cons.
    + simpl. intros [->|H]%orb_true_iff; [done|].
      rewrite (IH q); [apply orb_true_r|by left|done].
    + intros H. rewrite (IH p); [apply orb_true_r|by right|done].
Qed.

Lemma occurs_replace_self a b s : a ≠ b → occurs a (Py.replace a b s) = false.
Proof.
  intros Hab. induction s as [|c s IH]; simpl; [done|].
  rewrite IH, orb_false_r. destruct (decide (c = a)) as [Hc|Hc].
  - rewrite (bool_decide_eq_true_2 _ Hc). apply bool_decide_eq_false_2. congruence.
  - rewrite (bool_decide_eq_false_2 _ Hc). by apply bool_decide_eq_false_2.
Qed.

Lemma replace_absent a b s : occurs a s = false → Py.replace a b s = s.
Proof.
  induction s as [|c s IH]; simpl; [done|].
  intros [Hc Hs]%orb_false_iff. rewrite Hc, IH; done.
Qed.

Lemma split_absent sep s : occurs sep s = false → Py.split sep s = [s].
Proof.
  induction s as [|c s IH]; simpl; [done|].
  intros [Hc Hs]%orb_false_iff. rewrite Hc, IH; done.
Qed.

End string_facts.

(** ** What the normaliser produces *)

Section produced_items.
Import NormalizerSpec.

(** Every produced item is the trimming of a text without delimiters. *)
Lemma produced_item_shape content x :
  x ∈ parse_delimited_content content →
  ∃ y, x = Py.strip y ∧ occurs ";" y = false ∧ occurs "|" y = false.
Proof.
  rewrite parse_delimited_content_normalize. unfold normalize.
  assert (∀ s, x ∈ strip_trailing_period
                 <$> filter kept (Py.strip <$> Py.split ";" (Py.replace "|" ";" s)) →
          ∃ y, x = Py.strip y ∧ occurs ";" y = false ∧ occurs "|" y = false) as Hgen.
  { intros s (item & -> & Hitem)%list_elem_of_fmap.
    apply list_elem_of_filter in Hitem as [_ (p & -> & Hp)%list_elem_of_fmap].
    assert (occurs ";" p = false) as Hsemi by (by eapply split_pieces_no_sep).
    assert (occurs "|" p = false) as Hpipe.
    { destruct (occurs "|" p) eqn:Ho; [|done].
      eapply split_pieces_occurs in Ho; [|done].
      by rewrite occurs_replace_self in Ho. }
    unfold strip_trailing_period. destruct (Py.endswith "." (Py.strip p)).
    - exists (Py.drop_last (Py.strip p)). split; [done|].
      split; apply not_true_is_false; intros H%occurs_drop_last%occurs_strip;
        congruence.
    - by exists p. }
  destruct content; [by intros ?%elem_of_nil|apply Hgen..].
Qed.

Lemma produced_item_stripped content x :
  x ∈ parse_delimited_content content → Py.strip x = x.
Proof. intros (y & -> & _)%produced_item_shape. apply strip_idemp. Qed.

Lemma produced_item_no_delimiter content x :
  x ∈ parse_delimited_content content →
  occurs ";" x = false ∧ occurs "|" x = false.
Proof.
  intros (y & -> & Hs & Hp)%produced_item_shape.
  split; apply not_true_is_false; intros H%occurs_strip; congruence.
Qed.

(** Normalising a text that is trimmed and has no delimiter. *)
Lemma normalize_single x :
  Py.strip x = x → occurs ";" x = false → occurs "|" x = false →
  parse_delimited_content (Str x) = strip_trailing_period <$> filter kept [x].
Proof.
  intros Hx Hs Hp. rewrite parse_delimited_content_normalize. unfold normalize, str.
  rewrite (replace_absent _ _ _ Hp), (split_absent _ _ Hs). simpl fmap at 2.
  by rewrite Hx.
Qed.

Lemma strip_trailing_period_fixed x :
  strip_trailing_period x = x ↔ Py.endswith "." x = false.
Proof.
  unfold strip_trailing_period. destruct (Py.endswith "." x) eqn:He; [|done].
  split; [|done]. intros Heq. exfalso.
  assert (x ≠ "") as Hne by (by intros ->).
  pose proof (length_drop_last x Hne). pose proof (length_strip (Py.drop_last x)).
  rewrite Heq in *. lia.
Qed.

End produced_items.

(** ** Properties of the normaliser *)

(** C4. For every input (text, or the missing-value marker) the normaliser
    returns, in input order, the items obtained by replacing every [|] with
    [;], splitting on [;], trimming each piece, dropping the pieces that are
    then empty or equal to one of the five placeholder tokens, and stripping
    one trailing period (trimming again) from each survivor.  A missing or
    empty input gives the empty list; ["a|b;c"] gives [a], [b], [c]; a
    placeholder token alone gives the empty list.  The steps are seen at
    work on texts with blanks and periods: the pieces are trimmed before
    they are compared with the placeholder tokens, one period is stripped
    and no more, and what is left of a piece is trimmed again. *)
Theorem normalizer_is_pipeline (content : value) :
  parse_delimited_content content = NormalizerSpec.normalize content
  ∧ parse_delimited_content NaN = []
  ∧ parse_delimited_content (Str "") = []
  ∧ parse_delimited_content (Str "a|b;c") = ["a"; "b"; "c"]
  ∧ Forall (λ token, parse_delimited_content (Str token) = [])
      NormalizerSpec.placeholder_tokens
  ∧ parse_delimited_content (Str " a ; b. ;header ") = ["a"; "b"]
  ∧ parse_delimited_content (Str "  a|;b  ;  ") = ["a"; "b"]
  ∧ parse_delimited_content (Str "a..") = ["a."]
  ∧ parse_delimited_content (Str "a .") = ["a"]
  ∧ parse_delimited_content (Str " x. ;; header ;y . |z..") = ["x"; "y"; "z."].
Proof.
  split; [apply parse_delimited_content_normalize|].
  do 3 (split; [reflexivity|]).
  split; [|repeat split]. unfold NormalizerSpec.placeholder_tokens.
  repeat (apply Forall_cons; split; [reflexivity|]). apply Forall_nil_2.
Qed.

(** C10. Placeholder filtering comes before the trailing period is stripped
    and is not applied again: ["header."] is not a placeholder, is kept, and
    normalises to the one item ["header"], which is a placeholder token. *)
Theorem placeholder_survives_after_period :
  (Py.strip "header." ∉ placeholders)
  ∧ parse_delimited_content (Str "header.") = ["header"]
  ∧ ("header" ∈ placeholders)
  ∧ parse_delimited_content (Str "header") = [].
Proof.
  split; [|split; [reflexivity|split; [|reflexivity]]].
  - apply (bool_decide_unpack _). by vm_compute.
  - apply (bool_decide_unpack _). by vm_compute.
Qed.

(** C6, as stated, fails: normalising ["a.."] produces the item ["a."], and
    normalising that item again gives ["a"]. *)
Lemma renormalize_changes_item :
  ("a." ∈ parse_delimited_content (Str "a.."))
  ∧ parse_delimited_content (Str "a.") = ["a"]
  ∧ parse_delimited_content (Str "a.") ≠ ["a."].
Proof.
  split; [|split; [reflexivity|discriminate]].
  apply (bool_decide_unpack _). by vm_compute.
Qed.

(** C6, amended.  An item the normaliser has produced is left unchanged by
    normalising it again exactly when it is not empty, is not a placeholder
    token and does not end with a period. *)
Theorem renormalize_produced_item (content : value) (x : string) :
  x ∈ parse_delimited_content content →
  parse_delimited_content (Str x) = [x]
  ↔ x ≠ "" ∧ (x ∉ NormalizerSpec.placeholder_tokens) ∧ Py.endswith "." x = false.
Proof.
  intros Hx.
  destruct (produced_item_no_delimiter _ _ Hx) as [Hs Hp].
  rewrite (normalize_single x (produced_item_stripped _ _ Hx) Hs Hp).
  rewrite filter_cons, filter_nil. case_decide as Hk.
  - destruct Hk as [Hne Hnp]. simpl. split.
    + intros [= Heq]. by apply strip_trailing_period_fixed in Heq.
    + intros (_ & _ & He). f_equal. by apply strip_trailing_period_fixed.
  - split; [done|]. intros (Hne & Hnp & _). by destruct Hk.
Qed.

Lemma renormalize_produced_item_witness :
  ("a" ∈ parse_delimited_content (Str "a|b;c"))
  ∧ (parse_delimited_content (Str "a") = ["a"]
     ↔ "a" ≠ "" ∧ ("a" ∉ NormalizerSpec.placeholder_tokens)
       ∧ Py.endswith "." "a" = false).
Proof.
  assert ("a" ∈ parse_delimited_content (Str "a|b;c")) as H.
  { apply (bool_decide_unpack _). by vm_compute. }
  split; [exact H|]. exact (renormalize_produced_item (Str "a|b;c") "a" H).
Defined.

(** ** De-duplication *)

Section dedup.

Lemma keep_first_filter (P : string → Prop) `{!∀ x, Decision (P x)} l :
  filter P (keep_first l) = keep_first (filter P l).
Proof.
  induction l as [|x l IH]; [done|]. cbn [keep_first].
  rewrite !filter_cons. case_decide as HP.
  - cbn [keep_first]. f_equal. rewrite <- IH.
    rewrite !list_filter_filter. apply list_filter_iff. intros y. tauto.
  - rewrite <- IH. apply list_filter_filter_l. intros y Hy ->. tauto.
Qed.

Lemma elem_of_keep_first x l : x ∈ keep_first l ↔ x ∈ l.
Proof.
  induction l as [|y l IH]; [done|]. cbn [keep_first].
  rewrite !elem_of_cons, list_elem_of_filter, IH.
  destruct (decide (x = y)) as [->|Hne]; tauto.
Qed.

Lemma NoDup_keep_first l : NoDup (keep_first l).
Proof.
  induction l as [|y l IH]; cbn [keep_first]; [constructor|].
  apply NoDup_cons. split; [|by apply NoDup_filter].
  rewrite list_elem_of_filter. intros [Hne _]. by apply Hne.
Qed.

(** What comes first keeps its place: the strings of [l1], then those of
    [l2] that [l1] does not have. *)
Lemma keep_first_app l1 l2 :
  keep_first (l1 ++ l2)
  = keep_first l1 ++ filter (λ y, y ∉ l1) (keep_first l2).
Proof.
  induction l1 as [|x l1 IH]; cbn [app keep_first].
  - induction (keep_first l2) as [|y k IHk]; [done|].
    rewrite filter_cons_True by apply not_elem_of_nil. by rewrite <- IHk.
  - f_equal. rewrite IH, filter_app. f_equal.
    rewrite list_filter_filter. apply list_filter_iff. intros y.
    rewrite not_elem_of_cons. tauto.
Qed.

Lemma foldl_dedup_step seen unique_items l :
  (foldl dedup_step (seen, unique_items) l).2
  = unique_items ++ keep_first (filter (λ y, y ∉ seen) l).
Proof.
  revert seen unique_items.
  induction l as [|x l IH]; intros seen acc; simpl.
  { by rewrite app_nil_r. }
  rewrite filter_cons. case_bool_decide as Hx.
  - case_decide; [|done]. rewrite IH, <- app_assoc. f_equal.
    cbn [keep_first app]. f_equal. rewrite keep_first_filter. f_equal.
    rewrite list_filter_filter. apply list_filter_iff. intros y.
    rewrite not_elem_of_union, elem_of_singleton. tauto.
  - case_decide; [done|]. apply IH.
Qed.

Lemma dedup_loop_keep_first l :
  (foldl dedup_step (∅, []) l).2 = keep_first l.
Proof.
  rewrite foldl_dedup_step. simpl. f_equal.
  induction l as [|x l IH]; [done|].
  rewrite filter_cons_True by apply not_elem_of_empty. by rewrite IH.
Qed.

End dedup.

(** ** Lookup *)

Section lookup.

(** The guard of line 201 lets every non-missing, non-empty text through
    and, with it, every integer but zero. *)
Lemma existing_evidence_guard v :
  v ≠ Int 0 →
  (if truthy v && negb (isna v) && negb (is_empty_str v)
   then [] ++ parse_delimited_content v else [])
  = parse_delimited_content v.
Proof.
  intros Hv. unfold parse_delimited_content, is_empty_str.
  destruct v as [|s|z]; simpl; [done| |].
  - destruct (decide (s = "")) as [->|Hs]; [done|].
    rewrite (bool_decide_eq_false_2 (s = "")) by done.
    rewrite (bool_decide_eq_false_2 (Str s = Str "")) by congruence. done.
  - rewrite (bool_decide_eq_false_2 (z = 0)) by congruence. done.
Qed.

Lemma get_enriched_keep_first (m : evidence_map) cmmc_id v :
  v ≠ Int 0 →
  get_enriched_evidence_strings m cmmc_id v
  = keep_first (parse_delimited_content v ++ default [] (m !! cmmc_id)).
Proof.
  intros Hv. unfold get_enriched_evidence_strings.
  rewrite dedup_loop_keep_first, (existing_evidence_guard _ Hv).
  destruct (m !! cmmc_id); simpl; [done|by rewrite app_nil_r].
Qed.

End lookup.

(** C2. For every control identifier and every inline evidence text (any
    cell but the number zero, which is no text), the lookup returns the
    normalised inline items followed by the entries the index holds for the
    identifier, in their stored order, with every string kept at its first
    occurrence only: the inline items come first, then the entries that are
    not among them; no string occurs twice and the strings are those of the
    two sources.  With a missing or empty inline text and no index entry the
    result is the empty list. *)
Theorem lookup_inline_then_index
    (m : evidence_map) (cmmc_id : string) (existing_evidence : value) :
  existing_evidence ≠ Int 0 →
  let combined :=
    parse_delimited_content existing_evidence ++ default [] (m !! cmmc_id) in
  let result := get_enriched_evidence_strings m cmmc_id existing_evidence in
  result = keep_first combined
  ∧ result
    = keep_first (parse_delimited_content existing_evidence)
      ++ filter (λ x, x ∉ parse_delimited_content existing_evidence)
           (keep_first (default [] (m !! cmmc_id)))
  ∧ NoDup result
  ∧ (∀ x, x ∈ result ↔ x ∈ combined)
  ∧ (existing_evidence = NaN ∨ existing_evidence = Str "" →
     m !! cmmc_id = None → result = []).
Proof.
  intros Hv combined result.
  assert (result = keep_first combined) as Hres.
  { by apply get_enriched_keep_first. }
  rewrite Hres. split; [done|]. split; [apply keep_first_app|].
  split; [apply NoDup_keep_first|].
  split; [intros x; apply elem_of_keep_first|].
  intros Hempty Hnone. unfold combined. rewrite Hnone.
  by destruct Hempty as [-> | ->].
Qed.

Lemma lookup_inline_then_index_witness :
  Str "b;a;b." ≠ Int 0
  ∧ get_enriched_evidence_strings {[ "3.1.1" := ["a"; "c"; "c"] ]} "3.1.1" (Str "b;a;b.")
    = ["b"; "a"; "c"].
Proof.
  split; [discriminate|].
  exact (proj1 (lookup_inline_then_index
                  {[ "3.1.1" := ["a"; "c"; "c"] ]} "3.1.1" (Str "b;a;b.")
                  ltac:(discriminate))).
Defined.

(** ** Building the index *)

Section build.

Lemma occurrences_pos id ids : id ∈ ids → (0 < occurrences id ids)%nat.
Proof.
  unfold occurrences. induction ids as [|c ids IH]; [by intros ?%elem_of_nil|].
  rewrite filter_cons. intros [->|Hin]%elem_of_cons.
  - rewrite decide_True by done. simpl. lia.
  - case_decide; simpl; [lia|by apply IH].
Qed.

Lemma occurrences_zero id ids : id ∉ ids → occurrences id ids = 0%nat.
Proof.
  unfold occurrences. induction ids as [|c ids IH]; [done|].
  rewrite not_elem_of_cons, filter_cons. intros [Hne Hin].
  rewrite decide_False by done. by apply IH.
Qed.

Lemma add_evidence_lookup e (m : evidence_map) c id :
  add_evidence e m c !! id =
    if decide (Py.strip c ≠ "" ∧ Py.strip c = id)
    then Some (default [] (m !! id) ++ [e]) else m !! id.
Proof.
  unfold add_evidence. case_bool_decide as Hc; simpl.
  { rewrite decide_False; [done|]. by intros [? _]. }
  destruct (decide (Py.strip c = id)) as [<-|Hne].
  - rewrite decide_True by done. rewrite lookup_insert_eq.
    destruct (m !! Py.strip c) eqn:Hm; [by rewrite Hm|].
    by rewrite lookup_insert_eq.
  - rewrite decide_False by (by intros [_ ?]).
    rewrite lookup_insert_ne by done.
    destruct (m !! Py.strip c); [done|]. by rewrite lookup_insert_ne.
Qed.

Lemma foldl_add_evidence_lookup e ids : ∀ (m : evidence_map) id,
  Forall (λ c, Py.strip c = c) ids →
  foldl (add_evidence e) m ids !! id =
    if decide (id = "") then m !! id
    else match occurrences id ids with
         | O => m !! id
         | k => Some (default [] (m !! id) ++ replicate k e)
         end.
Proof.
  unfold occurrences.
  induction ids as [|c ids IH]; intros m id Hids.
  { simpl. by case_decide. }
  apply Forall_cons in Hids as [Hc Hids]. cbn [foldl].
  rewrite (IH _ _ Hids), add_evidence_lookup, Hc, filter_cons.
  destruct (decide (id = "")) as [->|Hid].
  { case_decide as H; [|done]. by destruct H. }
  destruct (decide (c = id)) as [->|Hne].
  - rewrite decide_True by done. cbn [length].
    destruct (length _); simpl; [done|]. by rewrite <- app_assoc.
  - by rewrite decide_False by (by intros [_ ?]).
Qed.

(** The first test of the loop (both mapping cells missing) only skips
    rows that have no mapping to add anyway. *)
Lemma load_evidence_row_mappings m r :
  load_evidence_row m r =
    if marked_ignore r then m
    else foldl (add_evidence (format_evidence_entry r)) m (cmmc_mappings r).
Proof.
  unfold load_evidence_row, cmmc_mappings, field, row_get.
  destruct (r !! "Suggested_CMMC_Mappings") as [[]|];
    destruct (r !! "Provided_CMMC_Mappings") as [[]|]; simpl;
    by destruct (marked_ignore r).
Qed.

Lemma cmmc_mappings_stripped r : Forall (λ c, Py.strip c = c) (cmmc_mappings r).
Proof.
  apply Forall_forall. intros c. unfold cmmc_mappings.
  destruct (field r "Suggested_CMMC_Mappings");
    [|destruct (field r "Provided_CMMC_Mappings")];
    [apply produced_item_stripped..|by intros ?%elem_of_nil].
Qed.

(** What a row that is not marked IGNORE does to the list of [id]. *)
Lemma load_evidence_row_lookup m r id :
  load_evidence_row m r !! id =
    if marked_ignore r then m !! id
    else if decide (id = "") then m !! id
    else match occurrences id (cmmc_mappings r) with
         | O => m !! id
         | k => Some (default [] (m !! id)
                        ++ replicate k (format_evidence_entry r))
         end.
Proof.
  rewrite load_evidence_row_mappings. destruct (marked_ignore r); [done|].
  apply foldl_add_evidence_lookup, cmmc_mappings_stripped.
Qed.


Lemma load_evidence_row_mapped m r id :
  marked_ignore r = false → id ∈ cmmc_mappings r → id ≠ "" →
  load_evidence_row m r !! id =
    Some (default [] (m !! id)
            ++ replicate (occurrences id (cmmc_mappings r)) (format_evidence_entry r)).
Proof.
  intros Hig Hid Hne. rewrite load_evidence_row_lookup, Hig.
  rewrite decide_False by done.
  pose proof (occurrences_pos _ _ Hid).
  destruct (occurrences id (cmmc_mappings r)); [lia|done].
Qed.


End build.

(** ** Substrings *)

Section substrings.

Lemma append_cons c s t : String c s +:+ t = String c (s +:+ t).
Proof. done. Qed.

Lemma startswith_spec p s :
  Py.startswith p s = true ↔ ∃ post, s = p +:+ post.
Proof.
  revert s. induction p as [|a p IH]; intros s; simpl.
  { split; [by exists s|done]. }
  destruct s as [|b s].
  { split; [done|]. by intros [post ?]. }
  rewrite andb_true_iff, bool_decide_eq_true, IH. split.
  - intros [-> [post ->]]. by exists post.
  - intros [post Heq]. rewrite append_cons in Heq.
    injection Heq as -> ->. eauto.
Qed.

Lemma contains_spec p s :
  Py.contains p s = true ↔ ∃ pre post, s = pre +:+ p +:+ post.
Proof.
  induction s as [|c s IH].
  - cbn [Py.contains]. rewrite orb_false_r, startswith_spec. split.
    + intros [post ->]. by exists "", post.
    + intros (pre & post & Heq). destruct pre; [by exists post|done].
  - cbn [Py.contains]. rewrite orb_true_iff, startswith_spec, IH. split.
    + intros [[post ->]|(pre & post & ->)].
      * by exists "", post.
      * by exists (String c pre), post.
    + intros (pre & post & Heq). destruct pre as [|c' pre].
      * left. by exists post.
      * right. rewrite append_cons in Heq. injection Heq as -> ->. eauto.
Qed.

End substrings.

(** ** Properties of the index *)



(** C3. A row whose description, upper-cased, contains [IGNORE] adds nothing
    to the index, whatever its mapping cells hold: the index is the same
    after the row as before it, and the same as if the row were not in the
    table. *)
Theorem ignore_marked_row_adds_nothing (m : evidence_map) (r : row) (d : value) :
  r !! "Description" = Some d →
  (∃ pre post, Py.upper (str d) = pre +:+ "IGNORE" +:+ post) →
  load_evidence_row m r = m
  ∧ (∀ id, load_evidence_row m r !! id = m !! id)
  ∧ (∀ m0 before after,
       load_evidence_enrichment m0 (before ++ r :: after)
       = load_evidence_enrichment m0 (before ++ after)).
Proof.
  intros Hd Hc%contains_spec.
  assert (marked_ignore r = true) as Hig.
  { unfold marked_ignore. rewrite Hd, Hc. by destruct d. }
  assert (∀ m', load_evidence_row m' r = m') as Hrow.
  { intros m'. by rewrite load_evidence_row_mappings, Hig. }
  split; [apply Hrow|]. split; [by rewrite Hrow|].
  intros m0 before after. unfold load_evidence_enrichment.
  rewrite !foldl_app. cbn [foldl]. by rewrite Hrow.
Qed.

Lemma ignore_marked_row_adds_nothing_witness :
  ignored_row !! "Description" = Some (Str "Old evidence - IGNORE")
  ∧ (∃ pre post, Py.upper "Old evidence - IGNORE" = pre +:+ "IGNORE" +:+ post)
  ∧ load_evidence_row ∅ ignored_row = ∅.
Proof.
  assert (∃ pre post, Py.upper "Old evidence - IGNORE" = pre +:+ "IGNORE" +:+ post)
    as Hc by (by exists "OLD EVIDENCE - ", "").
  split; [reflexivity|]. split; [exact Hc|].
  exact (proj1 (ignore_marked_row_adds_nothing ∅ ignored_row _ eq_refl Hc)).
Defined.

(** C9. The builder does not discard empty display entries.  For a row
    without link, description and file name the formatter returns the empty
    string; the builder appends it to the list of every identifier the row
    is mapped to, and a later lookup of such an identifier returns a list
    that holds the empty string, and holds no string twice. *)
Theorem empty_entry_is_indexed
    (m : evidence_map) (r : row) (id : string) (existing_evidence : value) :
  field r "Current_Sharepoint_Link" = None →
  field r "Description" = None →
  field r "File_Name" = None →
  id ∈ cmmc_mappings r → id ≠ "" → existing_evidence ≠ Int 0 →
  let index := load_evidence_enrichment m [r] in
  format_evidence_entry r = ""
  ∧ (∃ k, (0 < k)%nat
          ∧ index !! id = Some (default [] (m !! id) ++ replicate k ""))
  ∧ "" ∈ get_enriched_evidence_strings index id existing_evidence
  ∧ NoDup (get_enriched_evidence_strings index id existing_evidence).
Proof.
  intros Hl Hd Hf Hid Hne Hv index.
  assert (format_evidence_entry r = "") as Hfmt.
  { unfold format_evidence_entry. by rewrite Hl, Hd, Hf. }
  assert (marked_ignore r = false) as Hig.
  { unfold marked_ignore. unfold field in Hd.
    destruct (r !! "Description") as [[|s|z]|]; try done.
    simpl in Hd. unfold is_empty_str in Hd. case_bool_decide; by simplify_eq. }
  assert (index !! id = Some (default [] (m !! id)
            ++ replicate (occurrences id (cmmc_mappings r)) "")) as Hidx.
  { unfold index, load_evidence_enrichment. cbn [foldl].
    by rewrite (load_evidence_row_mapped m r id Hig Hid Hne), Hfmt. }
  pose proof (occurrences_pos _ _ Hid) as Hpos.
  split; [done|]. split; [eauto|].
  rewrite (get_enriched_keep_first _ _ _ Hv). split; [|apply NoDup_keep_first].
  rewrite elem_of_keep_first, Hidx.
  apply elem_of_app. right. apply elem_of_app. right.
  apply elem_of_replicate. split; [done|lia].
Qed.

Lemma empty_entry_is_indexed_witness :
  format_evidence_entry bare_row = ""
  ∧ load_evidence_enrichment ∅ [bare_row] !! "3.1.1" = Some [""]
  ∧ ("" ∈ get_enriched_evidence_strings
            (load_evidence_enrichment ∅ [bare_row]) "3.1.1" NaN).
Proof.
  assert ("3.1.1" ∈ cmmc_mappings bare_row) as Hin.
  { apply (bool_decide_unpack _). by vm_compute. }
  pose proof (empty_entry_is_indexed ∅ bare_row "3.1.1" NaN
                eq_refl eq_refl eq_refl Hin ltac:(discriminate) ltac:(discriminate))
    as (Hfmt & _ & Hlook & _).
  split; [exact Hfmt|]. split; [reflexivity|exact Hlook].
Defined.

(** C5. After the builder has processed the one row with link [http://s],
    description [Backup logs] and primary mapping [3.4.1|3.4.2], the lookup
    of [3.4.1] with the inline text [Manual review.] returns
    [Manual review] and [[http://s] - Backup logs], in this order, and the
    lookup of [3.4.2] without inline text (cell missing, or empty) returns
    [[http://s] - Backup logs] alone. *)
Theorem end_to_end_backup_logs :
  let index := load_evidence_enrichment ∅ [backup_row] in
  get_enriched_evidence_strings index "3.4.1" (Str "Manual review.")
  = ["Manual review"; "[http://s] - Backup logs"]
  ∧ get_enriched_evidence_strings index "3.4.2" NaN
    = ["[http://s] - Backup logs"]
  ∧ get_enriched_evidence_strings index "3.4.2" (Str "")
    = ["[http://s] - Backup logs"].
Proof. vm_compute. by repeat split. Qed.

(** ** Trimming, letter case and the IGNORE marker *)

Section trimming_and_case.

Lemma isspace_upper_char c : Py.isspace (Py.upper_char c) = Py.isspace c.
Proof. by destruct c as [[] [] [] [] [] [] [] []]. Qed.

Lemma upper_lstrip s : Py.upper (Py.lstrip s) = Py.lstrip (Py.upper s).
Proof.
  induction s as [|c s IH]; [done|]. cbn [Py.lstrip Py.upper].
  rewrite isspace_upper_char. by destruct (Py.isspace c).
Qed.

Lemma upper_rstrip s : Py.upper (Py.rstrip s) = Py.rstrip (Py.upper s).
Proof.
  induction s as [|c s IH]; [done|]. cbn [Py.rstrip Py.upper].
  rewrite <- IH, isspace_upper_char.
  destruct (Py.rstrip s); [by destruct (Py.isspace c)|done].
Qed.

Lemma upper_strip s : Py.upper (Py.strip s) = Py.strip (Py.upper s).
Proof. unfold Py.strip. by rewrite upper_rstrip, upper_lstrip. Qed.

(** Trimming on the left does not change whether [t] contains a text
    that starts with a non-space character. *)
Lemma contains_lstrip a p t :
  Py.isspace a = false →
  Py.contains (String a p) (Py.lstrip t) = Py.contains (String a p) t.
Proof.
  intros Ha. induction t as [|c t IH]; [done|]. cbn [Py.lstrip].
  destruct (Py.isspace c) eqn:Hc; [|done].
  rewrite IH. cbn [Py.contains Py.startswith].
  rewrite bool_decide_eq_false_2; [done|]. congruence.
Qed.

Lemma rstrip_tail a p : Py.rstrip (String a p) = String a p → Py.rstrip p = p.
Proof.
  cbn [Py.rstrip]. destruct (Py.rstrip p) as [|c r] eqn:Hr.
  - destruct (Py.isspace a); [done|]. by intros [= <-].
  - by intros [= <-].
Qed.

(** Trimming on the right does not change whether [t] starts with a text
    that has no space at its end. *)
Lemma startswith_rstrip p : ∀ t,
  Py.rstrip p = p → Py.startswith p (Py.rstrip t) = Py.startswith p t.
Proof.
  induction p as [|a p IH]; intros t Hp; [done|].
  destruct t as [|c t]; [done|].
  pose proof (IH t (rstrip_tail _ _ Hp)) as IHt.
  cbn [Py.rstrip]. destruct (Py.rstrip t) as [|c' r] eqn:Hr.
  - destruct (Py.isspace c) eqn:Hc.
    + cbn [Py.startswith]. rewrite <- IHt.
      case_bool_decide as Hac; [|done]. subst c.
      destruct p; [|done]. cbn in Hp. by rewrite Hc in Hp.
    + cbn [Py.startswith]. by rewrite <- IHt.
  - cbn [Py.startswith]. by rewrite <- IHt.
Qed.

Lemma contains_rstrip a p t :
  Py.rstrip (String a p) = String a p →
  Py.contains (String a p) (Py.rstrip t) = Py.contains (String a p) t.
Proof.
  intros Hp. induction t as [|c t IH]; [done|].
  cbn [Py.contains]. rewrite <- IH, <- (startswith_rstrip _ (String c t) Hp).
  cbn [Py.rstrip]. destruct (Py.rstrip t) as [|c' r] eqn:Hr.
  - destruct (Py.isspace c); [by rewrite orb_false_r|].
    cbn [Py.contains]. by rewrite orb_false_r.
  - done.
Qed.

Lemma contains_IGNORE_strip s :
  Py.contains "IGNORE" (Py.upper (Py.strip s))
  = Py.contains "IGNORE" (Py.upper s).
Proof.
  rewrite upper_strip. unfold Py.strip.
  rewrite (contains_rstrip "I" "GNORE"), (contains_lstrip "I" "GNORE"); done.
Qed.

End trimming_and_case.

Section formatter.
Import FormatterSpec.

Lemma format_evidence_entry_combine r :
  format_evidence_entry r = combine (link_part r) (descriptive_part r).
Proof.
  unfold format_evidence_entry, link_part, descriptive_part.
  destruct (field r "Current_Sharepoint_Link") as [link|];
    destruct (field r "Description") as [description|]; simpl.
  - rewrite contains_IGNORE_strip.
    by destruct (Py.contains "IGNORE" (Py.upper description)).
  - by destruct (field r "File_Name").
  - rewrite contains_IGNORE_strip.
    by destruct (Py.contains "IGNORE" (Py.upper description)).
  - by destruct (field r "File_Name").
Qed.

End formatter.

(** C7. The formatter returns the bracketed (trimmed) link, then [ - ],
    then the descriptive part, when both parts exist; the one part alone
    when only one exists; the empty string when neither exists.  The
    descriptive part is the (trimmed) description when it is present, not
    empty and without [IGNORE] in any letter case; the file name is taken
    only when the description is absent or empty, so with a description
    present the file-name cell has no influence.  The three scenarios of
    the specification follow. *)
Theorem formatter_by_cases (r : row) :
  format_evidence_entry r
  = FormatterSpec.combine (FormatterSpec.link_part r) (FormatterSpec.descriptive_part r)
  ∧ (∀ description, field r "Description" = Some description →
       ∀ w, format_evidence_entry (<["File_Name" := w]> r) = format_evidence_entry r)
  ∧ format_evidence_entry
      (<["Current_Sharepoint_Link" := Str "http://x"]>
         (<["Description" := Str "Policy doc"]> ∅))
    = "[http://x] - Policy doc"
  ∧ format_evidence_entry (<["Description" := Str "Please ignore this"]> ∅) = ""
  ∧ format_evidence_entry
      (<["Current_Sharepoint_Link" := NaN]>
         (<["Description" := NaN]> (<["File_Name" := Str "f.pdf"]> ∅)))
    = "f.pdf".
Proof.
  split; [apply format_evidence_entry_combine|]. split.
  - intros description Hd w. unfold format_evidence_entry.
    assert (∀ c, c ≠ "File_Name" →
              field (<["File_Name" := w]> r) c = field r c) as Hother.
    { intros c Hc. unfold field. by rewrite lookup_insert_ne. }
    rewrite !Hother by done. by rewrite Hd.
  - vm_compute. by repeat split.
Qed.

Lemma formatter_by_cases_witness :
  field (<["Description" := Str "Policy doc"]> ∅) "Description" = Some "Policy doc"
  ∧ format_evidence_entry
      (<["File_Name" := Str "f.pdf"]> (<["Description" := Str "Policy doc"]> ∅))
    = "Policy doc".
Proof.
  split; [reflexivity|].
  exact (proj1 (proj2 (formatter_by_cases (<["Description" := Str "Policy doc"]> ∅)))
           "Policy doc" eq_refl (Str "f.pdf")).
Defined.

(** ** The validator *)

Section validator.

(** A row is judged on its own: what it adds does not depend on what was
    collected before it. *)
Lemma validate_row_frame errors warnings ir :
  validate_row (errors, warnings) ir =
    match validate_row ([], []) ir with
    | Ok (e, w) => Ok (errors ++ e, warnings ++ w)
    | KeyError c => KeyError c
    end.
Proof.
  destruct ir as [index r]. unfold validate_row, getitem.
  destruct (r !! "CMMC_ID") as [id_cell|]; [|done]. cbn [mbind result_bind].
  destruct (isna id_cell || bool_decide (Py.strip (str id_cell) = "")).
  { by rewrite app_nil_r. }
  destruct (r !! "Control") as [control|]; [|done]. cbn [mbind result_bind].
  destruct (r !! "Score") as [score|]; [|done]. cbn [mbind result_bind].
  destruct (in_ints score [3; 5]).
  - destruct (r !! "AR_CAP_POAM") as [status|]; [|done]. cbn [mbind result_bind].
    destruct (isna control || is_empty_str control),
      (negb (in_ints score [1; 3; 5])),
      (bool_decide (Py.upper (str status) ∈ ["POA&M"; "POAM"]));
      by rewrite ?app_nil_r, <- ?app_assoc.
  - destruct (isna control || is_empty_str control),
      (negb (in_ints score [1; 3; 5])); by rewrite ?app_nil_r, <- ?app_assoc.
Qed.

Lemma validate_row_total ir :
  has_columns ir.2 → ∃ f, validate_row ([], []) ir = Ok f.
Proof.
  destruct ir as [index r]. intros ([id_cell Hi] & [control Hc] & [score Hs] & [status Ha]).
  simpl in *. unfold validate_row, getitem. rewrite Hi. cbn [mbind result_bind].
  destruct (isna id_cell || bool_decide (Py.strip (str id_cell) = "")); [eauto|].
  rewrite Hc, Hs, Ha. cbn [mbind result_bind].
  destruct (in_ints score [3; 5]); [|eauto].
  destruct (bool_decide (Py.upper (str status) ∈ ["POA&M"; "POAM"])); eauto.
Qed.

Lemma validate_csv_data_collects df : ∀ errors warnings,
  Forall (λ ir, has_columns ir.2) df →
  ∃ findings : list (list string * list string),
    Forall2 (λ ir f, validate_row ([], []) ir = Ok f) df findings
    ∧ validate_csv_data (errors, warnings) df
      = Ok (errors ++ concat (fst <$> findings),
            warnings ++ concat (snd <$> findings)).
Proof.
  induction df as [|ir df IH]; intros errors warnings Hcols.
  { exists []. split; [constructor|]. simpl. by rewrite !app_nil_r. }
  apply Forall_cons in Hcols as [Hir Hdf].
  destruct (validate_row_total ir Hir) as [[e w] Hrow].
  destruct (IH (errors ++ e) (warnings ++ w) Hdf) as (findings & Hall & Hrun).
  exists ((e, w) :: findings). split; [by constructor|].
  cbn [validate_csv_data]. rewrite validate_row_frame, Hrow.
  cbn [mbind result_bind]. rewrite Hrun. cbn [fmap list_fmap concat fst snd].
  by rewrite <- !app_assoc.
Qed.

(** What the validator reads of a row is what it needs to return. *)
Lemma validate_row_reads index r :
  validator_reads r ↔ ∃ f, validate_row ([], []) (index, r) = Ok f.
Proof.
  unfold validator_reads, validate_row, getitem. split.
  - intros (id_cell & -> & Hrest). cbn [mbind result_bind].
    destruct (isna id_cell) eqn:Hna; [eauto|]. cbn [orb].
    case_bool_decide as Hid; [eauto|].
    destruct (Hrest eq_refl Hid) as ([control ->] & score & -> & Hstatus).
    cbn [mbind result_bind].
    destruct (in_ints score [3; 5]); [|eauto].
    destruct (Hstatus eq_refl) as [status ->]. cbn [mbind result_bind].
    destruct (bool_decide (Py.upper (str status) ∈ ["POA&M"; "POAM"])); eauto.
  - intros [f Hf]. destruct (r !! "CMMC_ID") as [id_cell|]; [|done].
    exists id_cell. split; [done|]. intros Hna Hid.
    cbn [mbind result_bind] in Hf. rewrite Hna in Hf. cbn [orb] in Hf.
    rewrite (bool_decide_eq_false_2 _ Hid) in Hf.
    destruct (r !! "Control") as [control|]; [|done].
    cbn [mbind result_bind] in Hf. split; [by eexists|].
    destruct (r !! "Score") as [score|]; [|done].
    cbn [mbind result_bind] in Hf. exists score. split; [done|].
    intros Hscore. rewrite Hscore in Hf.
    destruct (r !! "AR_CAP_POAM"); [by eexists|done].
Qed.

Lemma has_columns_reads r : has_columns r → validator_reads r.
Proof.
  intros ([id_cell Hi] & Hc & [score Hs] & Ha). exists id_cell.
  split; [done|]. intros _ _. split; [done|]. by exists score.
Qed.

Lemma validate_csv_data_reads df errors warnings :
  Forall (λ ir, validator_reads ir.2) df ↔
  ∃ findings : list (list string * list string),
    Forall2 (λ ir f, validate_row ([], []) ir = Ok f) df findings
    ∧ validate_csv_data (errors, warnings) df
      = Ok (errors ++ concat (fst <$> findings),
            warnings ++ concat (snd <$> findings)).
Proof.
  split.
  - revert errors warnings.
    induction df as [|[index r] df IH]; intros errors warnings Hdf.
    { exists []. split; [constructor|]. simpl. by rewrite !app_nil_r. }
    apply Forall_cons in Hdf as [Hir Hdf]. cbn [snd] in Hir.
    apply (validate_row_reads index) in Hir as [[e w] Hrow].
    destruct (IH (errors ++ e) (warnings ++ w) Hdf) as (findings & Hall & Hrun).
    exists ((e, w) :: findings). split; [by constructor|].
    cbn [validate_csv_data]. rewrite validate_row_frame, Hrow.
    cbn [mbind result_bind]. rewrite Hrun. cbn [fmap list_fmap concat fst snd].
    by rewrite <- !app_assoc.
  - intros (findings & Hall & _).
    induction Hall as [|[index r] f df' fs Hf _ IH]; constructor; [|done].
    apply (validate_row_reads index). by exists f.
Qed.

Lemma validate_csv_data_returns df errors warnings :
  (∃ rep, validate_csv_data (errors, warnings) df = Ok rep)
  ↔ Forall (λ ir, validator_reads ir.2) df.
Proof.
  split.
  - revert errors warnings.
    induction df as [|[index r] df IH]; intros errors warnings [rep Hrep];
      [constructor|].
    cbn [validate_csv_data] in Hrep. rewrite validate_row_frame in Hrep.
    destruct (validate_row ([], []) (index, r)) as [[e w]|c] eqn:Hrow; [|done].
    cbn [mbind result_bind] in Hrep. apply Forall_cons. split.
    + apply (validate_row_reads index). by eexists.
    + apply (IH (errors ++ e) (warnings ++ w)). by exists rep.
  - intros (findings & _ & Hrun)%(validate_csv_data_reads df errors warnings).
    by eexists.
Qed.

Lemma validate_row_poam_reads index r cmmc_id score errors warnings :
  validator_reads r →
  r !! "CMMC_ID" = Some cmmc_id → isna cmmc_id = false →
  Py.strip (str cmmc_id) ≠ "" →
  r !! "Score" = Some (Int score) →
  ∃ w,
    (∀ status,
       score = 3 ∨ score = 5 → r !! "AR_CAP_POAM" = Some status →
       Py.upper (str status) ∈ ["POA&M"; "POAM"] →
       validate_row (errors, warnings) (index, r)
       = Ok (errors ++ [poam_error cmmc_id (Int score) status], warnings ++ w))
    ∧ (score = 1 →
       validate_row (errors, warnings) (index, r) = Ok (errors, warnings ++ w)).
Proof.
  intros (id_cell & Hi' & Hrest) Hi Hna Hid Hs.
  rewrite Hi in Hi'. injection Hi' as <-.
  destruct (Hrest Hna Hid) as ([control Hc] & _).
  exists (if isna control || is_empty_str control
          then ["Control " +:+ str cmmc_id +:+ ": Missing Control description"]
          else []).
  unfold validate_row, getitem. rewrite Hi. cbn [mbind result_bind].
  rewrite Hna. cbn [orb]. rewrite (bool_decide_eq_false_2 _ Hid), Hc.
  cbn [mbind result_bind]. rewrite Hs. cbn [mbind result_bind].
  split.
  - intros status Hscore Ha Hst. rewrite Ha.
    destruct Hscore as [-> | ->]; cbn [mbind result_bind];
      rewrite (bool_decide_eq_true_2 _ Hst); simpl;
      by destruct (isna control || is_empty_str control); rewrite ?app_nil_r.
  - intros ->. simpl.
    by destruct (isna control || is_empty_str control); rewrite ?app_nil_r.
Qed.

End validator.

(** C8, as stated, fails: on a table without the [Control] column, with
    the rows [3.1.1] (score 3, status [POA&M]) and [3.1.2] (score 5, status
    [POAM]), the validator appends no error at all; reading the column
    raises [KeyError] on the first row, and the second row is not
    evaluated. *)
Lemma validator_halts_without_control_column :
  dom row_missing_control = dom second_row_missing_control
  ∧ validate_row ([], []) (0, row_missing_control) = KeyError "Control"
  ∧ validate_csv_data ([], []) table_missing_control = KeyError "Control"
  ∧ ¬ ∃ rep, validate_csv_data ([], []) table_missing_control = Ok rep.
Proof.
  assert (validate_csv_data ([], []) table_missing_control = KeyError "Control")
    as H by reflexivity.
  split; [|split; [reflexivity|split; [exact H|]]].
  - unfold row_missing_control, second_row_missing_control.
    by rewrite !dom_insert_L.
  - intros [rep Hrep]. rewrite H in Hrep. discriminate.
Qed.

(** C8, amended.  Validation returns exactly on the tables of which it can
    read what it reads with [row[...]]: the identifier of every row, the
    control text and the score of every row that has an identifier, and the
    status of every such row with a score of 3 or 5.  On such a table it
    never halts: every row is evaluated, and the errors and the warnings of
    the rows are collected in row order.  For a row of the table with a
    non-empty identifier: with score 3 or 5 and a status that, upper-cased,
    is [POA&M] or [POAM], the validator appends exactly one error, which
    mentions the identifier; with score 1 it appends no error, whatever the
    status, and also without the status column. *)
Theorem validator_poam_rule (errors warnings : list string) (df : list (Z * row)) :
  ((∃ rep, validate_csv_data (errors, warnings) df = Ok rep)
   ↔ Forall (λ ir, validator_reads ir.2) df)
  ∧ (Forall (λ ir, validator_reads ir.2) df →
     (∃ findings : list (list string * list string),
        Forall2 (λ ir f, validate_row ([], []) ir = Ok f) df findings
        ∧ validate_csv_data (errors, warnings) df
          = Ok (errors ++ concat (fst <$> findings),
                warnings ++ concat (snd <$> findings)))
     ∧ (∀ index r cmmc_id score E W,
          (index, r) ∈ df →
          r !! "CMMC_ID" = Some cmmc_id → isna cmmc_id = false →
          Py.strip (str cmmc_id) ≠ "" →
          r !! "Score" = Some (Int score) →
          ∃ w,
            (∀ status,
               score = 3 ∨ score = 5 → r !! "AR_CAP_POAM" = Some status →
               Py.upper (str status) ∈ ["POA&M"; "POAM"] →
               validate_row (E, W) (index, r)
               = Ok (E ++ [poam_error cmmc_id (Int score) status], W ++ w)
               ∧ ∃ pre post,
                   poam_error cmmc_id (Int score) status
                   = pre +:+ str cmmc_id +:+ post)
            ∧ (score = 1 → validate_row (E, W) (index, r) = Ok (E, W ++ w)))).
Proof.
  split; [apply validate_csv_data_returns|].
  intros Hcols. split; [by apply validate_csv_data_reads|].
  intros index r cmmc_id score E W Hin Hi Hna Hid Hs.
  rewrite Forall_forall in Hcols. pose proof (Hcols _ Hin) as Hreads.
  destruct (validate_row_poam_reads index r cmmc_id score E W Hreads Hi Hna Hid Hs)
    as (w & Hpoam & Hone).
  exists w. split; [|exact Hone].
  intros status Hscore Ha Hst. split; [by apply Hpoam|].
  by exists "Control ",
    (": CRITICAL - Score=" +:+ str (Int score)
     +:+ " (non-POAMable) but AR_CAP_POAM='" +:+ str status +:+ "'").
Qed.

Lemma validator_poam_rule_witness :
  Forall (λ ir : Z * row, validator_reads ir.2)
    [(0, poam_row_score3); (1, poam_row_score1)]
  ∧ validate_csv_data ([], []) [(0, poam_row_score3); (1, poam_row_score1)]
    = Ok (["Control 3.1.1: CRITICAL - Score=3 (non-POAMable) but AR_CAP_POAM='POA&M'"],
          [])
  ∧ (∃ w, validate_row ([], []) (0, poam_row_score3)
          = Ok ([] ++ [poam_error (Str "3.1.1") (Int 3) (Str "POA&M")], [] ++ w))
  ∧ (∃ w, validate_row ([], []) (1, poam_row_score1) = Ok ([], [] ++ w))
  ∧ Forall (λ ir : Z * row, validator_reads ir.2) [(0, row_score1_no_status)].
Proof.
  assert (Forall (λ ir : Z * row, validator_reads ir.2)
            [(0, poam_row_score3); (1, poam_row_score1)]) as Hcols.
  { repeat (apply Forall_cons; split); [| |apply Forall_nil_2];
      apply has_columns_reads; repeat split; by eexists. }
  destruct (proj2 (validator_poam_rule [] [] _) Hcols) as [_ Hrow].
  split; [exact Hcols|]. split; [reflexivity|]. split; [|split].
  - destruct (Hrow 0 poam_row_score3 (Str "3.1.1") 3 [] []
                ltac:(left) eq_refl eq_refl ltac:(discriminate) eq_refl)
      as (w & Hpoam & _).
    exists w. apply (Hpoam (Str "POA&M")); [by left|reflexivity|].
    apply (bool_decide_unpack _). by vm_compute.
  - destruct (Hrow 1 poam_row_score1 (Str "3.1.2") 1 [] []
                ltac:(right; left) eq_refl eq_refl ltac:(discriminate) eq_refl)
      as (w & _ & Hone).
    exists w. by apply Hone.
  - apply (proj1 (proj1 (validator_poam_rule [] [] [(0, row_score1_no_status)]))).
    by eexists.
Defined.

(** * Properties of the functions around the index *)

Example family_of_3_10_1 : get_control_family (Str "3.10.1") = "PE - Physical Protection".
Proof. vm_compute. reflexivity. Qed.

Example family_key_of_AC : family_key_of "AC - Access Control" = "AC".
Proof. reflexivity. Qed.

Example title_of_items : get_control_title (Str "Limit access.| to users ;") = "Limit access, to users".
Proof. reflexivity. Qed.

Example split_str_twice : PyMore.split_str " - " "a - b -  - c - " = ["a"; "b"; ""; "c"; ""].
Proof. reflexivity. Qed.

(** ** Splitting and joining *)

Section splitting.

Lemma split_app_sep sep a t :
  occurs sep a = false →
  Py.split sep (a +:+ String sep t) = a :: Py.split sep t.
Proof.
  induction a as [|c a IH]; intros Ha.
  - change (Py.split sep (String sep t) = "" :: Py.split sep t).
    cbn [Py.split]. by rewrite bool_decide_eq_true_2.
  - cbn [occurs] in Ha. apply orb_false_iff in Ha as [Hc Ha].
    rewrite append_cons. cbn [Py.split]. by rewrite Hc, (IH Ha).
Qed.

Lemma length_split sep s : length (Py.split sep s) = S (PyMore.count sep s).
Proof.
  induction s as [|c s IH]; [done|]. cbn [Py.split PyMore.count].
  case_bool_decide; cbn [length]; [by rewrite IH|].
  destruct (Py.split sep s); cbn [length] in *; [discriminate|done].
Qed.

Lemma contains_char_count c s :
  Py.contains (String c "") s = true ↔ (0 < PyMore.count c s)%nat.
Proof.
  induction s as [|a s IH]; [cbn; split; [discriminate|lia]|].
  cbn [Py.contains Py.startswith PyMore.count].
  rewrite andb_true_r, orb_true_iff, IH.
  destruct (decide (c = a)) as [->|Hne].
  - rewrite !bool_decide_eq_true_2 by done. split; [lia|by left].
  - rewrite (bool_decide_eq_false_2 (c = a)) by done.
    rewrite (bool_decide_eq_false_2 (a = c)) by congruence.
    split; [by intros [|]|by right].
Qed.

Lemma occurs_append c s t :
  occurs c (s +:+ t) = occurs c s || occurs c t.
Proof.
  induction s as [|a s IH]; [done|]. rewrite append_cons. cbn [occurs].
  by rewrite IH, orb_assoc.
Qed.

Lemma occurs_join c sep l :
  occurs c (PyMore.join sep l) = true →
  occurs c sep = true ∨ ∃ x, x ∈ l ∧ occurs c x = true.
Proof.
  induction l as [|x l IH]; [done|]. cbn [PyMore.join].
  destruct l as [|y l].
  - intros Hx. right. exists x. split; [by left|done].
  - rewrite !occurs_append. intros [Hx|[Hs|Hr]%orb_true_iff]%orb_true_iff.
    + right. exists x. split; [by left|done].
    + by left.
    + destruct (IH Hr) as [?|(z & Hz & Ho)]; [by left|].
      right. exists z. split; [by right|done].
Qed.

End splitting.

(** ** The delimiter of a table *)

(** X1. The delimiter found from the first line is the pipe exactly when the
    line has more pipes than commas, that is when the pipe cuts the line into
    more fields than the comma does; on a tie, and on a line with neither,
    it is the comma.  The test ['|' in first_line] adds nothing. *)
Theorem detect_delimiter_more_fields (first_line : string) :
  (detect_delimiter first_line = "|"%char
   ↔ (PyMore.count "," first_line < PyMore.count "|" first_line)%nat)
  ∧ (detect_delimiter first_line = "|"%char
     ↔ (length (Py.split "," first_line) < length (Py.split "|" first_line))%nat)
  ∧ (detect_delimiter first_line ≠ "|"%char → detect_delimiter first_line = ","%char).
Proof.
  assert (detect_delimiter first_line = "|"%char
          ↔ (PyMore.count "," first_line < PyMore.count "|" first_line)%nat) as Hc.
  { unfold detect_delimiter.
    destruct (Nat.ltb_spec (PyMore.count "," first_line) (PyMore.count "|" first_line))
      as [Hlt|Hge].
    - assert (Py.contains "|" first_line = true) as ->.
      { apply contains_char_count. lia. }
      done.
    - rewrite andb_false_r. split; [done|lia]. }
  split; [exact Hc|]. split.
  - rewrite !length_split, Hc. lia.
  - unfold detect_delimiter. by destruct (_ && _).
Qed.

(** ** Control families *)

Section families.

Lemma control_families_lookup k f :
  CONTROL_FAMILIES !! k = Some f →
  occurs "." k = true
  ∧ ∃ code name, f = code +:+ " - " +:+ name
                 ∧ String.length code = 2%nat ∧ family_key_of f = code.
Proof.
  unfold CONTROL_FAMILIES. intros H%elem_of_list_to_map_2.
  repeat (apply elem_of_cons in H as [H|H];
          [injection H as -> ->; split; [done|];
           match goal with
           | |- ∃ code name, String ?a (String ?b ?rest) = _ ∧ _ =>
               exists (String a (String b "")); eexists; by split
           end|]).
  by apply elem_of_nil in H.
Qed.

Lemma family_prefix_two a b rest :
  occurs "." a = false → occurs "." b = false →
  family_prefix (a +:+ "." +:+ b +:+ "." +:+ rest) = a +:+ "." +:+ b
  ∧ family_prefix (a +:+ "." +:+ b) = a +:+ "." +:+ b.
Proof.
  intros Ha Hb. unfold family_prefix.
  change ("." +:+ b +:+ "." +:+ rest) with (String "." (b +:+ String "." rest)).
  change ("." +:+ b) with (String "." b).
  rewrite !(split_app_sep _ a) by done.
  rewrite (split_app_sep _ b) by done.
  rewrite (split_absent _ b) by done. done.
Qed.

Lemma family_prefix_no_dot a : occurs "." a = false → family_prefix a = a.
Proof. intros Ha. unfold family_prefix. by rewrite (split_absent _ a). Qed.

End families.

(** X2. The family of an identifier is read from its first two
    dot-separated segments alone: whatever follows the second dot has no
    influence, and the result is the table's entry for the two segments, or
    [Unknown].  An identifier without a dot is always [Unknown]. *)
Theorem family_from_first_two_segments (a b rest : string) :
  occurs "." a = false → occurs "." b = false →
  get_control_family (Str (a +:+ "." +:+ b +:+ "." +:+ rest))
  = get_control_family (Str (a +:+ "." +:+ b))
  ∧ get_control_family (Str (a +:+ "." +:+ b))
    = default "Unknown" (CONTROL_FAMILIES !! (a +:+ "." +:+ b))
  ∧ get_control_family (Str a) = "Unknown".
Proof.
  intros Ha Hb. unfold get_control_family, str.
  destruct (family_prefix_two a b rest Ha Hb) as [-> ->].
  split; [done|]. split; [done|].
  rewrite (family_prefix_no_dot a Ha).
  destruct (CONTROL_FAMILIES !! a) as [f|] eqn:Hf; [|done].
  apply control_families_lookup in Hf as [Hdot _]. congruence.
Qed.

Lemma family_from_first_two_segments_witness :
  get_control_family (Str "3.10.1") = get_control_family (Str "3.10")
  ∧ get_control_family (Str "3.10") = "PE - Physical Protection"
  ∧ get_control_family (Str "3") = "Unknown".
Proof.
  exact (family_from_first_two_segments "3" "10" "1" eq_refl eq_refl).
Defined.

(** X3. Whatever the identifier cell holds, the family is either [Unknown],
    with key [Unknown], or a table entry of the form [code - name] with a
    two-letter code, and then the key the callers take from it is that
    code. *)
Theorem family_key_is_code (cmmc_id : value) :
  let family := get_control_family cmmc_id in
  (family = "Unknown" ∧ family_key_of family = "Unknown")
  ∨ (∃ code name, family = code +:+ " - " +:+ name
                  ∧ String.length code = 2%nat
                  ∧ family_key_of family = code).
Proof.
  unfold get_control_family.
  destruct (CONTROL_FAMILIES !! family_prefix (str cmmc_id)) as [f|] eqn:Hf.
  - right. by apply control_families_lookup in Hf as [_ ?].
  - by left.
Qed.

(** ** Grouping by family *)

Section grouping.

Lemma filter_none {A} (P : A → Prop) `{!∀ x, Decision (P x)} (l : list A) :
  Forall (λ x, ¬ P x) l → filter P l = [].
Proof.
  induction 1 as [|x l Hx _ IH]; [done|]. by rewrite filter_cons_False.
Qed.

Lemma dict_append_map (g : string → list row) ks k x :
  NoDup ks →
  dict_append ((λ k', (k', g k')) <$> ks) k x =
    if decide (k ∈ ks)
    then (λ k', (k', g k' ++ if decide (k' = k) then [x] else [])) <$> ks
    else ((λ k', (k', g k')) <$> ks) ++ [(k, [x])].
Proof.
  induction ks as [|k' ks IH]; intros Hnd.
  { by rewrite decide_False by apply not_elem_of_nil. }
  apply NoDup_cons in Hnd as [Hk' Hnd]. cbn [fmap list_fmap dict_append].
  change (list_fmap _ _ ?f ks) with (f <$> ks).
  destruct (decide (k' = k)) as [->|Hne].
  - rewrite bool_decide_eq_true_2 by done.
    rewrite decide_True by (by left).
    f_equal. apply list_fmap_ext. intros i k'' Hk''.
    rewrite decide_False; [by rewrite app_nil_r|].
    intros ->. apply Hk'. by eapply list_elem_of_lookup_2.
  - rewrite bool_decide_eq_false_2 by done. rewrite (IH Hnd).
    rewrite app_nil_r.
    destruct (decide (k ∈ ks)) as [Hin|Hnin].
    + by rewrite decide_True by (by right).
    + rewrite decide_False; [done|]. rewrite not_elem_of_cons. by split.
Qed.

Lemma grouped_snoc rs r :
  dict_append (grouped rs) (row_family_key r) r = grouped (rs ++ [r]).
Proof.
  unfold grouped. rewrite dict_append_map by apply NoDup_keep_first.
  rewrite fmap_app, keep_first_app. cbn [fmap list_fmap keep_first].
  change (list_fmap _ _ ?f ?l) with (f <$> l).
  rewrite filter_cons, filter_nil, fmap_app.
  destruct (decide (row_family_key r ∈ keep_first (row_family_key <$> rs)))
    as [Hin|Hnin].
  - rewrite decide_False by (rewrite elem_of_keep_first in Hin; tauto).
    rewrite app_nil_r. apply list_fmap_ext. intros i k _. f_equal.
    rewrite filter_app, filter_cons, filter_nil.
    destruct (decide (k = row_family_key r)) as [->|Hne].
    + by rewrite decide_True.
    + by rewrite decide_False by congruence.
  - rewrite elem_of_keep_first in Hnin. rewrite decide_True by done.
    cbn [fmap list_fmap]. f_equal.
    + apply list_fmap_ext. intros i k Hk. f_equal.
      rewrite filter_app, filter_cons, filter_nil.
      rewrite decide_False; [by rewrite app_nil_r|].
      intros Heq. apply Hnin. rewrite Heq, <- elem_of_keep_first.
      by eapply list_elem_of_lookup_2.
    + f_equal. f_equal. rewrite filter_app, filter_cons, filter_nil.
      rewrite decide_True by done.
      replace (filter (λ r0, row_family_key r0 = row_family_key r) rs)
        with (@nil row); [done|].
      symmetry. apply filter_none, Forall_forall. intros r0 Hr0 Heq.
      apply Hnin. rewrite <- Heq. apply list_elem_of_fmap. eauto.
Qed.

Lemma group_by_family_grouped df : ∀ rs0,
  Forall (λ ir : Z * row, is_Some (ir.2 !! "CMMC_ID")) df →
  group_by_family (grouped rs0) df = Ok (grouped (rs0 ++ identified_rows df)).
Proof.
  induction df as [|[index r] df IH]; intros rs0 Hdf.
  { unfold identified_rows. simpl. by rewrite app_nil_r. }
  apply Forall_cons in Hdf as [[v Hv] Hdf]. simpl in Hv.
  cbn [group_by_family group_row]. unfold getitem. rewrite Hv.
  cbn [mbind result_bind].
  unfold identified_rows. cbn [fmap list_fmap snd].
  change (list_fmap _ _ snd df) with (snd <$> df).
  rewrite filter_cons, Hv. cbn [default from_option id].
  destruct (isna v) eqn:Hna.
  - rewrite decide_False by done. apply (IH rs0 Hdf).
  - rewrite decide_True by done.
    replace (family_key_of (get_control_family v)) with (row_family_key r)
      by (unfold row_family_key; by rewrite Hv).
    rewrite grouped_snoc. cbn [mbind result_bind]. rewrite (IH _ Hdf).
    unfold identified_rows. by rewrite <- app_assoc.
Qed.

Lemma group_by_family_missing_column fams df :
  Exists (λ ir : Z * row, ir.2 !! "CMMC_ID" = None) df →
  group_by_family fams df = KeyError "CMMC_ID".
Proof.
  revert fams. induction df as [|[index r] df IH]; intros fams Hex.
  { by apply Exists_nil in Hex. }
  cbn [group_by_family group_row]. unfold getitem.
  destruct (r !! "CMMC_ID") as [v|] eqn:Hv; [|done].
  apply Exists_cons in Hex as [Hex|Hex]; [simpl in Hex; congruence|].
  cbn [mbind result_bind]. destruct (isna v); by apply IH.
Qed.

End grouping.

(** X4. Grouping by family is a partition in table order.  On a table whose
    rows all have the [CMMC_ID] column, the dictionary holds the family
    keys in the order of their first appearance, each key once, and under
    each key exactly the rows of that family that have an identifier, in
    table order; rows without identifier are in no group.  If a row lacks
    the column, grouping raises [KeyError]. *)
Theorem group_by_family_partition (df : list (Z * row)) :
  (Forall (λ ir : Z * row, is_Some (ir.2 !! "CMMC_ID")) df →
   group_by_family [] df = Ok (grouped (identified_rows df))
   ∧ NoDup (fst <$> grouped (identified_rows df))
   ∧ ∀ k l, (k, l) ∈ grouped (identified_rows df) →
       l ≠ [] ∧ l = filter (λ r, row_family_key r = k) (identified_rows df))
  ∧ (Exists (λ ir : Z * row, ir.2 !! "CMMC_ID" = None) df →
     group_by_family [] df = KeyError "CMMC_ID").
Proof.
  split; [|apply group_by_family_missing_column].
  intros Hdf. split; [apply (group_by_family_grouped df [] Hdf)|].
  unfold grouped. split.
  - rewrite <- list_fmap_compose. cbn. rewrite list_fmap_id.
    apply NoDup_keep_first.
  - intros k l (k' & [= -> ->] & Hk)%list_elem_of_fmap. split; [|done].
    apply elem_of_keep_first, list_elem_of_fmap in Hk as (r & Hr & Hin).
    intros Hnil. by apply (filter_nil_not_elem_of _ _ r Hnil).
Qed.

Lemma group_by_family_partition_witness :
  Forall (λ ir : Z * row, is_Some (ir.2 !! "CMMC_ID"))
    [(0, poam_row_score3); (1, cm_row); (2, poam_row_score1)]
  ∧ group_by_family [] [(0, poam_row_score3); (1, cm_row); (2, poam_row_score1)]
    = Ok [("AC", [poam_row_score3; poam_row_score1]); ("CM", [cm_row])].
Proof.
  assert (Forall (λ ir : Z * row, is_Some (ir.2 !! "CMMC_ID"))
            [(0, poam_row_score3); (1, cm_row); (2, poam_row_score1)]) as Hdf.
  { repeat (apply Forall_cons; split; [by eexists|]). apply Forall_nil_2. }
  split; [exact Hdf|].
  rewrite (proj1 (proj1 (group_by_family_partition _) Hdf)).
  reflexivity.
Defined.

(** ** Titles *)

(** X5. A title shows no raw delimiter once an item has survived
    normalisation: for a control text that is present and not empty and
    from which the normaliser keeps at least one item, the title has
    neither [;] nor [|].  (When nothing survives, the raw text is the
    title.) *)
Theorem title_shows_no_delimiter (control_text : value) :
  isna control_text = false → control_text ≠ Str "" →
  parse_delimited_content (Str (str control_text)) ≠ [] →
  occurs ";" (get_control_title control_text) = false
  ∧ occurs "|" (get_control_title control_text) = false.
Proof.
  intros Hna Hne Hitems. unfold get_control_title.
  rewrite Hna. unfold is_empty_str. rewrite bool_decide_eq_false_2 by done.
  cbn [orb].
  destruct (parse_delimited_content (Str (str control_text))) as [|x items] eqn:Hp;
    [done|].
  assert (∀ c, c = ";"%char ∨ c = "|"%char →
            occurs c (PyMore.join ", " (x :: items)) = false) as Hjoin.
  { intros c Hc. apply not_true_is_false.
    intros [Hsep|(y & Hy & Ho)]%occurs_join.
    - by destruct Hc as [-> | ->].
    - rewrite <- Hp in Hy. apply produced_item_no_delimiter in Hy as [H1 H2].
      destruct Hc as [-> | ->]; congruence. }
  assert (∀ c, c = ";"%char ∨ c = "|"%char →
            occurs c (if Py.endswith "." (PyMore.join ", " (x :: items))
                      then Py.drop_last (PyMore.join ", " (x :: items))
                      else PyMore.join ", " (x :: items)) = false) as Hres.
  { intros c Hc. destruct (Py.endswith "." _); [|by apply Hjoin].
    apply not_true_is_false. intros Ho%occurs_drop_last.
    by rewrite Hjoin in Ho. }
  split; apply Hres; [by left|by right].
Qed.

Lemma title_shows_no_delimiter_witness :
  get_control_title (Str "Limit access.| to users ;") = "Limit access, to users"
  ∧ occurs ";" (get_control_title (Str "Limit access.| to users ;")) = false
  ∧ occurs "|" (get_control_title (Str "Limit access.| to users ;")) = false.
Proof.
  split; [reflexivity|].
  exact (title_shows_no_delimiter (Str "Limit access.| to users ;")
           eq_refl ltac:(discriminate) ltac:(discriminate)).
Defined.

(** ** The status counts of the report *)

Section status_counts.

Lemma length_filter_fmap {A B} (f : A → B) (P : A → Prop) (Q : B → Prop)
    `{!∀ x, Decision (P x), !∀ y, Decision (Q y)} (l : list A) :
  (∀ x, P x ↔ Q (f x)) →
  length (filter P l) = length (filter Q (f <$> l)).
Proof.
  intros HPQ. induction l as [|x l IH]; [done|].
  cbn [fmap list_fmap]. rewrite !filter_cons.
  destruct (decide (P x)) as [HP|HP].
  - rewrite decide_True by (by apply HPQ). cbn [length]. by rewrite IH.
  - rewrite decide_False by (by rewrite <- HPQ). done.
Qed.

Lemma implementation_status_poam v :
  Py.upper (str v) ∈ ["POA&M"; "POAM"]
  ↔ implementation_status v = "Plan of Action & Milestones (POA&M)".
Proof.
  unfold implementation_status. case_bool_decide; [done|].
  case_bool_decide; split; done.
Qed.

Lemma implementation_status_audit v :
  Py.upper (str v) = "AUDIT READY" ↔ implementation_status v = "Audit Ready".
Proof.
  unfold implementation_status. case_bool_decide as Hp.
  - split; [|done]. intros Heq. rewrite Heq in Hp.
    apply elem_of_cons in Hp as [?|Hp]; [done|].
    by apply list_elem_of_singleton in Hp.
  - case_bool_decide; split; done.
Qed.

Lemma statuses_three_way (l : list string) :
  Forall (λ s, s = "Implemented" ∨ s = "Audit Ready"
               ∨ s = "Plan of Action & Milestones (POA&M)") l →
  length l
  = (length (filter (λ s, s = "Implemented") l)
     + length (filter (λ s, s = "Audit Ready") l)
     + length (filter (λ s, s = "Plan of Action & Milestones (POA&M)") l))%nat.
Proof.
  induction 1 as [|s l Hs _ IH]; [done|]. rewrite !filter_cons.
  destruct Hs as [-> | [-> | ->]];
    repeat (case_decide; try done); cbn [length]; lia.
Qed.

Lemma implementation_status_range v :
  implementation_status v = "Implemented"
  ∨ implementation_status v = "Audit Ready"
  ∨ implementation_status v = "Plan of Action & Milestones (POA&M)".
Proof. unfold implementation_status. repeat case_bool_decide; auto. Qed.

End status_counts.

(** X6. The three status counts of the validation report agree with what
    the renderer shows: on a table with the [AR_CAP_POAM] column, the
    counts printed as Implemented, Audit Ready and POA&M are the numbers of
    rows the renderer labels with the corresponding status, so they add up
    to the number of rows and none is negative.  Without the column the
    report raises [KeyError]. *)
Theorem status_counts_match_renderer (df : frame) :
  ("AR_CAP_POAM" ∈ columns df →
   status_counts df
   = Ok (Z.of_nat (length (filter (λ s, s = "Implemented") (shown_statuses df))),
         Z.of_nat (length (filter (λ s, s = "Audit Ready") (shown_statuses df))),
         Z.of_nat (length (filter (λ s, s = "Plan of Action & Milestones (POA&M)")
                             (shown_statuses df))))
   ∧ length (rows df)
     = (length (filter (λ s, s = "Implemented") (shown_statuses df))
        + length (filter (λ s, s = "Audit Ready") (shown_statuses df))
        + length (filter (λ s, s = "Plan of Action & Milestones (POA&M)")
                    (shown_statuses df)))%nat)
  ∧ ("AR_CAP_POAM" ∉ columns df → status_counts df = KeyError "AR_CAP_POAM").
Proof.
  split.
  - intros Hcol.
    assert (length (rows df)
            = (length (filter (λ s, s = "Implemented") (shown_statuses df))
               + length (filter (λ s, s = "Audit Ready") (shown_statuses df))
               + length (filter (λ s, s = "Plan of Action & Milestones (POA&M)")
                           (shown_statuses df)))%nat) as Hsum.
    { rewrite <- statuses_three_way; [unfold shown_statuses; by rewrite length_fmap|].
      apply Forall_forall. intros s (ir & -> & _)%list_elem_of_fmap.
      apply implementation_status_range. }
    split; [|exact Hsum].
    unfold status_counts, frame_getitem. rewrite bool_decide_eq_true_2 by done.
    cbn [mbind result_bind].
    rewrite (length_filter_fmap implementation_status _
               (λ s, s = "Plan of Action & Milestones (POA&M)"))
      by apply implementation_status_poam.
    rewrite (length_filter_fmap implementation_status _ (λ s, s = "Audit Ready"))
      by apply implementation_status_audit.
    rewrite <- !list_fmap_compose.
    change (implementation_status ∘ _ <$> rows df) with (shown_statuses df).
    assert (∀ a b c n : nat, n = (a + b + c)%nat →
              Z.of_nat n - Z.of_nat c - Z.of_nat b = Z.of_nat a) as Harith
      by (intros; lia).
    by rewrite (Harith _ _ _ _ Hsum).
  - intros Hcol. unfold status_counts, frame_getitem.
    by rewrite bool_decide_eq_false_2.
Qed.

Lemma status_counts_match_renderer_witness :
  "AR_CAP_POAM" ∈ ["CMMC_ID"; "Control"; "Score"; "AR_CAP_POAM"]
  ∧ status_counts
      {| columns := ["CMMC_ID"; "Control"; "Score"; "AR_CAP_POAM"];
         rows := [(0, poam_row_score3); (1, cm_row); (2, poam_row_score1)] |}
    = Ok (0, 1, 2).
Proof.
  assert ("AR_CAP_POAM" ∈ ["CMMC_ID"; "Control"; "Score"; "AR_CAP_POAM"]) as Hc.
  { apply (bool_decide_unpack _). by vm_compute. }
  split; [exact Hc|].
  exact (proj1 (proj1 (status_counts_match_renderer
           {| columns := ["CMMC_ID"; "Control"; "Score"; "AR_CAP_POAM"];
              rows := [(0, poam_row_score3); (1, cm_row); (2, poam_row_score1)] |})
           Hc)).
Defined.

(** ** Texts that lxml takes *)

Section xml_texts.

Lemma xml_compatible_occurs s :
  xml_compatible s = true ↔ ∀ a, occurs a s = true → xml_char a = true.
Proof.
  induction s as [|c s IH]; cbn [xml_compatible occurs]; [done|].
  rewrite andb_true_iff, IH. split.
  - intros [Hc Hs] a [Ha|Ha]%orb_true_iff; [|by apply Hs].
    apply bool_decide_eq_true in Ha. by subst.
  - intros H. split.
    + apply H. by rewrite bool_decide_eq_true_2.
    + intros a Ha. apply H. rewrite Ha. apply orb_true_r.
Qed.

Lemma xml_compatible_app s t :
  xml_compatible (s +:+ t) = xml_compatible s && xml_compatible t.
Proof.
  induction s as [|c s IH]; [done|]. rewrite append_cons.
  cbn [xml_compatible]. by rewrite IH, andb_assoc.
Qed.

Lemma xml_compatible_sub s t :
  (∀ a, occurs a t = true → occurs a s = true) →
  xml_compatible s = true → xml_compatible t = true.
Proof. rewrite !xml_compatible_occurs. auto. Qed.

Lemma occurs_replace a b c s :
  occurs c (Py.replace a b s) = true → occurs c s = true ∨ c = b.
Proof.
  induction s as [|x s IH]; cbn [Py.replace occurs]; [done|].
  intros [Hx|Hs]%orb_true_iff.
  - apply bool_decide_eq_true in Hx. case_bool_decide; [by right|].
    left. subst. by rewrite bool_decide_eq_true_2.
  - destruct (IH Hs) as [Ho|Ho]; [left; rewrite Ho; apply orb_true_r|by right].
Qed.

(** The characters of an item come from the text it was cut from. *)
Lemma produced_item_chars content x a :
  x ∈ parse_delimited_content content →
  occurs a x = true → occurs a (str content) = true.
Proof.
  intros Hx Ha.
  destruct (produced_item_no_delimiter content x Hx) as [Hsemi _].
  rewrite parse_delimited_content_normalize in Hx.
  unfold NormalizerSpec.normalize in Hx.
  assert (x ∈ NormalizerSpec.strip_trailing_period
                <$> filter NormalizerSpec.kept
                      (Py.strip <$> Py.split ";" (Py.replace "|" ";" (str content))))
    as Hx' by (destruct content; [by apply not_elem_of_nil in Hx|done|done]).
  apply list_elem_of_fmap in Hx' as (y & -> & Hy).
  apply list_elem_of_filter in Hy as [_ Hy].
  apply list_elem_of_fmap in Hy as (p & -> & Hp).
  assert (occurs a (Py.strip p) = true) as Hstrip.
  { unfold NormalizerSpec.strip_trailing_period in Ha.
    destruct (Py.endswith "." (Py.strip p)); [|done].
    by apply occurs_strip, occurs_drop_last in Ha. }
  apply occurs_strip in Hstrip.
  apply (split_pieces_occurs _ _ _ _ Hp) in Hstrip.
  apply occurs_replace in Hstrip as [Ho|Ho]; [done|]. congruence.
Qed.

Lemma xml_parse_items content :
  xml_compatible (str content) = true →
  Forall (λ x, xml_compatible x = true) (parse_delimited_content content).
Proof.
  intros Hc. apply Forall_forall. intros x Hx.
  apply (xml_compatible_sub (str content)); [|done].
  intros a. by apply produced_item_chars.
Qed.

Lemma xml_join sep items :
  xml_compatible sep = true →
  Forall (λ x, xml_compatible x = true) items →
  xml_compatible (PyMore.join sep items) = true.
Proof.
  intros Hsep Hitems. apply xml_compatible_occurs. intros a Ha.
  apply occurs_join in Ha as [Ha|(x & Hx & Ha)].
  - by apply (proj1 (xml_compatible_occurs sep)).
  - rewrite Forall_forall in Hitems.
    by apply (proj1 (xml_compatible_occurs x) (Hitems x Hx)).
Qed.

Lemma xml_drop_last s : xml_compatible s = true → xml_compatible (Py.drop_last s) = true.
Proof. apply xml_compatible_sub. intros a. apply occurs_drop_last. Qed.

Lemma xml_title control_text :
  xml_compatible (str control_text) = true →
  xml_compatible (get_control_title control_text) = true.
Proof.
  intros Hc. unfold get_control_title.
  destruct (isna control_text || is_empty_str control_text); [done|].
  pose proof (xml_parse_items (Str (str control_text)) Hc) as Hitems.
  destruct (parse_delimited_content (Str (str control_text))) as [|x l] eqn:Hp.
  - cbv zeta. destruct (Py.endswith "." (str control_text)); [|done].
    by apply xml_drop_last.
  - cbv zeta.
    assert (xml_compatible (PyMore.join ", " (x :: l)) = true) as Hj
      by (by apply xml_join).
    destruct (Py.endswith "." (PyMore.join ", " (x :: l))); [|done].
    by apply xml_drop_last.
Qed.

Lemma xml_implementation_status v :
  xml_compatible (implementation_status v) = true.
Proof. unfold implementation_status. by repeat case_bool_decide. Qed.

Lemma xml_row_get control c :
  xml_row control → xml_compatible (str (row_get control c (Str ""))) = true.
Proof.
  intros Hrow. unfold row_get. destruct (control !! c) as [v|] eqn:Hv; [|done].
  by apply (Hrow c).
Qed.

Lemma xml_cell_present control c cell :
  xml_row control → cell_present control c = Some cell →
  xml_compatible (str cell) = true.
Proof.
  intros Hrow. unfold cell_present.
  destruct (control !! c) as [v|] eqn:Hv; [|done].
  destruct (negb (isna v) && negb (is_empty_str v)); [|done].
  intros [= <-]. by apply (Hrow c).
Qed.

Lemma elem_of_get_enriched (m : evidence_map) cmmc_id v x :
  x ∈ get_enriched_evidence_strings m cmmc_id v →
  x ∈ parse_delimited_content v ∨ x ∈ default [] (m !! cmmc_id).
Proof.
  unfold get_enriched_evidence_strings.
  rewrite dedup_loop_keep_first, elem_of_keep_first.
  destruct (truthy v && negb (isna v) && negb (is_empty_str v)),
    (m !! cmmc_id) as [l|]; cbn [default from_option id app];
    rewrite ?elem_of_app; try tauto.
  all: intros H; try (by right); by apply not_elem_of_nil in H.
Qed.

Lemma xml_control_evidence m control :
  xml_row control → xml_index m →
  Forall (λ x, xml_compatible x = true) (control_evidence m control).
Proof.
  intros Hrow Hm. apply Forall_forall. intros x Hx.
  apply elem_of_get_enriched in Hx as [Hx|Hx].
  - pose proof (xml_parse_items _ (xml_row_get control "Evidence_Strings" Hrow)) as H.
    rewrite Forall_forall in H. by apply H.
  - destruct (m !! _) as [l|] eqn:Hl; [|by apply not_elem_of_nil in Hx].
    pose proof (Hm _ _ Hl) as H. rewrite Forall_forall in H. by apply H.
Qed.

End xml_texts.

(** ** One control in a document *)

Section docx_control.

Lemma inner_bullets_nonempty items : Forall inner_block (bullets_nonempty items).
Proof. unfold bullets_nonempty. apply Forall_fmap, Forall_forall. by intros. Qed.

Lemma inner_bullets (items : list string) : Forall inner_block (Bullet <$> items).
Proof. apply Forall_fmap, Forall_forall. by intros. Qed.

Lemma inner_items_or_paragraph cell : Forall inner_block (items_or_paragraph cell).
Proof.
  unfold items_or_paragraph. case_bool_decide; [apply inner_bullets_nonempty|].
  destruct (parse_delimited_content cell); by repeat constructor.
Qed.

Lemma inner_evidence_section m control : Forall inner_block (evidence_section m control).
Proof.
  unfold evidence_section. destruct (control_evidence _ _); [constructor|].
  constructor; [simpl; lia|apply inner_bullets_nonempty].
Qed.

(** *** The calls of python-docx on texts that lxml takes *)

Lemma add_block_ok doc b :
  xml_compatible (block_text b) = true → add_block doc b = Returned (doc ++ [b]).
Proof. unfold add_block. by intros ->. Qed.

Lemma add_heading_ok doc text level :
  xml_compatible text = true → (level ≤ 9)%nat →
  add_heading doc text level = Returned (doc ++ [Heading text level]).
Proof.
  intros Ht Hl. unfold add_heading. rewrite bool_decide_eq_true_2 by done.
  by apply add_block_ok.
Qed.

Lemma add_heading_refused doc text level :
  xml_compatible text = false → add_heading doc text level = Raised RaisedValueError.
Proof.
  intros Ht. unfold add_heading, add_block. cbn [block_text]. rewrite Ht.
  by case_bool_decide.
Qed.

Lemma add_bullets_ok items : ∀ doc,
  Forall (λ x, xml_compatible x = true) items →
  add_bullets doc items = Returned (doc ++ (Bullet <$> items)).
Proof.
  induction items as [|item items IH]; intros doc Hitems.
  { by rewrite app_nil_r. }
  apply Forall_cons in Hitems as [Hitem Hitems]. cbn [add_bullets].
  rewrite add_block_ok by done. cbn [mbind outcome_bind].
  rewrite IH by done. cbn [fmap list_fmap]. by rewrite <- app_assoc.
Qed.

(** The loop over the items returns exactly when lxml takes them all. *)
Lemma add_bullets_nonempty_spec items : ∀ doc,
  add_bullets_nonempty doc items
  = if forallb xml_compatible items
    then Returned (doc ++ bullets_nonempty items)
    else Raised RaisedValueError.
Proof.
  unfold bullets_nonempty.
  induction items as [|item items IH]; intros doc.
  { by rewrite app_nil_r. }
  cbn [add_bullets_nonempty forallb]. case_bool_decide as Hitem.
  - rewrite filter_cons_True by done. unfold add_block. cbn [block_text].
    destruct (xml_compatible item); [|done]. cbn [mbind outcome_bind andb].
    rewrite IH. destruct (forallb xml_compatible items); [|done].
    cbn [fmap list_fmap]. by rewrite <- app_assoc.
  - subst item. rewrite filter_cons_False by (intros H; by apply H).
    cbn [xml_compatible andb]. apply IH.
Qed.

Lemma add_bullets_nonempty_ok doc items :
  Forall (λ x, xml_compatible x = true) items →
  add_bullets_nonempty doc items = Returned (doc ++ bullets_nonempty items).
Proof.
  intros Hitems. rewrite add_bullets_nonempty_spec.
  assert (forallb xml_compatible items = true) as ->; [|done].
  apply forallb_forall. intros x Hx%list_elem_of_In.
  rewrite Forall_forall in Hitems. by apply Hitems.
Qed.

Lemma add_items_or_paragraph_ok doc cell :
  xml_compatible (str cell) = true →
  add_items_or_paragraph doc cell = Returned (doc ++ items_or_paragraph cell).
Proof.
  intros Hc. pose proof (xml_parse_items cell Hc) as Hitems.
  unfold add_items_or_paragraph, items_or_paragraph.
  case_bool_decide; [by apply add_bullets_nonempty_ok|].
  destruct (parse_delimited_content cell) as [|item items]; apply add_block_ok; [done|].
  by apply Forall_cons in Hitems as [? _].
Qed.

(** *** A document that grows *)

Lemma grows_from_start doc h : grows_from doc h (doc ++ [h]).
Proof. by exists []. Qed.

Lemma grows_from_app doc h d x :
  grows_from doc h d → Forall inner_block x → grows_from doc h (d ++ x).
Proof.
  intros (rest & -> & Hrest) Hx. exists (rest ++ x). split.
  - by rewrite <- app_assoc.
  - by apply Forall_app.
Qed.

Lemma returns_added doc h d o x :
  grows_from doc h d → o = Returned (d ++ x) → Forall inner_block x →
  returns_from doc h o.
Proof. intros Hd -> Hx. exists (d ++ x). split; [done|by apply grows_from_app]. Qed.

Lemma returns_same doc h d : grows_from doc h d → returns_from doc h (Returned d).
Proof. intros Hd. by exists d. Qed.

Lemma returns_bind doc h o (k : list block → outcome (list block)) :
  returns_from doc h o →
  (∀ d, grows_from doc h d → returns_from doc h (k d)) →
  returns_from doc h (o ≫= k).
Proof. intros (d & -> & Hd) Hk. cbn [mbind outcome_bind]. by apply Hk. Qed.

Lemma returns_heading doc h d text level :
  grows_from doc h d → xml_compatible text = true → (2 ≤ level ≤ 9)%nat →
  returns_from doc h (add_heading d text level).
Proof.
  intros Hd Ht Hl. apply (returns_added doc h d _ [Heading text level]); [done| |].
  - apply add_heading_ok; [done|lia].
  - repeat constructor. simpl. lia.
Qed.

Lemma returns_paragraph doc h d text :
  grows_from doc h d → xml_compatible text = true →
  returns_from doc h (add_block d (Paragraph text)).
Proof.
  intros Hd Ht. apply (returns_added doc h d _ [Paragraph text]); [done| |].
  - by apply add_block_ok.
  - by repeat constructor.
Qed.

Lemma returns_items_or_paragraph doc h d cell :
  grows_from doc h d → xml_compatible (str cell) = true →
  returns_from doc h (add_items_or_paragraph d cell).
Proof.
  intros Hd Hc. apply (returns_added doc h d _ (items_or_paragraph cell)); [done| |].
  - by apply add_items_or_paragraph_ok.
  - apply inner_items_or_paragraph.
Qed.

Lemma returns_bullets_nonempty doc h d items :
  grows_from doc h d → Forall (λ x, xml_compatible x = true) items →
  returns_from doc h (add_bullets_nonempty d items).
Proof.
  intros Hd Hc. apply (returns_added doc h d _ (bullets_nonempty items)); [done| |].
  - by apply add_bullets_nonempty_ok.
  - apply inner_bullets_nonempty.
Qed.

Lemma returns_bullets doc h d items :
  grows_from doc h d → Forall (λ x, xml_compatible x = true) items →
  returns_from doc h (add_bullets d items).
Proof.
  intros Hd Hc. apply (returns_added doc h d _ (Bullet <$> items)); [done| |].
  - by apply add_bullets_ok.
  - apply inner_bullets.
Qed.

(** A section that returns is followed by the rest of the function. *)
Lemma returns_then {E} doc h (s : outcome (list block))
    (k final : E → list block → outcome (list block)) :
  returns_from doc h s →
  (∀ d, grows_from doc h d →
        ∃ d', grows_from doc h d' ∧ ∀ m, k m d = final m d') →
  ∃ d', grows_from doc h d' ∧ ∀ m, s ≫= k m = final m d'.
Proof. intros (d & -> & Hd) Hk. cbn [mbind outcome_bind]. by apply Hk. Qed.

(** The sections before the evidence strings do not depend on the index;
    they return when lxml takes the cells of the row. *)
Lemma docx_control_sections doc control control_cell id_cell status :
  control !! "Control" = Some control_cell →
  control !! "CMMC_ID" = Some id_cell →
  control !! "AR_CAP_POAM" = Some status →
  xml_row control →
  ∃ d,
    grows_from doc
      (Heading (str id_cell +:+ " - " +:+ get_control_title control_cell) 1) d
    ∧ ∀ m,
        generate_docx_for_control m doc control
        = match get_enriched_evidence_strings m (str id_cell)
                  (row_get control "Evidence_Strings" (Str "")) with
          | [] => Returned d
          | _ :: _ =>
              doc' ← add_heading d "Evidence Strings" 3 ;
              add_bullets_nonempty doc'
                (get_enriched_evidence_strings m (str id_cell)
                   (row_get control "Evidence_Strings" (Str "")))
          end.
Proof.
  intros Hc Hi Hs Hrow.
  assert (xml_compatible (get_control_title control_cell) = true) as Htitle
    by (by apply xml_title, (Hrow "Control")).
  assert (xml_compatible (str id_cell) = true) as Hid by (by apply (Hrow "CMMC_ID")).
  unfold generate_docx_for_control, control_item, getitem. rewrite Hc, Hi, Hs.
  cbn [mbind outcome_bind].
  (* Control heading *)
  simple refine (returns_then _ _ _ _ _ _ _).
  { eexists. split; [apply add_heading_ok; [|lia]|apply grows_from_start].
    rewrite !xml_compatible_app, Hid, Htitle. done. }
  intros d Hd; cbv beta.
  (* Practice Statement, Implementation Status *)
  simple refine (returns_then _ _ _ _ _ _ _); [apply returns_heading; [done|done|lia]|].
  clear d Hd; intros d Hd; cbv beta.
  simple refine (returns_then _ _ _ _ _ _ _); [by apply returns_paragraph|].
  clear d Hd; intros d Hd; cbv beta.
  simple refine (returns_then _ _ _ _ _ _ _); [apply returns_heading; [done|done|lia]|].
  clear d Hd; intros d Hd; cbv beta.
  simple refine (returns_then _ _ _ _ _ _ _).
  { apply returns_paragraph; [done|apply xml_implementation_status]. }
  clear d Hd; intros d Hd; cbv beta.
  (* Policy Summary *)
  simple refine (returns_then _ _ _ _ _ _ _).
  { pose proof (xml_row_get control "Policy_Statement" Hrow) as Hpolicy.
    destruct (_ && _); [|by apply returns_same].
    destruct (negb _); [|by apply returns_same].
    apply returns_bind; [apply returns_heading; [done|done|lia]|]. intros d' Hd'.
    pose proof (xml_parse_items (Str (str (row_get control "Policy_Statement" (Str ""))))
                  Hpolicy) as Hitems.
    destruct (parse_delimited_content _);
      [by apply returns_paragraph|by apply returns_bullets]. }
  clear d Hd; intros d Hd; cbv beta.
  (* Implementation Details *)
  simple refine (returns_then _ _ _ _ _ _ _); [apply returns_heading; [done|done|lia]|].
  clear d Hd; intros d Hd; cbv beta.
  simple refine (returns_then _ _ _ _ _ _ _).
  { destruct (cell_present control "Azure_Mechanism") as [cell|] eqn:Hcell;
      [|by apply returns_same].
    apply returns_bind; [apply returns_heading; [done|done|lia]|]. intros d' Hd'.
    apply returns_items_or_paragraph; [done|]. by eapply xml_cell_present. }
  clear d Hd; intros d Hd; cbv beta.
  simple refine (returns_then _ _ _ _ _ _ _).
  { destruct (cell_present control "Azure_Configuration_Process") as [cell|] eqn:Hcell;
      [|by apply returns_same].
    apply returns_bind; [apply returns_heading; [done|done|lia]|]. intros d' Hd'.
    apply returns_items_or_paragraph; [done|]. by eapply xml_cell_present. }
  clear d Hd; intros d Hd; cbv beta.
  simple refine (returns_then _ _ _ _ _ _ _).
  { destruct (cell_present control "Azure_Evidence") as [cell|] eqn:Hcell;
      [|by apply returns_same].
    apply returns_bind; [apply returns_heading; [done|done|lia]|]. intros d' Hd'.
    apply returns_bullets_nonempty; [done|].
    apply xml_parse_items. by eapply xml_cell_present. }
  clear d Hd; intros d Hd; cbv beta.
  (* AVD/Laptop *)
  simple refine (returns_then _ _ _ _ _ _ _).
  { destruct (cell_present control "AVD_Laptop") as [cell|] eqn:Hcell;
      [|by apply returns_same].
    apply returns_bind; [apply returns_heading; [done|done|lia]|]. intros d' Hd'.
    apply returns_bind.
    { apply returns_items_or_paragraph; [done|]. by eapply xml_cell_present. }
    clear d' Hd'; intros d' Hd'.
    destruct (cell_present control "AVD_Laptop_Evidence") as [evidence|] eqn:Hev;
      [|by apply returns_same].
    apply returns_bind.
    { apply (returns_added _ _ d' _ [BoldLabel "Evidence:"]); [done|done|].
      by repeat constructor. }
    clear d' Hd'; intros d' Hd'.
    apply returns_bullets_nonempty; [done|].
    apply xml_parse_items. by eapply xml_cell_present. }
  clear d Hd; intros d Hd; cbv beta.
  (* Evidence_Strings *)
  by exists d.
Qed.

(** The section of the evidence strings returns exactly when lxml takes
    every string of the lookup. *)
Lemma evidence_strings_spec d (items : list string) :
  match items with
  | [] => Returned d
  | _ :: _ =>
      doc' ← add_heading d "Evidence Strings" 3 ; add_bullets_nonempty doc' items
  end
  = if forallb xml_compatible items
    then Returned (d ++ match items with
                        | [] => []
                        | _ :: _ => Heading "Evidence Strings" 3
                                    :: bullets_nonempty items
                        end)
    else Raised RaisedValueError.
Proof.
  destruct items as [|item items]; [by rewrite app_nil_r|].
  rewrite add_heading_ok by (done || lia). cbn [mbind outcome_bind].
  rewrite add_bullets_nonempty_spec.
  destruct (forallb xml_compatible (item :: items)); [|done].
  by rewrite <- app_assoc.
Qed.

Lemma docx_control_tail doc control control_cell id_cell status :
  control !! "Control" = Some control_cell →
  control !! "CMMC_ID" = Some id_cell →
  control !! "AR_CAP_POAM" = Some status →
  xml_row control →
  ∃ before,
    grows_from doc
      (Heading (str id_cell +:+ " - " +:+ get_control_title control_cell) 1) before
    ∧ ∀ m,
        generate_docx_for_control m doc control
        = if forallb xml_compatible (control_evidence m control)
          then Returned (before ++ evidence_section m control)
          else Raised RaisedValueError.
Proof.
  intros Hc Hi Hs Hrow.
  destruct (docx_control_sections doc control _ _ _ Hc Hi Hs Hrow)
    as (d & Hd & Hrun).
  exists d. split; [done|]. intros m. rewrite Hrun, evidence_strings_spec.
  unfold evidence_section, control_evidence. rewrite Hi.
  change (default NaN (Some id_cell)) with id_cell.
  by destruct (get_enriched_evidence_strings m (str id_cell)
                 (row_get control "Evidence_Strings" (Str ""))).
Qed.

Lemma forallb_xml_compatible items :
  Forall (λ x, xml_compatible x = true) items → forallb xml_compatible items = true.
Proof.
  intros Hitems. apply forallb_forall. intros x Hx%list_elem_of_In.
  rewrite Forall_forall in Hitems. by apply Hitems.
Qed.

Lemma docx_control_blocks m doc control control_cell id_cell status :
  control !! "Control" = Some control_cell →
  control !! "CMMC_ID" = Some id_cell →
  control !! "AR_CAP_POAM" = Some status →
  xml_row control →
  Forall (λ x, xml_compatible x = true) (control_evidence m control) →
  ∃ rest,
    generate_docx_for_control m doc control
    = Returned (doc ++ Heading (str id_cell +:+ " - "
                                +:+ get_control_title control_cell) 1 :: rest)
    ∧ Forall inner_block rest.
Proof.
  intros Hc Hi Hs Hrow Hm.
  destruct (docx_control_tail doc control _ _ _ Hc Hi Hs Hrow)
    as (before & (rest & -> & Hrest) & Hrun).
  exists (rest ++ evidence_section m control).
  rewrite Hrun, (forallb_xml_compatible _ Hm). split.
  - by rewrite <- app_assoc.
  - apply Forall_app. split; [done|apply inner_evidence_section].
Qed.

(** What the function raises on a row it cannot render, in the order of
    its reads and calls. *)
Lemma docx_control_raises m doc control :
  (control !! "Control" = None →
   generate_docx_for_control m doc control = Raised (RaisedKeyError "Control"))
  ∧ (is_Some (control !! "Control") → control !! "CMMC_ID" = None →
     generate_docx_for_control m doc control = Raised (RaisedKeyError "CMMC_ID"))
  ∧ (is_Some (control !! "Control") → is_Some (control !! "CMMC_ID") →
     xml_compatible (control_heading control) = false →
     generate_docx_for_control m doc control = Raised RaisedValueError)
  ∧ (is_Some (control !! "Control") → is_Some (control !! "CMMC_ID") →
     xml_compatible (control_heading control) = true →
     control !! "AR_CAP_POAM" = None →
     generate_docx_for_control m doc control
     = Raised (RaisedKeyError "AR_CAP_POAM")).
Proof.
  unfold generate_docx_for_control, control_item, getitem, control_heading.
  repeat split.
  - by intros ->.
  - by intros [? ->] ->.
  - intros [cc ->] [ic ->]. cbn [default from_option id mbind outcome_bind].
    intros Hh. by rewrite add_heading_refused.
  - intros [cc ->] [ic ->]. cbn [default from_option id mbind outcome_bind].
    intros Hh ->. rewrite add_heading_ok by (done || lia).
    rewrite !xml_compatible_app, !andb_true_iff in Hh. destruct Hh as (_ & _ & Ht).
    cbn [mbind outcome_bind]. rewrite add_heading_ok by (done || lia).
    cbn [mbind outcome_bind]. rewrite add_block_ok by done.
    cbn [mbind outcome_bind]. by rewrite add_heading_ok by (done || lia).
Qed.

End docx_control.

(** ** The documents of the families *)

Section docx_files.

Lemma control_headings_app d1 d2 :
  control_headings (d1 ++ d2) = control_headings d1 ++ control_headings d2.
Proof. apply omap_app. Qed.

Lemma page_breaks_app d1 d2 :
  page_breaks (d1 ++ d2) = (page_breaks d1 + page_breaks d2)%nat.
Proof. unfold page_breaks. by rewrite filter_app, length_app. Qed.

Lemma control_headings_inner d : Forall inner_block d → control_headings d = [].
Proof.
  induction 1 as [|b d Hb _ IH]; [done|].
  change (b :: d) with ([b] ++ d). rewrite control_headings_app, IH.
  destruct b as [t [|[|n]]| | | |]; simpl in *; try done; lia.
Qed.

Lemma page_breaks_inner d : Forall inner_block d → page_breaks d = 0%nat.
Proof.
  induction 1 as [|b d Hb _ IH]; [done|]. unfold page_breaks in *.
  rewrite filter_cons. destruct b; simpl in Hb; try done; by rewrite decide_False.
Qed.

Lemma docx_controls_counts m controls : ∀ doc i,
  xml_index m →
  Forall (λ r, is_Some (r !! "Control") ∧ is_Some (r !! "CMMC_ID")
               ∧ is_Some (r !! "AR_CAP_POAM") ∧ xml_row r) controls →
  ∃ added,
    docx_controls m doc i controls = Returned (doc ++ added)
    ∧ control_headings added = control_heading <$> controls
    ∧ page_breaks added
      = (match i with O => length controls - 1 | S _ => length controls end)%nat.
Proof.
  induction controls as [|control controls IH]; intros doc i Hm Hcols.
  { exists []. rewrite app_nil_r. by destruct i. }
  apply Forall_cons in Hcols as [([cc Hc] & [ic Hi] & [st Hs] & Hrow) Hcols].
  cbn [docx_controls].
  set (doc1 := if bool_decide (0 < i)%nat then doc ++ [PageBreak] else doc).
  destruct (docx_control_blocks m doc1 control cc ic st Hc Hi Hs Hrow
              (xml_control_evidence m control Hrow Hm))
    as (rest & -> & Hrest).
  cbn [mbind outcome_bind].
  destruct (IH (doc1 ++ Heading (str ic +:+ " - " +:+ get_control_title cc) 1 :: rest)
              (S i) Hm Hcols) as (added & -> & Hh & Hp).
  assert (control_heading control = str ic +:+ " - " +:+ get_control_title cc) as Hhead.
  { unfold control_heading. by rewrite Hc, Hi. }
  assert (∀ pre, control_headings pre = [] →
            control_headings
              (pre ++ (Heading (str ic +:+ " - " +:+ get_control_title cc) 1 :: rest)
                   ++ added)
            = control_heading <$> control :: controls) as Hheads.
  { intros pre Hpre. rewrite !control_headings_app, Hpre, Hh.
    change (control_headings (?h :: rest)) with
      (control_headings [h] ++ control_headings rest).
    rewrite (control_headings_inner rest Hrest). cbn [fmap list_fmap].
    rewrite Hhead. done. }
  assert (∀ pre,
            page_breaks
              (pre ++ (Heading (str ic +:+ " - " +:+ get_control_title cc) 1 :: rest)
                   ++ added)
            = (page_breaks pre + length controls)%nat) as Hbreaks.
  { intros pre. rewrite !page_breaks_app, Hp.
    change (page_breaks (?h :: rest)) with (page_breaks rest).
    by rewrite (page_breaks_inner rest Hrest). }
  subst doc1. destruct i as [|i].
  - rewrite bool_decide_eq_false_2 by lia.
    exists ((Heading (str ic +:+ " - " +:+ get_control_title cc) 1 :: rest) ++ added).
    split; [by rewrite <- app_assoc|].
    split; [exact (Hheads [] eq_refl)|].
    etrans; [exact (Hbreaks [])|]. cbn [length]. unfold page_breaks. simpl. lia.
  - rewrite bool_decide_eq_true_2 by lia.
    exists ([PageBreak]
              ++ (Heading (str ic +:+ " - " +:+ get_control_title cc) 1 :: rest)
              ++ added).
    split; [by rewrite <- !app_assoc|].
    split; [exact (Hheads [PageBreak] eq_refl)|].
    etrans; [exact (Hbreaks [PageBreak])|]. cbn [length]. unfold page_breaks.
    simpl. lia.
Qed.

Lemma family_title_text s controls family_key (first : row) :
  first !! "CMMC_ID" = Some (Str s) →
  family_key = row_family_key first →
  family_title (first :: controls) family_key = inr (get_control_family (Str s)).
Proof.
  intros Hi ->. unfold family_title, row_family_key. rewrite Hi.
  cbn [default from_option id]. unfold get_control_family, str.
  destruct (CONTROL_FAMILIES !! family_prefix s); [done|]. f_equal.
Qed.

Lemma family_names_key_inj :
  Forall (λ f1, Forall (λ f2, family_key_of f1 = family_key_of f2 → f1 = f2)
                  family_names) family_names.
Proof. apply (bool_decide_unpack _). by vm_compute. Qed.

Lemma get_control_family_name v : get_control_family v ∈ family_names.
Proof.
  unfold get_control_family, family_names.
  destruct (CONTROL_FAMILIES !! family_prefix (str v)) as [f|] eqn:Hf; [|by left].
  right. apply list_elem_of_fmap. exists (family_prefix (str v), f).
  split; [done|]. by apply elem_of_map_to_list.
Qed.

Lemma same_key_same_family v1 v2 :
  family_key_of (get_control_family v1) = family_key_of (get_control_family v2) →
  get_control_family v1 = get_control_family v2.
Proof.
  pose proof family_names_key_inj as Hinj.
  rewrite Forall_forall in Hinj.
  specialize (Hinj _ (get_control_family_name v1)).
  rewrite Forall_forall in Hinj. apply Hinj, get_control_family_name.
Qed.

Lemma xml_family_names : Forall (λ f, xml_compatible f = true) family_names.
Proof. apply (bool_decide_unpack _). by vm_compute. Qed.

Lemma xml_control_family v : xml_compatible (get_control_family v) = true.
Proof.
  pose proof xml_family_names as H. rewrite Forall_forall in H.
  apply H, get_control_family_name.
Qed.

End docx_files.

Section docx_generation.

Lemma docx_family_file m now k controls :
  xml_index m → xml_compatible now = true →
  good_group (k, controls) →
  ∃ file, docx_family m now k controls = inr file ∧ file_of_family (k, controls) file.
Proof.
  intros Hm Hnow [Hne Hall]. cbn [fst snd] in *.
  destruct controls as [|first controls]; [done|].
  pose proof Hall as Hall'.
  apply Forall_cons in Hall' as [(Hk & [s Hs] & _) _].
  unfold docx_family.
  rewrite (family_title_text s controls k first Hs) by done.
  rewrite add_heading_ok; [|by rewrite xml_compatible_app, xml_control_family|lia].
  cbn [mbind outcome_bind].
  rewrite add_block_ok by (cbn [block_text]; by rewrite xml_compatible_app, Hnow).
  cbn [mbind outcome_bind].
  destruct (docx_controls_counts m (first :: controls)
              ([] ++ [Heading ("CMMC Level 2 - " +:+ get_control_family (Str s)) 0]
                 ++ [Paragraph ("Generated: " +:+ now)]) 0%nat Hm)
    as (added & Hrun & Hh & Hp).
  { eapply Forall_impl; [exact Hall|]. intros r (_ & [s' Hs'] & ? & ? & ?).
    repeat split; [done|by eexists|done|done]. }
  cbn [app] in Hrun |- *. rewrite Hrun.
  eexists. split; [done|]. unfold file_of_family. cbn [fst snd].
  split; [done|]. split; [|split].
  - intros r Hr. rewrite Forall_forall in Hall.
    destruct (Hall r Hr) as (Hkr & _). cbn [app head]. do 3 f_equal.
    apply same_key_same_family.
    unfold row_family_key in Hk, Hkr. rewrite Hs in Hk.
    etrans; [exact Hk|]. by symmetry.
  - change (?a :: ?b :: added) with ([a; b] ++ added).
    rewrite control_headings_app. exact Hh.
  - change (?a :: ?b :: added) with ([a; b] ++ added).
    rewrite page_breaks_app. rewrite Hp. done.
Qed.

Lemma docx_families_files m now fams : ∀ saved,
  xml_index m → xml_compatible now = true →
  Forall good_group fams →
  ∃ files,
    docx_families m now saved fams = (saved ++ files, None)
    ∧ Forall2 file_of_family fams files.
Proof.
  induction fams as [|[k controls] fams IH]; intros saved Hm Hnow Hgood.
  { exists []. by rewrite app_nil_r. }
  apply Forall_cons in Hgood as [Hg Hgood].
  destruct (docx_family_file m now k controls Hm Hnow Hg) as (file & Hfile & Hrel).
  destruct (IH (saved ++ [file]) Hm Hnow Hgood) as (files & Hrun & Hall).
  exists (file :: files). cbn [docx_families]. rewrite Hfile, Hrun.
  split; [by rewrite <- app_assoc|by constructor].
Qed.

Lemma grouped_good df :
  Forall (λ ir : Z * row, docx_ready ir.2 ∧ xml_row ir.2) df →
  Forall good_group (grouped (identified_rows df)).
Proof.
  intros Hdf. apply Forall_forall. intros [k l] Hkl.
  unfold grouped in Hkl.
  apply list_elem_of_fmap in Hkl as (k' & [= -> ->] & Hk).
  split; cbn [fst snd].
  - apply elem_of_keep_first, list_elem_of_fmap in Hk as (r & Hr & Hin).
    intros Hnil. by apply (filter_nil_not_elem_of _ _ r Hnil).
  - apply Forall_forall. intros r [Hkey Hr]%list_elem_of_filter.
    split; [done|]. unfold identified_rows in Hr.
    apply list_elem_of_filter in Hr as [Hna Hr].
    apply list_elem_of_fmap in Hr as (ir & -> & Hir).
    rewrite Forall_forall in Hdf.
    destruct (Hdf ir Hir) as (([Hnan|Hstr] & ? & ?) & ?).
    + rewrite Hnan in Hna. done.
    + done.
Qed.

(** A first row whose heading lxml refuses stops the generation before
    any file is saved. *)
Lemma docx_files_refused m now index (r : row) s df :
  r !! "CMMC_ID" = Some (Str s) → is_Some (r !! "Control") →
  xml_compatible (control_heading r) = false →
  Forall (λ ir : Z * row, is_Some (ir.2 !! "CMMC_ID")) df →
  generate_docx_files m now ((index, r) :: df) = ([], Some RaisedValueError).
Proof.
  intros Hr Hc Hh Hdf. unfold generate_docx_files.
  assert (group_by_family [] ((index, r) :: df)
          = Ok (grouped (identified_rows ((index, r) :: df)))) as ->.
  { apply (group_by_family_grouped ((index, r) :: df) []).
    apply Forall_cons. split; [by eexists|done]. }
  unfold identified_rows. cbn [fmap list_fmap snd].
  rewrite filter_cons_True by (by rewrite Hr).
  unfold grouped. cbn [fmap list_fmap keep_first].
  rewrite filter_cons_True by done.
  cbn [docx_families]. unfold docx_family.
  rewrite (family_title_text s _ _ r Hr eq_refl).
  rewrite add_heading_ok; [|by rewrite xml_compatible_app, xml_control_family|lia].
  cbn [mbind outcome_bind]. unfold add_block at 1.
  destruct (xml_compatible (block_text (Paragraph ("Generated: " +:+ now))));
    cbn [mbind outcome_bind docx_controls]; [|done].
  rewrite bool_decide_eq_false_2 by lia.
  destruct (docx_control_raises m
              ([] ++ [Heading ("CMMC Level 2 - " +:+ get_control_family (Str s)) 0]
                  ++ [Paragraph ("Generated: " +:+ now)]) r) as (_ & _ & Hraise & _).
  cbn [app] in Hraise |- *. rewrite Hraise; [done|done|by eexists|done].
Qed.

End docx_generation.

Section xml_rows.

Lemma xml_row_empty : xml_row ∅.
Proof. intros c v Hv. by rewrite lookup_empty in Hv. Qed.

Lemma xml_row_insert (r : row) c v :
  xml_compatible (str v) = true → xml_row r → xml_row (<[c := v]> r).
Proof.
  intros Hv Hr c' v'. destruct (decide (c = c')) as [->|Hne].
  - rewrite lookup_insert_eq. by intros [= <-].
  - rewrite lookup_insert_ne by done. apply Hr.
Qed.

Lemma xml_index_empty : xml_index ∅.
Proof. intros id l Hl. by rewrite lookup_empty in Hl. Qed.

Lemma forallb_xml_refused items :
  Exists (λ x, xml_compatible x = false) items →
  forallb xml_compatible items = false.
Proof.
  induction 1 as [x l Hx|x l _ IH]; cbn [forallb].
  - by rewrite Hx.
  - rewrite IH. apply andb_false_r.
Qed.

End xml_rows.

(** X7. One document per family, every control once.  On a table whose rows
    have a text (or missing) identifier and the [Control] and [AR_CAP_POAM]
    columns, when no cell of the table, no entry of the index and not the
    time stamp holds a character that lxml refuses, the generation raises
    nothing and saves one file per family key, in the order in which the
    families first appear: the file is named [<key>_controls.docx], its
    title names the family of every control in it, it has one level-1
    heading per control of the family that has an identifier, in table
    order, and one page break between two controls.  When the heading of
    the first row holds a character that lxml refuses, the generation stops
    with [ValueError] and no file is saved; so it does on the table of the
    one row [3.1.3] whose control text begins with the character 7. *)
Theorem docx_files_by_family (m : evidence_map) (now : string) (df : list (Z * row)) :
  (xml_index m → xml_compatible now = true →
   Forall (λ ir : Z * row, docx_ready ir.2 ∧ xml_row ir.2) df →
   ∃ files,
     generate_docx_files m now df = (files, None)
     ∧ Forall2 file_of_family (grouped (identified_rows df)) files)
  ∧ (∀ index r s rest,
       df = (index, r) :: rest →
       r !! "CMMC_ID" = Some (Str s) → is_Some (r !! "Control") →
       xml_compatible (control_heading r) = false →
       Forall (λ ir : Z * row, is_Some (ir.2 !! "CMMC_ID")) rest →
       generate_docx_files m now df = ([], Some RaisedValueError))
  ∧ generate_docx_files m now [(0, bell_row)] = ([], Some RaisedValueError).
Proof.
  split; [|split].
  - intros Hm Hnow Hdf. unfold generate_docx_files.
    assert (group_by_family [] df = Ok (grouped (identified_rows df))) as ->.
    { apply (group_by_family_grouped df []).
      eapply Forall_impl; [exact Hdf|].
      intros ir (([->|[s ->]] & _) & _); by eexists. }
    apply (docx_families_files m now _ []); [done|done|]. by apply grouped_good.
  - intros index r s rest -> Hr Hc Hh Hrest. by eapply docx_files_refused.
  - apply (docx_files_refused m now 0 bell_row "3.1.3" []);
      [reflexivity|by eexists|reflexivity|apply Forall_nil_2].
Qed.

Lemma docx_files_by_family_witness :
  xml_index ∅
  ∧ Forall (λ ir : Z * row, docx_ready ir.2 ∧ xml_row ir.2)
      [(0, poam_row_score3); (1, cm_row); (2, poam_row_score1)]
  ∧ (∃ files,
       generate_docx_files ∅ "2025-01-01 00:00:00"
         [(0, poam_row_score3); (1, cm_row); (2, poam_row_score1)]
       = (files, None)
       ∧ Forall2 file_of_family
           (grouped (identified_rows
                       [(0, poam_row_score3); (1, cm_row); (2, poam_row_score1)]))
           files)
  ∧ generate_docx_files ∅ "2025-01-01 00:00:00" [(0, bell_row); (1, cm_row)]
    = ([], Some RaisedValueError).
Proof.
  assert (Forall (λ ir : Z * row, docx_ready ir.2 ∧ xml_row ir.2)
            [(0, poam_row_score3); (1, cm_row); (2, poam_row_score1)]) as Hdf.
  { repeat (apply Forall_cons; split;
            [split;
             [split; [right; by eexists|split; by eexists]
             |repeat (apply xml_row_insert; [reflexivity|]); apply xml_row_empty]|]).
    apply Forall_nil_2. }
  split; [apply xml_index_empty|]. split; [exact Hdf|]. split.
  - exact (proj1 (docx_files_by_family ∅ "2025-01-01 00:00:00" _)
             xml_index_empty eq_refl Hdf).
  - refine (proj1 (proj2 (docx_files_by_family ∅ "2025-01-01 00:00:00"
                            [(0, bell_row); (1, cm_row)]))
              0 bell_row "3.1.3" [(1, cm_row)] eq_refl eq_refl _ eq_refl _).
    + by eexists.
    + apply Forall_cons. split; [by eexists|apply Forall_nil_2].
Defined.

(** X8. What [generate_docx_for_control] needs and what it keeps.  It raises
    in the order of its reads and calls: [KeyError] without the [Control]
    column, then without the [CMMC_ID] column; [ValueError] when the
    heading [<identifier> - <title>] holds a character that lxml refuses
    (as on the row [3.1.3], whose control text begins with the character
    7); then [KeyError] without the [AR_CAP_POAM] column.  With the three
    columns, when lxml takes the cells of the row and the evidence strings
    of the control, it returns: the blocks already in the document stay as
    they are, the first block added is the level-1 heading, and no block
    added after it is a page break or a heading of level 0 or 1. *)
Theorem docx_control_columns_and_heading
    (m : evidence_map) (doc : list block) (control : row) :
  (control !! "Control" = None →
   generate_docx_for_control m doc control = Raised (RaisedKeyError "Control"))
  ∧ (is_Some (control !! "Control") → control !! "CMMC_ID" = None →
     generate_docx_for_control m doc control = Raised (RaisedKeyError "CMMC_ID"))
  ∧ (is_Some (control !! "Control") → is_Some (control !! "CMMC_ID") →
     xml_compatible (control_heading control) = false →
     generate_docx_for_control m doc control = Raised RaisedValueError)
  ∧ generate_docx_for_control m doc bell_row = Raised RaisedValueError
  ∧ (is_Some (control !! "Control") → is_Some (control !! "CMMC_ID") →
     xml_compatible (control_heading control) = true →
     control !! "AR_CAP_POAM" = None →
     generate_docx_for_control m doc control
     = Raised (RaisedKeyError "AR_CAP_POAM"))
  ∧ (is_Some (control !! "Control") → is_Some (control !! "CMMC_ID") →
     is_Some (control !! "AR_CAP_POAM") →
     xml_row control →
     Forall (λ x, xml_compatible x = true) (control_evidence m control) →
     ∃ rest,
       generate_docx_for_control m doc control
       = Returned (doc ++ Heading (control_heading control) 1 :: rest)
       ∧ Forall inner_block rest).
Proof.
  destruct (docx_control_raises m doc control) as (H1 & H2 & H3 & H4).
  split; [exact H1|]. split; [exact H2|]. split; [exact H3|].
  split; [|split; [exact H4|]].
  { apply (docx_control_raises m doc bell_row); [by eexists|by eexists|reflexivity]. }
  intros [cc Hc] [ic Hi] [st Hs] Hrow Hm.
  destruct (docx_control_blocks m doc control cc ic st Hc Hi Hs Hrow Hm)
    as (rest & Hrun & Hrest).
  exists rest. split; [|done]. rewrite Hrun. unfold control_heading.
  by rewrite Hc, Hi.
Qed.

Lemma docx_control_columns_and_heading_witness :
  generate_docx_for_control ∅ [PageBreak] row_missing_control
  = Raised (RaisedKeyError "Control")
  ∧ generate_docx_for_control ∅ [PageBreak] bell_row = Raised RaisedValueError
  ∧ ∃ rest,
      generate_docx_for_control ∅ [PageBreak] poam_row_score3
      = Returned ([PageBreak] ++ Heading "3.1.1 - Limit system access" 1 :: rest)
      ∧ Forall inner_block rest.
Proof.
  split; [|split].
  - exact (proj1 (docx_control_columns_and_heading ∅ [PageBreak] row_missing_control)
             eq_refl).
  - exact (proj1 (proj2 (proj2 (docx_control_columns_and_heading ∅ [PageBreak]
                                  bell_row)))
             ltac:(by eexists) ltac:(by eexists) eq_refl).
  - refine (proj2 (proj2 (proj2 (proj2 (proj2
              (docx_control_columns_and_heading ∅ [PageBreak] poam_row_score3)))))
              ltac:(by eexists) ltac:(by eexists) ltac:(by eexists) _ _).
    + repeat (apply xml_row_insert; [reflexivity|]). apply xml_row_empty.
    + apply Forall_nil_2.
Defined.

(** X9. The index reaches a control's document only through its last
    section.  For a row with the three required columns and cells that
    lxml takes there is a fixed beginning such that, for every index, the
    function returns exactly when lxml takes every evidence string of the
    control, and the document is then that beginning followed by the
    evidence section: nothing when the lookup is empty, otherwise the
    heading [Evidence Strings] and one bullet per non-empty string of the
    lookup.  If lxml refuses one of the strings, the function raises
    [ValueError]; so it does on the complete row [3.1.1] with an index
    that holds for it an entry made of the character 7 and [x].  Empty
    display entries get no bullet, so a lookup that holds only the empty
    string leaves the heading alone. *)
Theorem docx_evidence_section_last (doc : list block) (control : row) :
  (is_Some (control !! "Control") → is_Some (control !! "CMMC_ID") →
   is_Some (control !! "AR_CAP_POAM") → xml_row control →
   ∃ before, ∀ m,
     (Forall (λ x, xml_compatible x = true) (control_evidence m control) →
      generate_docx_for_control m doc control
      = Returned (before ++ evidence_section m control))
     ∧ (Exists (λ x, xml_compatible x = false) (control_evidence m control) →
        generate_docx_for_control m doc control = Raised RaisedValueError)
     ∧ (Bullet "" ∉ evidence_section m control)
     ∧ (control_evidence m control = [""] →
        evidence_section m control = [Heading "Evidence Strings" 3]))
  ∧ generate_docx_for_control {[ "3.1.1" := [String "007"%char "x"] ]} doc
      poam_row_score3
    = Raised RaisedValueError.
Proof.
  assert (∀ control : row,
            is_Some (control !! "Control") → is_Some (control !! "CMMC_ID") →
            is_Some (control !! "AR_CAP_POAM") → xml_row control →
            ∃ before, ∀ m,
              generate_docx_for_control m doc control
              = if forallb xml_compatible (control_evidence m control)
                then Returned (before ++ evidence_section m control)
                else Raised RaisedValueError) as Htail.
  { intros c [cc Hc] [ic Hi] [st Hs] Hrow.
    destruct (docx_control_tail doc c cc ic st Hc Hi Hs Hrow) as (before & _ & Hrun).
    by exists before. }
  split.
  - intros Hc Hi Hs Hrow.
    destruct (Htail control Hc Hi Hs Hrow) as [before Hrun].
    exists before. intros m. split; [|split; [|split]].
    + intros Hm. by rewrite Hrun, (forallb_xml_compatible _ Hm).
    + intros Hm. by rewrite Hrun, (forallb_xml_refused _ Hm).
    + unfold evidence_section.
      destruct (control_evidence _ _) as [|x l]; [apply not_elem_of_nil|].
      rewrite not_elem_of_cons. split; [done|].
      unfold bullets_nonempty.
      intros (y & [= <-] & [Hy _]%list_elem_of_filter)%list_elem_of_fmap. done.
    + unfold evidence_section. by intros ->.
  - destruct (Htail poam_row_score3) as [before Hrun];
      [by eexists|by eexists|by eexists| |].
    { repeat (apply xml_row_insert; [reflexivity|]). apply xml_row_empty. }
    rewrite Hrun.
    assert (control_evidence {[ "3.1.1" := [String "007"%char "x"] ]} poam_row_score3
            = [String "007"%char "x"]) as -> by reflexivity.
    reflexivity.
Qed.

Lemma docx_evidence_section_last_witness :
  ∃ before,
    generate_docx_for_control (load_evidence_enrichment ∅ [bare_row]) []
      poam_row_score3
    = Returned (before ++ [Heading "Evidence Strings" 3])
    ∧ generate_docx_for_control {[ "3.1.2" := [String "007"%char "x"] ]} []
        poam_row_score1
      = Raised RaisedValueError.
Proof.
  destruct (proj1 (docx_evidence_section_last [] poam_row_score3)
              ltac:(by eexists) ltac:(by eexists) ltac:(by eexists))
    as [before Hall].
  { repeat (apply xml_row_insert; [reflexivity|]). apply xml_row_empty. }
  destruct (proj1 (docx_evidence_section_last [] poam_row_score1)
              ltac:(by eexists) ltac:(by eexists) ltac:(by eexists))
    as [before1 Hall1].
  { repeat (apply xml_row_insert; [reflexivity|]). apply xml_row_empty. }
  exists before. split.
  - destruct (Hall (load_evidence_enrichment ∅ [bare_row])) as (Hrun & _ & _ & Hone).
    rewrite Hrun, Hone; [done|reflexivity|].
    assert (control_evidence (load_evidence_enrichment ∅ [bare_row]) poam_row_score3
            = [""]) as -> by reflexivity.
    by repeat constructor.
  - destruct (Hall1 {[ "3.1.2" := [String "007"%char "x"] ]}) as (_ & Hbad & _).
    apply Hbad.
    assert (control_evidence {[ "3.1.2" := [String "007"%char "x"] ]} poam_row_score1
            = [String "007"%char "x"]) as -> by reflexivity.
    by left.
Defined.

(** ** Filtering the table *)

Example filter_by_range :
  filter_dataframe decimal three_controls ["3.4.1"; "3.1.2"] ["CM"] "3.1.1-3.1.2"
  = Ok {| columns := columns three_controls;
          rows := [(1, cm_row); (2, poam_row_score1); (0, poam_row_score3)] |}.
Proof. by vm_compute. Qed.

Section filtering.

Variable int : string → option Z.

Lemma filter_all {A} (P : A → Prop) `{!∀ x, Decision (P x)} (l : list A) :
  Forall P l → filter P l = l.
Proof.
  induction 1 as [|x l Hx _ IH]; [done|]. by rewrite filter_cons_True, IH.
Qed.

Lemma concat_frames_first (df : frame) rs :
  concat_frames {| columns := []; rows := [] |} {| columns := columns df; rows := rs |}
  = {| columns := columns df; rows := rs |}.
Proof.
  unfold concat_frames. cbn [columns rows app]. f_equal.
  apply filter_all, Forall_forall. intros c _. apply not_elem_of_nil.
Qed.

Lemma concat_frames_next (df : frame) rs1 rs2 :
  concat_frames {| columns := columns df; rows := rs1 |}
    {| columns := columns df; rows := rs2 |}
  = {| columns := columns df; rows := rs1 ++ rs2 |}.
Proof.
  unfold concat_frames. cbn [columns rows]. f_equal.
  rewrite filter_none; [apply app_nil_r|]. apply Forall_forall. by intros c Hc ?.
Qed.

Lemma select_rows_mask (g : Z * row → value) (h : value → bool) rs :
  select_rows rs (h <$> (g <$> rs)) = filter (λ ir, h (g ir) = true) rs.
Proof.
  unfold select_rows. induction rs as [|ir rs IH]; [done|].
  cbn [fmap list_fmap zip zip_with]. rewrite !filter_cons. cbn [snd].
  destruct (h (g ir)) eqn:Hh.
  - rewrite !decide_True by done. cbn [fmap list_fmap fst]. f_equal. apply IH.
  - rewrite !decide_False by done. apply IH.
Qed.

Lemma family_loop_filter families rs : ∀ family_dfs,
  Forall (λ ir : Z * row, is_Some (ir.2 !! "CMMC_ID")) rs →
  family_loop families rs family_dfs
  = Ok (family_dfs
          ++ filter (λ ir, isna (id_cell_of ir) = false
                           ∧ row_family_key ir.2 ∈ families) rs).
Proof.
  induction rs as [|[index r] rs IH]; intros acc Hrs.
  { by rewrite app_nil_r. }
  apply Forall_cons in Hrs as [[v Hv] Hrs]. cbn [snd] in Hv.
  cbn [family_loop]. unfold getitem. rewrite Hv. cbn [mbind result_bind].
  assert (id_cell_of (index, r) = v) as Hid.
  { unfold id_cell_of. cbn [snd]. by rewrite Hv. }
  assert (row_family_key r = family_key_of (get_control_family v)) as Hkey.
  { unfold row_family_key. by rewrite Hv. }
  rewrite filter_cons. destruct (isna v) eqn:Hna.
  - rewrite decide_False; [by apply IH|]. rewrite Hid. intros [? _]. congruence.
  - case_bool_decide as Hf.
    + rewrite decide_True.
      * rewrite (IH _ Hrs). by rewrite <- app_assoc.
      * split; [by rewrite Hid|]. cbn [snd]. by rewrite Hkey.
    + rewrite decide_False; [by apply IH|]. cbn [snd]. rewrite Hkey. by intros [_ ?].
Qed.

Lemma drop_duplicates_go_elem seen rs ir :
  ir ∈ drop_duplicates_go seen rs → ir ∈ rs.
Proof.
  revert seen. induction rs as [|ir' rs IH]; intros seen; [done|].
  cbn [drop_duplicates_go]. case_bool_decide as Hs.
  - intros Hin%IH. by right.
  - intros [->|Hin%IH]%elem_of_cons; [by left|by right].
Qed.

Lemma drop_duplicates_go_fresh seen rs x :
  x ∈ id_cell_of <$> drop_duplicates_go seen rs → x ∉ seen.
Proof.
  revert seen. induction rs as [|ir rs IH]; intros seen.
  { by intros ?%elem_of_nil. }
  cbn [drop_duplicates_go]. case_bool_decide as Hs; [apply IH|].
  cbn [fmap list_fmap]. intros [->|Hx]%elem_of_cons; [done|].
  apply IH in Hx. rewrite not_elem_of_cons in Hx. tauto.
Qed.

Lemma drop_duplicates_go_NoDup seen rs :
  NoDup (id_cell_of <$> drop_duplicates_go seen rs).
Proof.
  revert seen. induction rs as [|ir rs IH]; intros seen; [constructor|].
  cbn [drop_duplicates_go]. case_bool_decide as Hs; [apply IH|].
  cbn [fmap list_fmap]. apply NoDup_cons. split; [|apply IH].
  intros Hin%drop_duplicates_go_fresh. apply Hin. by left.
Qed.

Lemma drop_duplicates_go_covers seen rs ir :
  ir ∈ rs →
  id_cell_of ir ∈ seen ∨ id_cell_of ir ∈ id_cell_of <$> drop_duplicates_go seen rs.
Proof.
  revert seen. induction rs as [|ir' rs IH]; intros seen; [by intros ?%elem_of_nil|].
  cbn [drop_duplicates_go]. intros [->|Hin]%elem_of_cons.
  - case_bool_decide as Hs; [by left|]. right. cbn [fmap list_fmap]. by left.
  - case_bool_decide as Hs; [by apply IH|].
    destruct (IH (id_cell_of ir' :: seen) Hin) as [[->|?]%elem_of_cons|?].
    + right. cbn [fmap list_fmap]. by left.
    + by left.
    + right. cbn [fmap list_fmap]. by right.
Qed.

(** The three stages of [filter_dataframe], put together. *)
Lemma filter_dataframe_rows (df : frame) controls families control_range :
  "CMMC_ID" ∈ columns df →
  Forall (λ ir : Z * row, is_Some (ir.2 !! "CMMC_ID")) (rows df) →
  ¬ (controls = [] ∧ families = [] ∧ control_range = "") →
  ∃ cols,
    filter_dataframe int df controls families control_range
    = Ok {| columns := cols;
            rows := drop_duplicates_go []
                      (filter_candidates int df controls families control_range) |}
    ∧ (filter_candidates int df controls families control_range ≠ [] →
       cols = columns df).
Proof.
  intros Hcol Hrows Hsome. unfold filter_dataframe, filter_candidates.
  assert (bool_decide (controls = []) && bool_decide (families = [])
          && bool_decide (control_range = "") = false) as ->.
  { apply not_true_is_false. rewrite !andb_true_iff, !bool_decide_eq_true. tauto. }
  (* the stage of the identifiers *)
  assert (∃ cols1,
            (if bool_decide (controls ≠ []) then
               col ← frame_getitem df "CMMC_ID" ;
               Ok (concat_frames {| columns := []; rows := [] |}
                     {| columns := columns df;
                        rows := select_rows (rows df)
                                  ((λ v, bool_decide (str v ∈ controls)) <$> col) |})
             else Ok {| columns := []; rows := [] |})
            = Ok {| columns := cols1; rows := selected_by_controls df controls |}
            ∧ (cols1 = [] ∨ cols1 = columns df)
            ∧ (selected_by_controls df controls ≠ [] → cols1 = columns df))
    as (cols1 & -> & Hc1 & Hc1').
  { unfold selected_by_controls. case_bool_decide as Hcs.
    - exists (columns df). unfold frame_getitem.
      rewrite bool_decide_eq_true_2 by done. cbn [mbind result_bind].
      rewrite concat_frames_first, select_rows_mask.
      split; [|by auto]. do 2 f_equal. apply list_filter_iff. intros ir.
      by rewrite bool_decide_eq_true.
    - exists []. subst controls.
      rewrite filter_none; [split_and!; [done|by left|by intros ?]|].
      apply Forall_forall. intros ir _. apply not_elem_of_nil. }
  cbn [mbind result_bind].
  (* the stage of the families *)
  assert (∃ cols2,
            (if bool_decide (families ≠ []) then
               family_dfs ← family_loop families (rows df) [] ;
               match family_dfs with
               | [] => Ok {| columns := cols1;
                             rows := selected_by_controls df controls |}
               | _ :: _ =>
                   Ok (concat_frames
                         {| columns := cols1;
                            rows := selected_by_controls df controls |}
                         {| columns := columns df; rows := family_dfs |})
               end
             else Ok {| columns := cols1; rows := selected_by_controls df controls |})
            = Ok {| columns := cols2;
                    rows := selected_by_controls df controls
                            ++ selected_by_families df families |}
            ∧ (cols2 = [] ∨ cols2 = columns df)
            ∧ (selected_by_controls df controls ++ selected_by_families df families
               ≠ [] → cols2 = columns df))
    as (cols2 & -> & Hc2 & Hc2').
  { unfold selected_by_families. case_bool_decide as Hfs.
    - rewrite (family_loop_filter _ _ [] Hrows). cbn [mbind result_bind app].
      destruct (filter _ (rows df)) as [|ir l] eqn:Hsel.
      + exists cols1. rewrite app_nil_r. by auto.
      + exists (columns df). split; [|by auto].
        destruct Hc1 as [-> | ->].
        * assert (selected_by_controls df controls = []) as ->.
          { destruct (decide (selected_by_controls df controls = [])) as [?|Hne];
              [done|]. specialize (Hc1' Hne). rewrite <- Hc1' in Hcol.
            by apply elem_of_nil in Hcol. }
          by rewrite concat_frames_first.
        * by rewrite concat_frames_next.
    - exists cols1. subst families.
      rewrite (filter_none _ (rows df)).
      + rewrite app_nil_r. by auto.
      + apply Forall_forall. intros ir _ [_ H]. by apply elem_of_nil in H. }
  cbn [mbind result_bind].
  (* the stage of the range *)
  set (R12 := selected_by_controls df controls ++ selected_by_families df families)
    in *.
  rewrite app_assoc. fold R12.
  assert (∃ cols3,
            (if bool_decide (control_range ≠ "") then
               match range_rows int df control_range with
               | Some (ir :: range_dfs) =>
                   concat_frames {| columns := cols2; rows := R12 |}
                     {| columns := columns df; rows := ir :: range_dfs |}
               | _ => {| columns := cols2; rows := R12 |}
               end
             else {| columns := cols2; rows := R12 |})
            = {| columns := cols3;
                 rows := R12 ++ selected_by_range int df control_range |}
            ∧ (R12 ++ selected_by_range int df control_range ≠ [] →
               cols3 = columns df))
    as (cols3 & -> & Hc3).
  { unfold selected_by_range. case_bool_decide as Hr.
    - rewrite bool_decide_eq_false_2 by done.
      destruct (range_rows int df control_range) as [[|ir l]|]; cbn [default from_option id].
      + exists cols2. by rewrite app_nil_r.
      + exists (columns df). split; [|done].
        destruct Hc2 as [-> | ->].
        * assert (R12 = []) as ->.
          { destruct (decide (R12 = [])) as [?|Hne]; [done|].
            specialize (Hc2' Hne). rewrite <- Hc2' in Hcol.
            by apply elem_of_nil in Hcol. }
          by rewrite concat_frames_first.
        * by rewrite concat_frames_next.
      + exists cols2. by rewrite app_nil_r.
    - subst control_range.
      rewrite bool_decide_eq_true_2 by done. exists cols2. by rewrite app_nil_r. }
  cbn [rows columns].
  set (R := R12 ++ selected_by_range int df control_range) in *.
  exists cols3. case_bool_decide as Hempty.
  - assert (R = []) as HR.
    { destruct Hempty as [?|Hcols]; [done|]. destruct R; [done|].
      rewrite Hc3 in Hcols by done. rewrite Hcols in Hcol.
      by apply elem_of_nil in Hcol. }
    rewrite HR. by split.
  - unfold drop_duplicates. cbn [columns rows].
    assert (R ≠ []) as HR by tauto.
    rewrite (Hc3 HR). rewrite bool_decide_eq_true_2 by done. by split.
Qed.

End filtering.

Section range.

Variable int : string → option Z.

Lemma in_control_range_true start_parts end_parts control_parts :
  in_control_range int start_parts end_parts control_parts = Some true
  ↔ ∃ a b c s e cv sv ev,
      control_parts = [a; b; c] ∧ start_parts = [a; b; s]
      ∧ end_parts !! 2%nat = Some e
      ∧ int c = Some cv ∧ int s = Some sv ∧ int e = Some ev
      ∧ sv ≤ cv ≤ ev.
Proof.
  unfold in_control_range. split.
  - destruct control_parts as [|c0 [|c1 [|c2 [|? ?]]]]; try done;
      destruct start_parts as [|s0 [|s1 [|s2 [|? ?]]]]; try done.
    destruct (decide (c0 = s0)) as [->|?];
      [|by rewrite bool_decide_eq_false_2].
    destruct (decide (c1 = s1)) as [->|?];
      [|by rewrite (bool_decide_eq_false_2 (c1 = s1)), andb_false_r].
    rewrite !bool_decide_eq_true_2 by done. cbn [andb].
    destruct (int c2) as [cv|] eqn:Hc; [|done]. cbn [mbind option_bind].
    destruct (int s2) as [sv|] eqn:Hs; [|done]. cbn [mbind option_bind].
    case_bool_decide as Hle; [|done].
    destruct (end_parts !! 2%nat) as [e|] eqn:He; [|done]. cbn [mbind option_bind].
    destruct (int e) as [ev|] eqn:Hev; [|done]. cbn [mbind option_bind].
    intros [= Hle2%bool_decide_eq_true].
    exists s0, s1, c2, s2, e, cv, sv, ev. by repeat split.
  - intros (a & b & c & s & e & cv & sv & ev & -> & -> & He & Hc & Hs & Hev & Hle1 & Hle2).
    rewrite !bool_decide_eq_true_2 by done. cbn [andb].
    rewrite Hc. cbn [mbind option_bind]. rewrite Hs. cbn [mbind option_bind].
    rewrite bool_decide_eq_true_2 by done.
    rewrite He. cbn [mbind option_bind]. rewrite Hev. cbn [mbind option_bind].
    by rewrite bool_decide_eq_true_2.
Qed.

Lemma in_control_range_breaks start_parts end_parts a b c s :
  start_parts = [a; b; s] → int c = None →
  in_control_range int start_parts end_parts [a; b; c] = None.
Proof.
  intros -> Hc. unfold in_control_range.
  rewrite !bool_decide_eq_true_2 by done. cbn [andb]. by rewrite Hc.
Qed.

Lemma range_loop_filter start_parts end_parts rs : ∀ range_dfs sel,
  range_loop int start_parts end_parts rs range_dfs = Some sel →
  sel = range_dfs
        ++ filter (λ ir, isna (id_cell_of ir) = false
                         ∧ in_control_range int start_parts end_parts
                             (Py.split "." (str (id_cell_of ir))) = Some true) rs.
Proof.
  induction rs as [|[index r] rs IH]; intros acc sel.
  { cbn. intros [= <-]. by rewrite app_nil_r. }
  cbn [range_loop]. destruct (r !! "CMMC_ID") as [v|] eqn:Hv; [|done].
  cbn [mbind option_bind].
  assert (id_cell_of (index, r) = v) as Hid.
  { unfold id_cell_of. cbn [snd]. by rewrite Hv. }
  rewrite filter_cons, Hid. destruct (isna v) eqn:Hna.
  - rewrite decide_False by (by intros [? _]). apply IH.
  - destruct (in_control_range int start_parts end_parts (Py.split "." (str v)))
      as [[|]|] eqn:Hin; [| |done]; cbn [mbind option_bind].
    + rewrite decide_True by done. intros ->%IH. by rewrite <- app_assoc.
    + rewrite decide_False by (by intros [_ ?]). apply IH.
Qed.

Lemma range_loop_breaks start_parts end_parts rs : ∀ range_dfs,
  Exists (breaks_range int start_parts) rs →
  range_loop int start_parts end_parts rs range_dfs = None.
Proof.
  induction rs as [|[index r] rs IH]; intros acc Hex.
  { by apply Exists_nil in Hex. }
  cbn [range_loop]. destruct (r !! "CMMC_ID") as [v|] eqn:Hv; [|done].
  cbn [mbind option_bind].
  assert (id_cell_of (index, r) = v) as Hid.
  { unfold id_cell_of. cbn [snd]. by rewrite Hv. }
  apply Exists_cons in Hex as [(Hna & a & b & c & s & Hsplit & Hstart & Hc)|Hex].
  - rewrite Hid in Hna, Hsplit. rewrite Hna, Hsplit.
    by rewrite (in_control_range_breaks _ _ a b c s).
  - destruct (isna v); [by apply IH|].
    destruct (in_control_range _ _ _ _) as [[|]|]; [by apply IH..|done].
Qed.

End range.

(** X10. Identifiers must be text for the documents.  When the first row of
    the table has a number as identifier, [generate_docx_files] stops with
    [AttributeError] (a number has no [split]) before any file is saved,
    whatever the rows after it hold. *)
Theorem docx_files_need_text_identifiers
    (m : evidence_map) (now : string) (index z : Z) (r : row) (df : list (Z * row)) :
  r !! "CMMC_ID" = Some (Int z) →
  Forall (λ ir : Z * row, is_Some (ir.2 !! "CMMC_ID")) df →
  generate_docx_files m now ((index, r) :: df) = ([], Some RaisedAttributeError).
Proof.
  intros Hr Hdf. unfold generate_docx_files.
  assert (group_by_family [] ((index, r) :: df)
          = Ok (grouped (identified_rows ((index, r) :: df)))) as ->.
  { apply (group_by_family_grouped ((index, r) :: df) []).
    apply Forall_cons. split; [by eexists|done]. }
  unfold identified_rows. cbn [fmap list_fmap snd].
  rewrite filter_cons_True by (by rewrite Hr).
  unfold grouped. cbn [fmap list_fmap keep_first].
  rewrite filter_cons_True by done.
  cbn [docx_families]. unfold docx_family, family_title. by rewrite Hr.
Qed.

Lemma docx_files_need_text_identifiers_witness :
  generate_docx_files ∅ "2025-01-01 00:00:00" [(0, numbered_row); (1, poam_row_score3)]
  = ([], Some RaisedAttributeError).
Proof.
  apply (docx_files_need_text_identifiers ∅ _ 0 7 numbered_row [(1, poam_row_score3)]).
  - reflexivity.
  - apply Forall_cons. split; [by eexists|apply Forall_nil_2].
Defined.

Section filter_results.

Variable int : string → option Z.

Lemma selected_by_range_rows (df : frame) control_range ir :
  ir ∈ selected_by_range int df control_range → ir ∈ rows df.
Proof.
  unfold selected_by_range, range_rows. case_bool_decide; [by intros ?%elem_of_nil|].
  destruct (Py.split "-" control_range) as [|start [|end_ [|? ?]]];
    try by intros ?%elem_of_nil.
  destruct (range_loop _ _ _ _ _) as [sel|] eqn:Hsel; [|by intros ?%elem_of_nil].
  apply range_loop_filter in Hsel as ->. cbn [default from_option id app].
  by intros [_ ?]%list_elem_of_filter.
Qed.

End filter_results.

(** X11. What [filter_dataframe] returns when a criterion is given.  On a
    table with the [CMMC_ID] column it raises nothing.  The rows it returns
    are the rows selected by identifier, then by family, then by range,
    with, of the rows that have the same identifier cell, only the first
    kept: every returned row is a row of the table that meets a criterion,
    no two returned rows have the same identifier, and every row that meets
    a criterion has its identifier among those returned.  A table with rows
    keeps the columns of the input. *)
Theorem filter_dataframe_selection (int : string → option Z) (df : frame)
    (controls families : list string) (control_range : string) :
  "CMMC_ID" ∈ columns df →
  Forall (λ ir : Z * row, is_Some (ir.2 !! "CMMC_ID")) (rows df) →
  ¬ (controls = [] ∧ families = [] ∧ control_range = "") →
  ∃ f,
    filter_dataframe int df controls families control_range = Ok f
    ∧ rows f = drop_duplicates_go []
                 (selected_by_controls df controls
                  ++ selected_by_families df families
                  ++ selected_by_range int df control_range)
    ∧ (rows f ≠ [] → columns f = columns df)
    ∧ NoDup (id_cell_of <$> rows f)
    ∧ (∀ ir, ir ∈ rows f →
         ir ∈ rows df
         ∧ (str (id_cell_of ir) ∈ controls
            ∨ (isna (id_cell_of ir) = false ∧ row_family_key ir.2 ∈ families)
            ∨ ir ∈ selected_by_range int df control_range))
    ∧ (∀ ir, ir ∈ rows df →
         str (id_cell_of ir) ∈ controls
         ∨ (isna (id_cell_of ir) = false ∧ row_family_key ir.2 ∈ families)
         ∨ ir ∈ selected_by_range int df control_range →
         id_cell_of ir ∈ id_cell_of <$> rows f).
Proof.
  intros Hcol Hrows Hsome.
  destruct (filter_dataframe_rows int df controls families control_range
              Hcol Hrows Hsome) as (cols & Hrun & Hcols).
  eexists. split; [exact Hrun|]. cbn [rows columns].
  unfold filter_candidates in *.
  set (R := selected_by_controls df controls ++ selected_by_families df families
            ++ selected_by_range int df control_range) in *.
  assert (∀ ir, ir ∈ R ↔
            ir ∈ rows df
            ∧ (str (id_cell_of ir) ∈ controls
               ∨ (isna (id_cell_of ir) = false ∧ row_family_key ir.2 ∈ families)
               ∨ ir ∈ selected_by_range int df control_range)) as HR.
  { intros ir. unfold R, selected_by_controls, selected_by_families.
    rewrite !elem_of_app, !list_elem_of_filter. split.
    - intros [[? ?]|[[? ?]|Hr]]; [by auto..|].
      split; [by eapply selected_by_range_rows|by auto].
    - intros [Hin [?|[?|?]]]; by auto. }
  split; [done|]. split.
  { intros Hne. apply Hcols. intros HRnil. apply Hne. by rewrite HRnil. }
  split; [apply drop_duplicates_go_NoDup|]. split.
  - intros ir Hir%drop_duplicates_go_elem. by apply HR.
  - intros ir Hin Hcrit.
    destruct (drop_duplicates_go_covers [] R ir) as [Hnil|?]; [|by apply elem_of_nil in Hnil|done].
    apply HR. by split.
Qed.

Lemma filter_dataframe_selection_witness :
  ∃ f,
    filter_dataframe decimal three_controls ["3.4.1"; "3.1.2"] ["CM"] "3.1.1-3.1.2"
    = Ok f
    ∧ rows f = [(1, cm_row); (2, poam_row_score1); (0, poam_row_score3)]
    ∧ NoDup (id_cell_of <$> rows f).
Proof.
  destruct (filter_dataframe_selection decimal three_controls
              ["3.4.1"; "3.1.2"] ["CM"] "3.1.1-3.1.2")
    as (f & Hrun & Hrows & _ & Hnd & _).
  - apply (bool_decide_unpack _). by vm_compute.
  - repeat (apply Forall_cons; split; [by eexists|]). apply Forall_nil_2.
  - intros [? _]. discriminate.
  - exists f. split; [exact Hrun|]. split; [|exact Hnd].
    rewrite Hrows. reflexivity.
Defined.

(** X12. What a range selects, when reading it raises nothing.  The range
    text has exactly one [-]; the rows selected are, in table order, the
    rows with an identifier of three dot-separated segments whose first two
    segments are those of the start of the range and whose third segment is
    an integer between the third segment of the start and the third segment
    of the end.  The first two segments of the end are not looked at. *)
Theorem range_selects_third_segment (int : string → option Z) (df : frame)
    (control_range : string) (sel : list (Z * row)) :
  range_rows int df control_range = Some sel →
  ∃ start end_,
    Py.split "-" control_range = [start; end_]
    ∧ sel `sublist_of` rows df
    ∧ ∀ ir, ir ∈ sel
            ↔ ir ∈ rows df
              ∧ within_range int (Py.split "." start) (Py.split "." end_) ir.
Proof.
  unfold range_rows.
  destruct (Py.split "-" control_range) as [|start [|end_ [|? ?]]]; try done.
  intros Hsel%range_loop_filter. cbn [app] in Hsel. subst sel.
  exists start, end_. split; [done|]. split; [apply sublist_filter|].
  intros ir. rewrite list_elem_of_filter, in_control_range_true.
  unfold within_range. tauto.
Qed.

Lemma range_selects_third_segment_witness :
  ∃ start end_,
    Py.split "-" "3.1.2-9.9.7" = [start; end_]
    ∧ [(2, poam_row_score1)] `sublist_of` rows three_controls
    ∧ ∀ ir, ir ∈ [(2, poam_row_score1)]
            ↔ ir ∈ rows three_controls
              ∧ within_range decimal (Py.split "." start) (Py.split "." end_) ir.
Proof.
  apply (range_selects_third_segment decimal three_controls "3.1.2-9.9.7").
  reflexivity.
Defined.

(** X13. A range is taken whole or not at all.  When the range text has not
    exactly one [-], or when some row of the table with an identifier of
    three segments in the family of the start has a third segment that is
    no integer, reading the range raises, and the range then selects no
    row at all, not even the rows before the offending one that lie within
    it. *)
Theorem range_dropped_when_it_raises (int : string → option Z) (df : frame)
    (control_range : string) :
  (length (Py.split "-" control_range) ≠ 2%nat
   ∨ ∃ start end_,
       Py.split "-" control_range = [start; end_]
       ∧ Exists (breaks_range int (Py.split "." start)) (rows df)) →
  range_rows int df control_range = None
  ∧ selected_by_range int df control_range = []
  ∧ ∀ controls families,
      filter_candidates int df controls families control_range
      = selected_by_controls df controls ++ selected_by_families df families.
Proof.
  intros Hbad.
  assert (range_rows int df control_range = None) as Hnone.
  { unfold range_rows. destruct Hbad as [Hlen|(start & end_ & -> & Hex)].
    - by destruct (Py.split "-" control_range) as [|? [|? [|? ?]]].
    - by apply range_loop_breaks. }
  assert (selected_by_range int df control_range = []) as Hsel.
  { unfold selected_by_range. rewrite Hnone. by case_bool_decide. }
  split; [done|]. split; [done|].
  intros controls families. unfold filter_candidates. by rewrite Hsel, app_nil_r.
Qed.

Lemma range_dropped_when_it_raises_witness :
  range_rows decimal
    {| columns := columns three_controls;
       rows := [(0, poam_row_score3); (1, odd_row)] |} "3.1.1-3.1.5"
  = None.
Proof.
  refine (proj1 (range_dropped_when_it_raises decimal _ "3.1.1-3.1.5" _)).
  right. exists "3.1.1", "3.1.5". split; [reflexivity|].
  apply Exists_cons_tl, Exists_cons_hd. split; [reflexivity|].
  exists "3", "1", "x", "1". by repeat split.
Defined.

(** ** Clean rows *)

Section clean_rows.

Lemma in_ints_3_5_valid score : in_ints score [3; 5] = true → in_ints score [1; 3; 5] = true.
Proof.
  destruct score as [|s|z]; try done. cbn [in_ints].
  rewrite !bool_decide_eq_true. intros H. by right.
Qed.

Lemma validate_row_verdict index r :
  has_columns r →
  ∃ e w,
    validate_row ([], []) (index, r) = Ok (e, w)
    ∧ (length e ≤ 1)%nat ∧ (length w ≤ 1)%nat
    ∧ (e = [] ↔ clean_row r).
Proof.
  intros ([id_cell Hi] & [control Hc] & [score Hs] & [status Ha]).
  unfold validate_row, getitem. rewrite Hi. cbn [mbind result_bind].
  destruct (isna id_cell || bool_decide (Py.strip (str id_cell) = "")) eqn:Hid.
  { eexists _, _. split; [done|]. cbn [app length]. split; [lia|]. split; [lia|].
    split; [done|]. intros (id' & ? & ? & Hi' & Hna & Hne & _). exfalso.
    rewrite Hi in Hi'. injection Hi' as <-.
    apply orb_true_iff in Hid as [Hid|Hid%bool_decide_eq_true]; congruence. }
  apply orb_false_iff in Hid as [Hna Hne%bool_decide_eq_false].
  rewrite Hc. cbn [mbind result_bind]. rewrite Hs. cbn [mbind result_bind].
  assert (∀ w : list string,
            (if isna control || is_empty_str control
             then [] ++ ["Control " +:+ str id_cell +:+ ": Missing Control description"]
             else []) = w → (length w ≤ 1)%nat) as Hw.
  { intros w <-. destruct (isna control || is_empty_str control); cbn; lia. }
  destruct (in_ints score [3; 5]) eqn:H35.
  - rewrite (in_ints_3_5_valid _ H35). cbn [negb]. rewrite Ha.
    cbn [mbind result_bind]. case_bool_decide as Hpoam.
    + eexists _, _. split; [done|]. cbn [app length]. split; [lia|].
      split; [by eapply Hw|]. split; [done|].
      intros (? & score' & status' & _ & _ & _ & Hs' & Ha' & _ & Hno). exfalso.
      rewrite Hs in Hs'. rewrite Ha in Ha'. simplify_eq. by apply Hno.
    + eexists _, _. split; [done|]. cbn [length]. split; [lia|].
      split; [by eapply Hw|]. split; [|done]. intros _.
      exists id_cell, score, status. split_and!; try done.
      * by apply in_ints_3_5_valid.
      * by intros [_ ?].
  - destruct (in_ints score [1; 3; 5]) eqn:H135; cbn [negb].
    + eexists _, _. split; [done|]. cbn [length]. split; [lia|].
      split; [by eapply Hw|]. split; [|done]. intros _.
      exists id_cell, score, status. split_and!; try done.
      intros [? _]. congruence.
    + eexists _, _. split; [done|]. cbn [app length]. split; [lia|].
      split; [by eapply Hw|]. split; [done|].
      intros (? & score' & ? & _ & _ & _ & Hs' & _ & Hvalid & _). exfalso.
      rewrite Hs in Hs'. injection Hs' as <-. congruence.
Qed.

End clean_rows.

(** X14. Which tables validate without error.  On a table whose rows carry
    the four columns the validator reads, every row adds at most one error
    and at most one warning (an invalid score and the POA&M error exclude
    each other), so neither list grows by more than the number of rows; and
    the validator adds no error at all exactly when every row is clean: it
    has an identifier, a score of 1, 3 or 5, and no POA&M status on a score
    of 3 or 5. *)
Theorem validation_clean_table (df : list (Z * row)) :
  Forall (λ ir : Z * row, has_columns ir.2) df →
  ∃ errors warnings,
    validate_csv_data ([], []) df = Ok (errors, warnings)
    ∧ (length errors ≤ length df)%nat
    ∧ (length warnings ≤ length df)%nat
    ∧ (errors = [] ↔ Forall (λ ir : Z * row, clean_row ir.2) df).
Proof.
  intros Hcols.
  destruct (validate_csv_data_collects df [] [] Hcols) as (findings & Hall & ->).
  eexists _, _. split; [done|]. cbn [app].
  induction Hall as [|[index r] [e w] df findings Hrow Hall IH].
  { cbn. split; [lia|]. split; [lia|]. split; [by constructor|done]. }
  apply Forall_cons in Hcols as [Hr Hcols]. cbn [snd] in Hr.
  destruct (validate_row_verdict index r Hr) as (e' & w' & Hrow' & He & Hw & Hclean).
  rewrite Hrow in Hrow'. injection Hrow' as <- <-.
  destruct (IH Hcols) as (IHe & IHw & IHc).
  cbn [fmap list_fmap concat fst snd length]. rewrite !length_app.
  split; [lia|]. split; [lia|]. split.
  - intros [He0 Hrest]%app_eq_nil. apply Forall_cons. split.
    + by apply Hclean.
    + by apply IHc.
  - intros [Hc1 Hc2]%Forall_cons.
    by rewrite (proj2 Hclean Hc1), (proj2 IHc Hc2).
Qed.

Lemma validation_clean_table_witness :
  Forall (λ ir : Z * row, has_columns ir.2) [(0, cm_row); (1, poam_row_score1)]
  ∧ ∃ errors warnings,
      validate_csv_data ([], []) [(0, cm_row); (1, poam_row_score1)]
      = Ok (errors, warnings)
      ∧ (length errors ≤ 2)%nat ∧ (length warnings ≤ 2)%nat
      ∧ (errors = []
         ↔ Forall (λ ir : Z * row, clean_row ir.2) [(0, cm_row); (1, poam_row_score1)]).
Proof.
  assert (Forall (λ ir : Z * row, has_columns ir.2)
            [(0, cm_row); (1, poam_row_score1)]) as Hcols.
  { repeat (apply Forall_cons; split; [repeat split; by eexists|]).
    apply Forall_nil_2. }
  split; [exact Hcols|]. exact (validation_clean_table _ Hcols).
Defined.

(** ** More on the normaliser and the index *)

Section more_index.

Lemma count_replace_pipe s :
  PyMore.count ";" (Py.replace "|" ";" s)
  = (PyMore.count ";" s + PyMore.count "|" s)%nat.
Proof.
  induction s as [|c s IH]; [done|]. cbn [Py.replace PyMore.count].
  rewrite IH. destruct (decide (c = "|"%char)) as [->|Hp].
  - rewrite !(bool_decide_eq_true_2 ("|"%char = "|"%char)) by done.
    rewrite (bool_decide_eq_true_2 (";"%char = ";"%char)) by done.
    rewrite (bool_decide_eq_false_2 ("|"%char = ";"%char)) by done. lia.
  - rewrite !(bool_decide_eq_false_2 (c = "|"%char)) by done.
    case_bool_decide; lia.
Qed.

Lemma add_evidence_insert e (m : evidence_map) c :
  add_evidence e m c =
    if decide (Py.strip c = "") then m
    else <[Py.strip c := default [] (m !! Py.strip c) ++ [e]]> m.
Proof.
  unfold add_evidence. destruct (decide (Py.strip c = "")) as [Hc|Hc].
  - by rewrite bool_decide_eq_true_2.
  - rewrite bool_decide_eq_false_2 by done. cbn [negb].
    destruct (m !! Py.strip c) eqn:Hm; [by rewrite Hm|].
    by rewrite lookup_insert_eq, insert_insert_eq.
Qed.

Lemma total_evidence_insert (m : evidence_map) k l :
  (total_evidence (<[k := l]> m) + length (default [] (m !! k))
   = total_evidence m + length l)%nat.
Proof.
  unfold total_evidence. destruct (m !! k) as [old|] eqn:Hk.
  - rewrite <- (map_to_list_delete m k old Hk), <- insert_delete_eq.
    rewrite map_to_list_insert by apply lookup_delete_eq. cbn. lia.
  - rewrite map_to_list_insert by done. cbn. lia.
Qed.

Lemma total_evidence_add e (m : evidence_map) c :
  total_evidence (add_evidence e m c)
  = (total_evidence m + if decide (Py.strip c = "") then 0 else 1)%nat.
Proof.
  rewrite add_evidence_insert. case_decide as Hc; [lia|].
  pose proof (total_evidence_insert m (Py.strip c)
                (default [] (m !! Py.strip c) ++ [e])) as Hins.
  rewrite length_app in Hins. cbn [length] in Hins. lia.
Qed.

Lemma total_evidence_foldl e ids : ∀ m : evidence_map,
  Forall (λ c, Py.strip c = c) ids →
  total_evidence (foldl (add_evidence e) m ids)
  = (total_evidence m + length (filter (λ c, c ≠ "") ids))%nat.
Proof.
  induction ids as [|c ids IH]; intros m Hids; [cbn; lia|].
  apply Forall_cons in Hids as [Hc Hids]. cbn [foldl].
  rewrite (IH _ Hids), total_evidence_add, Hc, filter_cons.
  destruct (decide (c = "")) as [->|Hne].
  - rewrite decide_False by (by intros ?). lia.
  - rewrite decide_True by done. cbn [length]. lia.
Qed.

Lemma total_evidence_row m r :
  total_evidence (load_evidence_row m r) = (total_evidence m + row_links r)%nat.
Proof.
  rewrite load_evidence_row_mappings. unfold row_links.
  destruct (marked_ignore r); [lia|].
  apply total_evidence_foldl, cmmc_mappings_stripped.
Qed.

Lemma occurrences_elem id ids : occurrences id ids ≠ 0%nat → id ∈ ids.
Proof.
  intros Hocc. destruct (decide (id ∈ ids)) as [?|Hnin]; [done|].
  by rewrite (occurrences_zero _ _ Hnin) in Hocc.
Qed.

Lemma load_evidence_row_extends m r id :
  ∃ added,
    default [] (load_evidence_row m r !! id) = default [] (m !! id) ++ added
    ∧ (is_Some (m !! id) → is_Some (load_evidence_row m r !! id))
    ∧ (added ≠ [] ↔
       marked_ignore r = false ∧ id ≠ "" ∧ id ∈ cmmc_mappings r).
Proof.
  rewrite load_evidence_row_lookup.
  destruct (marked_ignore r).
  { exists []. rewrite app_nil_r. split; [done|]. split; [done|]. by split; [|intros [? _]]. }
  case_decide as Hid.
  { exists []. rewrite app_nil_r. split; [done|]. split; [done|].
    split; [done|]. by intros (_ & ? & _). }
  destruct (occurrences id (cmmc_mappings r)) as [|k] eqn:Hocc.
  - exists []. rewrite app_nil_r. split; [done|]. split; [done|].
    split; [done|]. intros (_ & _ & Hin).
    pose proof (occurrences_pos _ _ Hin). lia.
  - exists (replicate (S k) (format_evidence_entry r)).
    split; [done|]. split; [by eexists|]. split; [|done]. intros _.
    split; [done|]. split; [done|]. apply occurrences_elem. lia.
Qed.

Lemma load_evidence_row_ok m r : index_ok m → index_ok (load_evidence_row m r).
Proof.
  intros Hm id l. rewrite load_evidence_row_lookup.
  destruct (marked_ignore r); [apply Hm|].
  case_decide; [apply Hm|].
  destruct (occurrences id (cmmc_mappings r)) as [|k] eqn:Hocc; [apply Hm|].
  intros [= <-]. split; [|split; [done|]].
  - cbn [replicate]. by destruct (default [] (m !! id)).
  - assert (id ∈ cmmc_mappings r) as Hin by (apply occurrences_elem; lia).
    pose proof (cmmc_mappings_stripped r) as Hs. rewrite Forall_forall in Hs.
    by apply Hs.
Qed.

Lemma load_evidence_enrichment_ok evidence_df : ∀ m,
  index_ok m → index_ok (load_evidence_enrichment m evidence_df).
Proof.
  unfold load_evidence_enrichment.
  induction evidence_df as [|r df IH]; intros m Hm; [done|].
  cbn [foldl]. by apply IH, load_evidence_row_ok.
Qed.

Lemma load_evidence_enrichment_extends evidence_df id : ∀ m,
  ∃ added,
    default [] (load_evidence_enrichment m evidence_df !! id)
    = default [] (m !! id) ++ added
    ∧ (is_Some (m !! id) →
       is_Some (load_evidence_enrichment m evidence_df !! id)).
Proof.
  unfold load_evidence_enrichment.
  induction evidence_df as [|r df IH]; intros m.
  { exists []. by rewrite app_nil_r. }
  cbn [foldl].
  destruct (load_evidence_row_extends m r id) as (a1 & H1 & Hs1 & _).
  destruct (IH (load_evidence_row m r)) as (a2 & H2 & Hs2).
  exists (a1 ++ a2). rewrite H2, H1, <- app_assoc. split; [done|]. auto.
Qed.

Lemma load_evidence_enrichment_empty_key evidence_df : ∀ m,
  load_evidence_enrichment m evidence_df !! "" = m !! "".
Proof.
  unfold load_evidence_enrichment.
  induction evidence_df as [|r df IH]; intros m; [done|]. cbn [foldl].
  rewrite IH, load_evidence_row_lookup. destruct (marked_ignore r); [done|].
  by rewrite decide_True.
Qed.

End more_index.

(** X15. The index only grows by appending.  Loading an evidence table
    never removes an identifier, never changes or reorders the entries an
    identifier already has (the old list is a prefix of the new one) and
    never files anything under the empty identifier.  In an index built
    from nothing every list has an entry, and every key is a trimmed,
    non-empty text. *)
Theorem index_grows_by_appending (m : evidence_map) (evidence_df : list row) :
  (∀ id, ∃ added,
     default [] (load_evidence_enrichment m evidence_df !! id)
     = default [] (m !! id) ++ added
     ∧ (is_Some (m !! id) →
        is_Some (load_evidence_enrichment m evidence_df !! id)))
  ∧ load_evidence_enrichment m evidence_df !! "" = m !! ""
  ∧ (index_ok m → index_ok (load_evidence_enrichment m evidence_df))
  ∧ index_ok (load_evidence_enrichment ∅ evidence_df).
Proof.
  split; [|split; [|split]].
  - intros id. apply load_evidence_enrichment_extends.
  - apply load_evidence_enrichment_empty_key.
  - apply load_evidence_enrichment_ok.
  - apply load_evidence_enrichment_ok. intros id l Hl. by rewrite lookup_empty in Hl.
Qed.

Lemma index_grows_by_appending_witness :
  is_Some (({[ "3.4.1" := ["old entry"] ]} : evidence_map) !! "3.4.1")
  ∧ load_evidence_enrichment {[ "3.4.1" := ["old entry"] ]} [backup_row] !! "3.4.1"
    = Some ["old entry"; "[http://s] - Backup logs"]
  ∧ index_ok (load_evidence_enrichment {[ "3.4.1" := ["old entry"] ]} [backup_row]).
Proof.
  pose proof (index_grows_by_appending {[ "3.4.1" := ["old entry"] ]} [backup_row])
    as (_ & _ & Hok & _).
  split; [by eexists|]. split; [reflexivity|]. apply Hok.
  intros id l. destruct (decide (id = "3.4.1")) as [->|Hne].
  - rewrite lookup_singleton_eq. by intros [= <-].
  - by rewrite lookup_singleton_ne.
Defined.

(** X16. What the normaliser produces.  Every item is trimmed and contains
    neither [;] nor [|], and there are never more items than the text has
    delimiters, plus one. *)
Theorem normalizer_items_clean_and_few (content : value) :
  (∀ x, x ∈ parse_delimited_content content →
        Py.strip x = x ∧ occurs ";" x = false ∧ occurs "|" x = false)
  ∧ (length (parse_delimited_content content)
     ≤ S (PyMore.count ";" (str content) + PyMore.count "|" (str content)))%nat.
Proof.
  split.
  - intros x Hx. split; [by eapply produced_item_stripped|].
    by eapply produced_item_no_delimiter.
  - rewrite parse_delimited_content_normalize. unfold NormalizerSpec.normalize.
    assert (∀ s, (length (NormalizerSpec.strip_trailing_period
                            <$> filter NormalizerSpec.kept
                                  (Py.strip <$> Py.split ";" (Py.replace "|" ";" s)))
                  ≤ S (PyMore.count ";" s + PyMore.count "|" s))%nat) as Hlen.
    { intros s. rewrite length_fmap.
      etrans; [apply length_filter|].
      by rewrite length_fmap, length_split, count_replace_pipe. }
    destruct content; [cbn; lia|apply Hlen..].
Qed.

Lemma normalizer_items_clean_and_few_witness :
  ("b" ∈ parse_delimited_content (Str " a ;b.| header ;"))
  ∧ Py.strip "b" = "b" ∧ occurs ";" "b" = false ∧ occurs "|" "b" = false
  ∧ (length (parse_delimited_content (Str " a ;b.| header ;")) ≤ 4)%nat.
Proof.
  assert ("b" ∈ parse_delimited_content (Str " a ;b.| header ;")) as Hin.
  { apply (bool_decide_unpack _). by vm_compute. }
  destruct (normalizer_items_clean_and_few (Str " a ;b.| header ;")) as [Hitems Hlen].
  destruct (Hitems "b" Hin) as (H1 & H2 & H3).
  split; [exact Hin|]. split; [exact H1|]. split; [exact H2|].
  split; [exact H3|exact Hlen].
Defined.

(** X17. The total of evidence entries the report prints counts the links
    of the evidence table: loading a table adds, for every row not marked
    IGNORE, one entry per non-empty identifier the row is mapped to (an
    identifier listed twice counts twice), and nothing else. *)
Theorem total_evidence_counts_links (m : evidence_map) (evidence_df : list row) :
  total_evidence (load_evidence_enrichment m evidence_df)
  = (total_evidence m + sum_list_with row_links evidence_df)%nat
  ∧ total_evidence (load_evidence_enrichment ∅ evidence_df)
    = sum_list_with row_links evidence_df.
Proof.
  assert (∀ m', total_evidence (load_evidence_enrichment m' evidence_df)
                = (total_evidence m' + sum_list_with row_links evidence_df)%nat) as H.
  { unfold load_evidence_enrichment.
    induction evidence_df as [|r df IH]; intros m'; [cbn; lia|].
    cbn [foldl sum_list_with]. rewrite IH, total_evidence_row. lia. }
  split; [apply H|]. rewrite H. unfold total_evidence at 1.
  by rewrite map_to_list_empty.
Qed.
